(** * AirfarePrediction, stage 5 (model training): a shallow embedding

    Source: [src/Pipeline/s5_Model_Training.py].

    The script is glue code around scikit-learn, numpy, pandas and MLflow.
    The two classes of the script, [ModelTrainerOptimizerClass] and
    [MLflowLoggerClass], are embedded method by method.  What the script
    calls in third-party libraries is modelled from the documented
    behaviour of those libraries and is marked as such where it is defined.

    Numbers.  Every number the script computes is an IEEE-754 binary64
    value.  The methods are written once, over an interface [Float64] of
    the operations they use, and the interface has two instances:
      - [binary64], Rocq's primitive floats: the arithmetic of the machine,
        rounding, overflow, NaN and infinities included; it evaluates;
      - [exact64], on the type [xreal]: the same special values over exact
        real arithmetic, the arithmetic the formulas of the specification
        are written in. *)

From Stdlib Require Import String.
From Stdlib Require Import ZArith List Bool Lia.
From Stdlib Require Import Reals Lra.
From Stdlib Require Import Floats.
Import ListNotations.

Set Implicit Arguments.

(* ================================================================== *)
(** * Part I: definitions                                               *)
(* ================================================================== *)

(** ** Python exceptions and results *)

Module Py.

(** The exceptions that can leave the embedded methods. *)
Inductive exn : Type :=
| ValueError          (* scikit-learn input validation, empty search *)
| ZeroDivisionError   (* true division of a built-in float by zero *)
| AttributeError      (* an instance attribute read before it is set *)
| FileNotFoundError   (* pandas.read_csv on a missing file *)
| MlflowException     (* a failed call of the tracking client *)
| Exception.          (* mlflow.start_run while a run is active *)

Inductive result (A : Type) : Type :=
| Ok (a : A)
| Raise (e : exn).

Arguments Ok {A} a.
Arguments Raise {A} e.

Definition bind {A B : Type} (c : result A) (k : A -> result B) : result B :=
  match c with
  | Ok a => k a
  | Raise e => Raise e
  end.

Definition is_ok {A : Type} (c : result A) : bool :=
  match c with Ok _ => true | Raise _ => false end.

End Py.

Import Py.

Declare Scope py_scope.
Delimit Scope py_scope with py.
Notation "x <- c ;; k" := (Py.bind c (fun x => k))
  (at level 61, c at next level, right associativity) : py_scope.
Notation "' p <- c ;; k" := (Py.bind c (fun p => k))
  (at level 61, p pattern, c at next level, right associativity) : py_scope.

(** ** Binary64 numbers *)

(** The operations of numpy and of Python's [float] that the script and the
    modelled library functions use. *)
Class Float64 (F : Type) : Type := {
  f_of_Z : Z -> F;            (* conversion of a Python [int] *)
  f_add : F -> F -> F;
  f_sub : F -> F -> F;
  f_mul : F -> F -> F;
  f_div : F -> F -> F;          (* IEEE division: x/0 is NaN or an infinity *)
  f_abs : F -> F;
  f_sqrt : F -> F;
  f_nan : F;
  f_eqb : F -> F -> bool;       (* [==]: false as soon as a side is NaN *)
  f_leb : F -> F -> bool;       (* [<=]: false as soon as a side is NaN *)
  f_ltb : F -> F -> bool;       (* [<]: false as soon as a side is NaN *)
  f_is_finite : F -> bool       (* [numpy.isfinite] *)
}.

Declare Scope f64_scope.
Delimit Scope f64_scope with f64.
Infix "+!" := f_add (at level 50, left associativity) : f64_scope.
Infix "-!" := f_sub (at level 50, left associativity) : f64_scope.
Infix "*!" := f_mul (at level 40, left associativity) : f64_scope.
Infix "/!" := f_div (at level 40, left associativity) : f64_scope.

(** *** The machine instance *)

Module Binary64.

(** A Python [int] is converted by rounding to the nearest binary64
    (exactly, below 2^53). *)
Definition of_Z (z : Z) : float :=
  SF2Prim (binary_normalize prec emax z 0%Z false).

End Binary64.

#[export] Instance binary64 : Float64 float := {|
  f_of_Z := Binary64.of_Z;
  f_add := PrimFloat.add;
  f_sub := PrimFloat.sub;
  f_mul := PrimFloat.mul;
  f_div := PrimFloat.div;
  f_abs := PrimFloat.abs;
  f_sqrt := PrimFloat.sqrt;
  f_nan := PrimFloat.nan;
  f_eqb := PrimFloat.eqb;
  f_leb := PrimFloat.leb;
  f_ltb := PrimFloat.ltb;
  f_is_finite := PrimFloat.is_finite
|}.

(** *** The exact instance *)

Module XReal.

(** A real number, an infinity with its sign, or NaN. *)
Inductive xreal : Type :=
| XFin (r : R)
| XInf (neg : bool)
| XNaN.

Definition Reqb (a b : R) : bool := if Req_dec_T a b then true else false.
Definition Rzerob (r : R) : bool := Reqb r 0.
Definition Rnegb (r : R) : bool := if Rlt_dec r 0 then true else false.
Definition Rleb (a b : R) : bool := if Rle_dec a b then true else false.
Definition Rltb (a b : R) : bool := if Rlt_dec a b then true else false.

Definition opp (x : xreal) : xreal :=
  match x with
  | XFin r => XFin (- r)
  | XInf s => XInf (negb s)
  | XNaN => XNaN
  end.

Definition add (x y : xreal) : xreal :=
  match x, y with
  | XNaN, _ | _, XNaN => XNaN
  | XFin a, XFin b => XFin (a + b)
  | XInf s, XFin _ | XFin _, XInf s => XInf s
  | XInf s, XInf t => if Bool.eqb s t then XInf s else XNaN
  end.

Definition sub (x y : xreal) : xreal := add x (opp y).

Definition mul (x y : xreal) : xreal :=
  match x, y with
  | XNaN, _ | _, XNaN => XNaN
  | XFin a, XFin b => XFin (a * b)
  | XInf s, XFin b | XFin b, XInf s =>
      if Rzerob b then XNaN else XInf (xorb s (Rnegb b))
  | XInf s, XInf t => XInf (xorb s t)
  end.

(** The zero divisors of the script are Python's [int] 0, hence +0. *)
Definition div (x y : xreal) : xreal :=
  match x, y with
  | XNaN, _ | _, XNaN => XNaN
  | XFin a, XFin b =>
      if Rzerob b then (if Rzerob a then XNaN else XInf (Rnegb a))
      else XFin (a / b)
  | XFin _, XInf _ => XFin 0
  | XInf s, XFin b => XInf (xorb s (Rnegb b))
  | XInf _, XInf _ => XNaN
  end.

Definition abs (x : xreal) : xreal :=
  match x with
  | XFin r => XFin (Rabs r)
  | XInf _ => XInf false
  | XNaN => XNaN
  end.

Definition sqrt (x : xreal) : xreal :=
  match x with
  | XFin r => if Rnegb r then XNaN else XFin (R_sqrt.sqrt r)
  | XInf false => XInf false
  | XInf true => XNaN
  | XNaN => XNaN
  end.

Definition eqb (x y : xreal) : bool :=
  match x, y with
  | XFin a, XFin b => Reqb a b
  | XInf s, XInf t => Bool.eqb s t
  | _, _ => false
  end.

Definition leb (x y : xreal) : bool :=
  match x, y with
  | XNaN, _ | _, XNaN => false
  | XFin a, XFin b => Rleb a b
  | XInf s, XInf t => s || negb t
  | XInf s, XFin _ => s
  | XFin _, XInf t => negb t
  end.

Definition ltb (x y : xreal) : bool :=
  match x, y with
  | XNaN, _ | _, XNaN => false
  | XFin a, XFin b => Rltb a b
  | XInf s, XInf t => s && negb t
  | XInf s, XFin _ => s
  | XFin _, XInf t => negb t
  end.

Definition is_finite (x : xreal) : bool :=
  match x with XFin _ => true | _ => false end.

End XReal.

Export XReal(xreal, XFin, XInf, XNaN).

#[export] Instance exact64 : Float64 xreal := {|
  f_of_Z := fun z => XFin (IZR z);
  f_add := XReal.add;
  f_sub := XReal.sub;
  f_mul := XReal.mul;
  f_div := XReal.div;
  f_abs := XReal.abs;
  f_sqrt := XReal.sqrt;
  f_nan := XNaN;
  f_eqb := XReal.eqb;
  f_leb := XReal.leb;
  f_ltb := XReal.ltb;
  f_is_finite := XReal.is_finite
|}.

(** ** Python scalars *)

(** A scalar is a built-in [float] or a [numpy.float64].  Both hold a
    binary64; they differ in true division by zero, which raises
    [ZeroDivisionError] on a built-in float and yields NaN or an infinity
    (with a warning) on a numpy scalar.  An operation between a scalar and
    a Python [int] keeps the kind of the scalar. *)
Inductive scalar_kind : Type := py_float | np_float64.

Record scalar (F : Type) : Type := Scalar { kind : scalar_kind; val : F }.

Arguments Scalar {F} kind val.

Section PythonArithmetic.

Context {F : Type} `{Float64 F}.
Local Open Scope f64_scope.

(** [i - x], the left operand a Python [int]. *)
Definition int_sub (i : Z) (x : scalar F) : scalar F :=
  Scalar (kind x) (f_of_Z i -! val x).

(** [x * i], the right operand a Python [int]. *)
Definition mul_int (x : scalar F) (i : Z) : scalar F :=
  Scalar (kind x) (val x *! f_of_Z i).

(** [x / i], the right operand a Python [int]. *)
Definition truediv_int (x : scalar F) (i : Z) : result (scalar F) :=
  match kind x with
  | py_float =>
      if (i =? 0)%Z then Raise ZeroDivisionError
      else Ok (Scalar py_float (val x /! f_of_Z i))
  | np_float64 => Ok (Scalar np_float64 (val x /! f_of_Z i))
  end.

(** [numpy.sqrt] of a scalar: always a [numpy.float64]; NaN (with a
    warning) on a negative argument. *)
Definition np_sqrt (x : scalar F) : scalar F :=
  Scalar np_float64 (f_sqrt (val x)).

End PythonArithmetic.

(** ** numpy arrays and pandas tables *)

(** A one-dimensional array. *)
Definition ndarray1 (F : Type) : Type := list F.

(** A two-dimensional array in row-major order.  [shape1] is the number of
    columns, which an array has even when it has no row. *)
Record ndarray2 (F : Type) : Type := {
  rows : list (list F);
  shape1 : nat
}.

Definition shape0 {F : Type} (a : ndarray2 F) : nat := length (rows a).

(** Every row has [shape1] entries. *)
Definition rectangular {F : Type} (a : ndarray2 F) : Prop :=
  Forall (fun r => length r = shape1 a) (rows a).

(** [a.ravel()]: the entries in C (row-major) order. *)
Definition ravel {F : Type} (a : ndarray2 F) : ndarray1 F := concat (rows a).

(** A parsed table: the header and the data rows. *)
Record DataFrame (F : Type) : Type := {
  columns : list string;
  values : list (list F)
}.

(** [numpy.array(df)]. *)
Definition np_array {F : Type} (df : DataFrame F) : ndarray2 F :=
  {| rows := values df; shape1 := length (columns df) |}.

(** The files the script reads, already parsed: CSV parsing itself is
    pandas' and is not modelled.  A path with no table is a missing file. *)
Definition filesystem (F : Type) : Type := string -> option (DataFrame F).

Definition read_csv {F : Type} (fs : filesystem F) (path : string)
  : result (DataFrame F) :=
  match fs path with
  | Some df => Ok df
  | None => Raise FileNotFoundError
  end.

(** ** numpy's summation *)

(** [numpy.add.reduce] over a contiguous vector, as numpy's [pairwise_sum]
    computes it for the floating-point types.  Fewer than 8 terms are added
    from left to right.  Up to 128 terms go to eight accumulators, term [i]
    to accumulator [i mod 8], block of eight after block of eight; the
    accumulators are then added in pairs and the terms left after the last
    full block are added one by one.  A longer vector is cut in two, the
    first part of the largest multiple of 8 that is at most half the
    length, and the sums of the two parts are added.  The reduction starts
    from the identity of the addition, +0.  (A release of numpy that starts
    the short sums from -0 gives the same sums but for the sign of a sum of
    negative zeros, on which no metric depends.) *)
Module Numpy.
Section PairwiseSum.

Variable A : Type.
Variable add : A -> A -> A.
Variable zero : A.

Definition accumulators : Type := (A * A * A * A * A * A * A * A)%type.

(** The unrolled loop: one full block of eight per turn. *)
Fixpoint unrolled (r : accumulators) (a : list A) : accumulators * list A :=
  match a with
  | a0 :: a1 :: a2 :: a3 :: a4 :: a5 :: a6 :: a7 :: rest =>
      let '(r0, r1, r2, r3, r4, r5, r6, r7) := r in
      unrolled (add r0 a0, add r1 a1, add r2 a2, add r3 a3,
                add r4 a4, add r5 a5, add r6 a6, add r7 a7) rest
  | _ => (r, a)
  end.

(** A vector of at most [PW_BLOCKSIZE = 128] terms. *)
Definition block_sum (a : list A) : A :=
  match a with
  | a0 :: a1 :: a2 :: a3 :: a4 :: a5 :: a6 :: a7 :: rest =>
      let '((r0, r1, r2, r3, r4, r5, r6, r7), tail) :=
        unrolled (a0, a1, a2, a3, a4, a5, a6, a7) rest in
      fold_left add tail
        (add (add (add r0 r1) (add r2 r3)) (add (add r4 r5) (add r6 r7)))
  | _ => fold_left add a zero
  end.

(** The recursion on the length, by fuel: a part is shorter than the whole,
    so that the length of the vector is fuel enough ([pairwise_sum_rec_fuel]
    below). *)
Fixpoint pairwise_sum_rec (fuel : nat) (a : list A) : A :=
  match fuel with
  | O => block_sum a
  | S fuel' =>
      let n := length a in
      if (n <=? 128)%nat then block_sum a
      else
        let n2 := (n / 2 - (n / 2) mod 8)%nat in
        add (pairwise_sum_rec fuel' (firstn n2 a))
            (pairwise_sum_rec fuel' (skipn n2 a))
  end.

Definition pairwise_sum (a : list A) : A := pairwise_sum_rec (length a) a.

Definition add_reduce (a : list A) : A := add zero (pairwise_sum a).

End PairwiseSum.
End Numpy.

(** ** scikit-learn's regression metrics *)

(** The three functions of [sklearn.metrics] that [calculate_metrics]
    calls, for one-dimensional inputs and uniform weights, as documented by
    scikit-learn: input validation first, then the formula.  [sk] is the
    kind of scalar the installed scikit-learn returns: a [numpy.float64]
    in older releases, a built-in [float] in recent ones.  Sums are
    numpy's, taken in numpy's order. *)
Module Sklearn.
Section Metrics.

Context {F : Type} `{Float64 F}.
Variable sk : scalar_kind.
Local Open Scope f64_scope.

(** [check_consistent_length] and [check_array] on both vectors: equal
    lengths, at least one sample, no NaN and no infinity. *)
Definition check_reg_targets (y_true y_pred : ndarray1 F) : result unit :=
  if negb (length y_true =? length y_pred)%nat then Raise ValueError
  else if (length y_true =? 0)%nat then Raise ValueError
  else if negb (forallb f_is_finite y_true && forallb f_is_finite y_pred)
  then Raise ValueError
  else Ok tt.

Definition sum (l : list F) : F := Numpy.add_reduce f_add (f_of_Z 0) l.

Definition average (l : list F) : F  := sum l /! f_of_Z (Z.of_nat (length l)).

Definition squared_errors (y_true y_pred : ndarray1 F) : list F :=
  map (fun '(a, b) => (a -! b) *! (a -! b)) (combine y_true y_pred).

Definition absolute_errors (y_true y_pred : ndarray1 F) : list F :=
  map (fun '(a, b) => f_abs (b -! a)) (combine y_true y_pred).

Definition mean_squared_error (y_true y_pred : ndarray1 F)
  : result (scalar F) :=
  (_ <- check_reg_targets y_true y_pred ;;
   Ok (Scalar sk (average (squared_errors y_true y_pred))))%py.

Definition mean_absolute_error (y_true y_pred : ndarray1 F)
  : result (scalar F) :=
  (_ <- check_reg_targets y_true y_pred ;;
   Ok (Scalar sk (average (absolute_errors y_true y_pred))))%py.

(** The residual and the total sum of squares. *)
Definition ss_res (y_true y_pred : ndarray1 F) : F :=
  sum (squared_errors y_true y_pred).

Definition ss_tot (y_true : ndarray1 F) : F :=
  let m := average y_true in
  sum (map (fun a => (a -! m) *! (a -! m)) y_true).

(** [r2_score] with its default [force_finite=True]: NaN (a built-in
    float, with a warning) on fewer than two samples; otherwise
    1 - ss_res/ss_tot, replaced by 1.0 when ss_res is zero and by 0.0
    when only ss_tot is. *)
Definition r2_score (y_true y_pred : ndarray1 F) : result (scalar F) :=
  (_ <- check_reg_targets y_true y_pred ;;
   if (length y_pred <? 2)%nat then Ok (Scalar py_float f_nan)
   else
     let numerator := ss_res y_true y_pred in
     let denominator := ss_tot y_true in
     let nonzero_numerator := negb (f_eqb numerator (f_of_Z 0)) in
     let nonzero_denominator := negb (f_eqb denominator (f_of_Z 0)) in
     Ok (Scalar sk
           (if nonzero_denominator && nonzero_numerator
            then f_of_Z 1 -! numerator /! denominator
            else if nonzero_numerator then f_of_Z 0
            else f_of_Z 1)))%py.

End Metrics.
End Sklearn.

Arguments Sklearn.sum : simpl never.
Arguments Sklearn.ss_res : simpl never.
Arguments Sklearn.ss_tot : simpl never.

(** ** [ModelTrainerOptimizerClass]: the metrics *)

Section CalculateMetrics.

Context {F : Type} `{Float64 F}.
Variable sk : scalar_kind.

(** The five values [calculate_metrics] returns, in its order. *)
Definition metrics : Type :=
  (scalar F * scalar F * scalar F * scalar F * scalar F)%type.

(** Line 59: [1 - (1 - r2) * (n - 1) / (n - p - 1)], left to right, with
    [n] and [p] Python integers. *)
Definition adjusted_r2 (r2 : scalar F) (n p : Z) : result (scalar F) :=
  (q <- truediv_int (mul_int (int_sub 1 r2) (n - 1)) (n - p - 1) ;;
   Ok (int_sub 1 q))%py.

(** [calculate_metrics(self, actual_X, actual_y, predicted_y)], lines
    49-61.  The method reads no attribute of [self] and assigns none:
    [self] is left out. *)
Definition calculate_metrics
  (actual_X : ndarray2 F) (actual_y predicted_y : ndarray1 F)
  : result metrics :=
  (mse <- Sklearn.mean_squared_error sk actual_y predicted_y ;;
   mae <- Sklearn.mean_absolute_error sk actual_y predicted_y ;;
   let rmse := np_sqrt mse in
   r2 <- Sklearn.r2_score sk actual_y predicted_y ;;
   let n := Z.of_nat (length actual_y) in
   let p := Z.of_nat (shape1 actual_X) in
   aR2 <- adjusted_r2 r2 n p ;;
   Ok (mse, mae, rmse, r2, aR2))%py.

(** The components of the returned tuple. *)
Definition MSE (m : metrics) : scalar F := let '(a, _, _, _, _) := m in a.
Definition MAE (m : metrics) : scalar F := let '(_, a, _, _, _) := m in a.
Definition RMSE (m : metrics) : scalar F := let '(_, _, a, _, _) := m in a.
Definition R2 (m : metrics) : scalar F := let '(_, _, _, a, _) := m in a.
Definition aR2 (m : metrics) : scalar F := let '(_, _, _, _, a) := m in a.

End CalculateMetrics.


(** ** [ModelTrainerOptimizerClass]: the object and its loaders *)

Module Trainer.
Section Object.

Variable F : Type.

(** The instance attributes.  [X_train] and [y_train] do not exist before
    their loader has run; [params], which no embedded method reads, is
    left out. *)
Record t : Type := {
  X_train_path : string;
  y_train_path : string;
  params_path : string;
  X_train : option (ndarray2 F);
  y_train : option (ndarray1 F)
}.

(** [__init__], lines 12-16. *)
Definition init (X_train_path y_train_path params_path : string) : t :=
  {| X_train_path := X_train_path;
     y_train_path := y_train_path;
     params_path := params_path;
     X_train := None;
     y_train := None |}.

Definition set_X_train (self : t) (a : ndarray2 F) : t :=
  {| X_train_path := X_train_path self;
     y_train_path := y_train_path self;
     params_path := params_path self;
     X_train := Some a;
     y_train := y_train self |}.

Definition set_y_train (self : t) (v : ndarray1 F) : t :=
  {| X_train_path := X_train_path self;
     y_train_path := y_train_path self;
     params_path := params_path self;
     X_train := X_train self;
     y_train := Some v |}.

(** Reading an attribute that was never assigned. *)
Definition getattr {A : Type} (field : t -> option A) (self : t) : result A :=
  match field self with
  | Some a => Ok a
  | None => Raise AttributeError
  end.

(** A method that may assign attributes returns the object it leaves. *)
Definition method (A : Type) : Type := t -> result (A * t).

(** [load_X_train], lines 18-22. *)
Definition load_X_train (fs : filesystem F) : method (ndarray2 F) :=
  fun self =>
    (df <- read_csv fs (X_train_path self) ;;
     let a := np_array df in
     Ok (a, set_X_train self a))%py.

(** [load_y_train], lines 24-28. *)
Definition load_y_train (fs : filesystem F) : method (ndarray1 F) :=
  fun self =>
    (df <- read_csv fs (y_train_path self) ;;
     let v := ravel (np_array df) in
     Ok (v, set_y_train self v))%py.

End Object.
End Trainer.

(** ** Python objects and their class *)

Record py_class : Type := { cls_name : string }.   (* [cls.__name__] *)

(** [obj.__class__], for the objects of a Rocq type [T]. *)
Class PyObject (T : Type) : Type := class_of : T -> py_class.

(** [sklearn.linear_model.ElasticNet]: the two hyperparameters the grid of
    the script ranges over, and the coefficients a fit leaves. *)
Record ElasticNet (F : Type) : Type := {
  alpha : F;
  l1_ratio : F;
  coef_ : option (list F);
  intercept_ : option F
}.

(** The class object the script imports at line 7.  Its name is the one
    scikit-learn's [class ElasticNet(...)] statement gives it: a fact of the
    library, taken from it. *)
Definition ElasticNet_class : py_class := {| cls_name := "ElasticNet" |}.

#[export] Instance ElasticNet_object (F : Type) : PyObject (ElasticNet F) :=
  fun _ => ElasticNet_class.

Section GetModelName.

Context {F : Type} {T : Type} `{PyObject T}.

(** [get_Model_Name(self, model)], lines 63-66; [str] of a string is that
    string.  The embedding keeps [self] and the model and returns both, so
    that the absence of effects is a statement about it. *)
Definition get_Model_Name (model : T) : Trainer.t F -> result (string * (Trainer.t F * T)) :=
  fun self =>
    let model_name := cls_name (class_of model) in
    Ok (model_name, (self, model)).

End GetModelName.

(** [ElasticNet()]: the defaults [alpha=1.0], [l1_ratio=0.5], not fitted. *)
Definition ElasticNet_new {F : Type} `{Float64 F} : ElasticNet F :=
  {| alpha := f_of_Z 1;
     l1_ratio := f_div (f_of_Z 1) (f_of_Z 2);
     coef_ := None;
     intercept_ := None |}.

(** ** scikit-learn's randomized search *)

(** What [train_model] needs of a scikit-learn estimator.  How a given
    estimator fits is the estimator's business and stays abstract. *)
Class Estimator (F V E : Type) : Type := {
  (* a clone of [est] with [params] set: unfitted *)
  set_params : E -> list (string * V) -> E;
  (* [est.fit(X, y)], which returns the fitted estimator *)
  fit : E -> ndarray2 F -> ndarray1 F -> E;
  (* [est.predict(X)] *)
  predict : E -> ndarray2 F -> ndarray1 F;
  (* [est.score(X, y)], the default scorer of the search *)
  score : E -> ndarray2 F -> ndarray1 F -> F
}.

(** [RandomizedSearchCV(estimator, param_distributions, cv=k).fit(X, y)] for
    a grid of lists and the defaults [n_iter=10], [scoring=None],
    [refit=True], as scikit-learn does it: the random source draws
    positions in the grid without replacement and the candidates are the
    grid points at these positions ([ParameterGrid.__getitem__]); each is
    scored by [k]-fold cross-validation ([KFold], no shuffling); the first
    candidate of the highest mean test score is the best one, and it is
    refitted on all of [(X, y)]. *)
Module SearchCV.
Section Search.

Context {F V E : Type} `{Float64 F} `{Estimator F V E}.

(** A hyperparameter assignment and a grid of candidate values. *)
Definition params : Type := list (string * V).
Definition param_grid : Type := list (string * list V).

(** The random source: [rng population n] is what
    [sample_without_replacement(population, n)] returns in this run.  No
    seed is fixed by the script. *)
Variable rng : nat -> nat -> list nat.

(** [sorted(grid.items())]: the grid is a dictionary, its names distinct. *)
Fixpoint insert_item (item : string * list V) (items : param_grid) : param_grid :=
  match items with
  | [] => [item]
  | first :: rest =>
      if String.leb (fst item) (fst first) then item :: items
      else first :: insert_item item rest
  end.

Definition sorted_items (grid : param_grid) : param_grid :=
  fold_right insert_item [] grid.

(** [ParameterGrid.__getitem__]: the names are taken in reverse sorted
    order, so that the last name in sorted order varies fastest, and the
    index is read as a number in the mixed radix of the sizes of their
    lists, by successive [divmod].  The dictionary built lists the names
    in that reverse sorted order. *)
Fixpoint point (items : param_grid) (ind : nat) : option params :=
  match items with
  | [] => Some []
  | (key, v_list) :: rest =>
      let n := length v_list in
      match nth_error v_list (ind mod n), point rest (ind / n) with
      | Some v, Some out => Some ((key, v) :: out)
      | _, _ => None
      end
  end.

(** The product of the sizes of the lists. *)
Definition total (items : param_grid) : nat :=
  fold_right (fun item n => (length (snd item) * n)%nat) 1%nat items.

(** [len(ParameterGrid(grid))]. *)
Definition grid_size (grid : param_grid) : nat :=
  total (rev (sorted_items grid)).

(** [ParameterGrid(grid)[ind]]; [None] stands for [IndexError]. *)
Definition getitem (grid : param_grid) (ind : nat) : option params :=
  let items := rev (sorted_items grid) in
  if (ind <? total items)%nat then point items ind else None.

(** [ParameterSampler] on a grid of lists: [n_iter] positions are drawn,
    or as many as the grid has points when it has fewer, and the grid
    points at these positions are the candidates, in the order of the
    draw.  A position outside the grid, which the sampler of scikit-learn
    does not draw, gives no candidate. *)
Definition ParameterSampler (grid : param_grid) (n_iter : nat) : list params :=
  let size := grid_size grid in
  flat_map (fun i => match getitem grid i with Some c => [c] | None => [] end)
           (rng size (Nat.min n_iter size)).

(** Selection of the entries at the given positions. *)
Definition take {A : Type} (l : list A) (idx : list nat) : list A :=
  flat_map (fun i => match nth_error l i with Some a => [a] | None => [] end)
           idx.

(** [KFold(k)]: [k] consecutive test folds, the first [n mod k] of them
    one sample longer. *)
Definition fold_sizes (k n : nat) : list nat :=
  map (fun i => (n / k + (if i <? n mod k then 1 else 0))%nat) (seq 0 k).

Fixpoint test_folds (start : nat) (sizes : list nat) : list (list nat) :=
  match sizes with
  | [] => []
  | size :: rest => seq start size :: test_folds (start + size) rest
  end.

Definition KFold_split (k n : nat) : result (list (list nat * list nat)) :=
  if (n <? k)%nat then Raise ValueError
  else Ok (map (fun test =>
                  (filter (fun i => negb (existsb (Nat.eqb i) test)) (seq 0 n),
                   test))
               (test_folds 0 (fold_sizes k n))).

Definition take_rows (X : ndarray2 F) (idx : list nat) : ndarray2 F :=
  {| rows := take (rows X) idx; shape1 := shape1 X |}.

(** The test score of a candidate on each split. *)
Definition test_scores (estimator : E) (candidate : params)
  (splits : list (list nat * list nat)) (X : ndarray2 F) (y : ndarray1 F)
  : list F :=
  map (fun '(train, test) =>
         score (fit (set_params estimator candidate)
                    (take_rows X train) (take y train))
               (take_rows X test) (take y test))
      splits.

Definition mean_test_score (estimator : E) (candidate : params)
  (splits : list (list nat * list nat)) (X : ndarray2 F) (y : ndarray1 F) : F :=
  Sklearn.average (test_scores estimator candidate splits X y).

Definition is_nan (x : F) : bool := negb (f_eqb x x).

(** Ranking: a higher mean is better, and NaN is worst. *)
Definition better (s best : F) : bool :=
  f_ltb best s || (is_nan best && negb (is_nan s)).

(** The first entry of the best score. *)
Fixpoint best_of (best : params * F) (rest : list (params * F)) : params * F :=
  match rest with
  | [] => best
  | c :: rest' => best_of (if better (snd c) (snd best) then c else best) rest'
  end.

Record RandomizedSearchCV : Type := {
  estimator : E;
  param_distributions : param_grid;
  cv : nat;
  n_iter : nat
}.

Record fitted_search : Type := {
  cv_results_ : list (params * F);
  best_params_ : params;
  best_score_ : F;
  best_estimator_ : E
}.

Definition search_fit (s : RandomizedSearchCV) (X : ndarray2 F) (y : ndarray1 F)
  : result fitted_search :=
  if negb (shape0 X =? length y)%nat then Raise ValueError
  else
    (splits <- KFold_split (cv s) (shape0 X) ;;
     let results :=
       map (fun c => (c, mean_test_score (estimator s) c splits X y))
           (ParameterSampler (param_distributions s) (n_iter s)) in
     match results with
     | [] => Raise ValueError
     | first :: rest =>
         let best := best_of first rest in
         Ok {| cv_results_ := results;
               best_params_ := fst best;
               best_score_ := snd best;
               best_estimator_ := fit (set_params (estimator s) (fst best)) X y |}
     end)%py.

End Search.
End SearchCV.

(** ** [ModelTrainerOptimizerClass]: training *)

Section TrainModel.

Context {F V E : Type} `{Float64 F} `{Estimator F V E}.
Variable rng : nat -> nat -> list nat.

(** [train_model(self, model, param_grid)], lines 36-47.  [fit] mutates
    the estimator it is called on and the script returns that object: the
    model returned is the estimator after the second fit. *)
Definition train_model (model : E) (param_grid : SearchCV.param_grid)
  : Trainer.t F -> result (E * SearchCV.params * ndarray1 F) :=
  fun self =>
    (X <- Trainer.getattr (@Trainer.X_train F) self ;;
     y <- Trainer.getattr (@Trainer.y_train F) self ;;
     random_search <-
       SearchCV.search_fit rng
         {| SearchCV.estimator := model;
            SearchCV.param_distributions := param_grid;
            SearchCV.cv := 5;
            SearchCV.n_iter := 10 |} X y ;;
     let best_model := SearchCV.best_estimator_ random_search in
     let best_params := SearchCV.best_params_ random_search in
     let best_model := fit best_model X y in
     let predicted_y := predict best_model X in
     Ok (best_model, best_params, predicted_y))%py.

End TrainModel.

(** ** The MLflow tracking client *)

(** The calls of [mlflow] the script makes, as documented by MLflow: a run
    is created RUNNING, every logging call writes to the active run at once,
    and leaving the [with] block ends the run, FINISHED after a normal exit
    and FAILED after an exception.  There is no transaction: nothing a call
    has written is taken back.  A logging call can fail (the server is
    remote); which calls do is given by [fails], on the number of client
    calls made so far.  The request that ends the run is taken to be
    answered.  A run holds what the calls sent; how a backend store
    represents a value when it is read back is not modelled. *)
Module Mlflow.
Section Client.

Variables F M : Type.

Inductive run_status : Type := RUNNING | FINISHED | FAILED.

(** The name of a run: the one asked for or, when none or an empty one is
    asked for, a name the server makes up. *)
Inductive assigned_name : Type := Named (s : string) | Generated.

Definition name_of (requested : string) : assigned_name :=
  if String.eqb requested "" then Generated else Named requested.

Record run : Type := {
  run_name : assigned_name;
  status : run_status;
  metrics : list (string * F);
  params : list (string * string);
  artifacts : list (string * M)
}.

(** The process-wide state of the client and what the server holds:
    the runs that have ended, latest first, and the active run. *)
Record client : Type := {
  tracking_uri : option string;
  ended : list run;
  active : option run;
  calls : nat
}.

Definition fresh : client :=
  {| tracking_uri := None; ended := []; active := None; calls := O |}.

Definition new_run (name : string) : run :=
  {| run_name := name_of name; status := RUNNING;
     metrics := []; params := []; artifacts := [] |}.

(** State and exceptions: the client state survives a raise. *)
Definition io (A : Type) : Type := client -> result A * client.

Definition ret {A : Type} (a : A) : io A := fun c => (Ok a, c).

Definition bind {A B : Type} (m : io A) (k : A -> io B) : io B :=
  fun c =>
    match m c with
    | (Ok a, c') => k a c'
    | (Raise e, c') => (Raise e, c')
    end.

Variable fails : nat -> bool.

Definition with_active (c : client) (a : option run) : client :=
  {| tracking_uri := tracking_uri c; ended := ended c;
     active := a; calls := S (calls c) |}.

(** One request to the server about the active run (started on demand when
    there is none): it fails and changes nothing, or applies [update]. *)
Definition request (update : run -> result run) : io unit :=
  fun c =>
    if fails (calls c) then (Raise MlflowException, with_active c (active c))
    else
      let r := match active c with Some r => r | None => new_run "" end in
      match update r with
      | Ok r' => (Ok tt, with_active c (Some r'))
      | Raise e => (Raise e, with_active c (active c))
      end.

(** [mlflow.set_tracking_uri]: local, no request. *)
Definition set_tracking_uri (uri : string) : io unit :=
  fun c =>
    (Ok tt, {| tracking_uri := Some uri; ended := ended c;
               active := active c; calls := calls c |}).

(** [mlflow.start_run(run_name=name)].  While a run is active it raises a
    plain [Exception], before any request is sent; otherwise the request
    that creates the run fails or is answered. *)
Definition start_run (name : string) : io unit :=
  fun c =>
    match active c with
    | Some _ => (Raise Exception, with_active c (active c))
    | None =>
        if fails (calls c) then (Raise MlflowException, with_active c None)
        else (Ok tt, with_active c (Some (new_run name)))
    end.

(** [mlflow.end_run(status)]. *)
Definition end_run (s : run_status) : client -> client :=
  fun c =>
    match active c with
    | None => c
    | Some r =>
        {| tracking_uri := tracking_uri c;
           ended := {| run_name := run_name r; status := s;
                       metrics := metrics r; params := params r;
                       artifacts := artifacts r |} :: ended c;
           active := None;
           calls := calls c |}
    end.

(** [with mlflow.start_run(run_name=name): body]. *)
Definition with_start_run (name : string) (body : io unit) : io unit :=
  fun c =>
    match start_run name c with
    | (Raise e, c') => (Raise e, c')
    | (Ok _, c') =>
        match body c' with
        | (Ok _, c'') => (Ok tt, end_run FINISHED c'')
        | (Raise e, c'') => (Raise e, end_run FAILED c'')
        end
    end.

(** [mlflow.log_metric(key, value)]. *)
Definition log_metric (key : string) (value : F) : io unit :=
  request (fun r =>
    Ok {| run_name := run_name r; status := status r;
          metrics := metrics r ++ [(key, value)];
          params := params r; artifacts := artifacts r |}).

(** [mlflow.log_param(key, value)], [value] already a string.  A
    parameter cannot be given a second, different value. *)
Definition lookup (key : string) (l : list (string * string)) : option string :=
  match find (fun kv => String.eqb (fst kv) key) l with
  | Some kv => Some (snd kv)
  | None => None
  end.

Definition log_param (key value : string) : io unit :=
  request (fun r =>
    match lookup key (params r) with
    | Some old =>
        if String.eqb old value then Ok r else Raise MlflowException
    | None =>
        Ok {| run_name := run_name r; status := status r;
              metrics := metrics r;
              params := params r ++ [(key, value)];
              artifacts := artifacts r |}
    end).

(** [mlflow.sklearn.log_model(model, artifact_path)]. *)
Definition log_model (model : M) (artifact_path : string) : io unit :=
  request (fun r =>
    Ok {| run_name := run_name r; status := status r;
          metrics := metrics r; params := params r;
          artifacts := artifacts r ++ [(artifact_path, model)] |}).

(** A [for] loop over a list. *)
Fixpoint for_each {A : Type} (l : list A) (body : A -> io unit) : io unit :=
  match l with
  | [] => ret tt
  | a :: rest => bind (body a) (fun _ => for_each rest body)
  end.

End Client.
End Mlflow.

Declare Scope mlflow_scope.
Delimit Scope mlflow_scope with mlflow.
Notation "c1 ;; c2" := (Mlflow.bind c1 (fun _ => c2))
  (at level 61, right associativity) : mlflow_scope.

(** ** [MLflowLoggerClass] *)

Section MLflowLogger.

Context {F V M : Type}.
Variable fails : nat -> bool.
(** [str(value)] of a hyperparameter value, as MLflow stores it. *)
Variable str : V -> string.

Record MLflowLoggerClass : Type := { logger_tracking_uri : string }.

(** [__init__], lines 71-74. *)
Definition MLflowLoggerClass_init (tracking_uri : string)
  : Mlflow.io F M MLflowLoggerClass :=
  Mlflow.bind (Mlflow.set_tracking_uri tracking_uri)
    (fun _ => Mlflow.ret {| logger_tracking_uri := tracking_uri |}).

(** [log_results], lines 76-98.  [best_params] is a dictionary, iterated
    in insertion order.  The five [print] calls that end the block write
    to the console only and are left out. *)
Definition log_results (self : MLflowLoggerClass) (model_name : string)
  (best_model : M) (best_params : list (string * V))
  (mse mae rmse r2 aR2 : scalar F) : Mlflow.io F M unit :=
  Mlflow.with_start_run fails model_name
    (Mlflow.log_metric fails "MSE" (val mse) ;;
     Mlflow.log_metric fails "MAE" (val mae) ;;
     Mlflow.log_metric fails "RMSE" (val rmse) ;;
     Mlflow.log_metric fails "R2" (val r2) ;;
     Mlflow.log_metric fails "Adjusted R2" (val aR2) ;;
     Mlflow.for_each best_params
       (fun '(param_name, param_value) =>
          Mlflow.log_param fails ("Best " ++ param_name) (str param_value)) ;;
     Mlflow.log_model fails best_model (model_name ++ "_model"))%mlflow.

End MLflowLogger.

(** ** The classes of the script *)

(** The two classes the script defines, each named by its [class]
    statement (lines 10 and 69). *)
#[export] Instance ModelTrainerOptimizerClass_object (F : Type)
  : PyObject (Trainer.t F) :=
  fun _ => {| cls_name := "ModelTrainerOptimizerClass" |}.

#[export] Instance MLflowLoggerClass_object : PyObject MLflowLoggerClass :=
  fun _ => {| cls_name := "MLflowLoggerClass" |}.

(* ================================================================== *)
(** * Part II: properties                                               *)
(* ================================================================== *)

(** ** Test data *)

Module Examples.

Local Open Scope float_scope.

(** A feature matrix is read for its number of columns only. *)
Definition X_3x5 : ndarray2 float :=
  {| rows := [[1; 0; 0; 0; 0]; [0; 1; 0; 0; 0]; [0; 0; 1; 0; 0]];
     shape1 := 5 |}.

Definition X_3x1 : ndarray2 float :=
  {| rows := [[1]; [2]; [3]]; shape1 := 1 |}.

Definition X_4x1 : ndarray2 float :=
  {| rows := [[1]; [2]; [3]; [4]]; shape1 := 1 |}.

Definition X_0x1 : ndarray2 float := {| rows := []; shape1 := 1 |}.

Definition X_4x3 : ndarray2 float :=
  {| rows := [[1; 0; 0]; [0; 1; 0]; [0; 0; 1]; [1; 1; 1]]; shape1 := 3 |}.

Definition y3 : ndarray1 float := [1; 2; 3].
Definition y3_pred : ndarray1 float := [1; 2; 4].

Definition y4 : ndarray1 float := [1; 2; 3; 4].
Definition y4_pred : ndarray1 float := [1; 2; 3; 5].

End Examples.

(** ** What [calculate_metrics] returns *)

Section MetricsFacts.

Context {F : Type} `{Float64 F}.
Variable sk : scalar_kind.
Local Open Scope f64_scope.

Lemma bind_Ok (A B : Type) (c : result A) (k : A -> result B) (b : B) :
  Py.bind c k = Ok b -> exists a, c = Ok a /\ k a = Ok b.
Proof.
  destruct c as [a | e]; simpl; intros E; [ eauto | discriminate ].
Qed.

(** The value of line 59 when it returns one. *)
Lemma adjusted_r2_Ok (r2 a : scalar F) (n p : Z) :
  adjusted_r2 r2 n p = Ok a ->
  val a = f_of_Z 1 -! (f_of_Z 1 -! val r2) *! f_of_Z (n - 1) /! f_of_Z (n - p - 1)
  /\ kind a = kind r2.
Proof.
  unfold adjusted_r2, truediv_int, mul_int, int_sub; simpl.
  destruct (kind r2) eqn:K; [ destruct (n - p - 1 =? 0)%Z | ]; simpl;
    intros E; inversion E; subst; simpl; auto.
Qed.

(** Line 59 raises in one case only. *)
Lemma adjusted_r2_Raise (r2 : scalar F) (n p : Z) (e : exn) :
  adjusted_r2 r2 n p = Raise e ->
  e = ZeroDivisionError /\ kind r2 = py_float /\ (n - p - 1 = 0)%Z.
Proof.
  unfold adjusted_r2, truediv_int, mul_int, int_sub; simpl.
  destruct (kind r2) eqn:K; [ destruct (n - p - 1 =? 0)%Z eqn:D | ]; simpl;
    intros E; inversion E; subst.
  repeat split; auto. now apply Z.eqb_eq.
Qed.

Lemma adjusted_r2_returns (r2 : scalar F) (n p : Z) :
  (n - p - 1 <> 0)%Z \/ kind r2 = np_float64 ->
  exists a, adjusted_r2 r2 n p = Ok a.
Proof.
  unfold adjusted_r2, truediv_int, mul_int, int_sub; simpl.
  intros [D | K].
  - apply Z.eqb_neq in D. rewrite D. destruct (kind r2); simpl; eauto.
  - rewrite K; simpl; eauto.
Qed.

(** The three library calls succeed together: they validate alike. *)
Lemma r2_score_kind (y y_hat : ndarray1 F) (r2 : scalar F) :
  Sklearn.r2_score sk y y_hat = Ok r2 ->
  kind r2 = if (length y_hat <? 2)%nat then py_float else sk.
Proof.
  unfold Sklearn.r2_score. intros E.
  apply bind_Ok in E. destruct E as [[] [_ E]].
  destruct (length y_hat <? 2)%nat; inversion E; reflexivity.
Qed.

(** [calculate_metrics], when it returns, has computed this. *)
Lemma calculate_metrics_Ok (X : ndarray2 F) (y y_hat : ndarray1 F) (m : metrics) :
  calculate_metrics sk X y y_hat = Ok m ->
  Sklearn.check_reg_targets y y_hat = Ok tt
  /\ MSE m = Scalar sk (Sklearn.average (Sklearn.squared_errors y y_hat))
  /\ MAE m = Scalar sk (Sklearn.average (Sklearn.absolute_errors y y_hat))
  /\ RMSE m = np_sqrt (MSE m)
  /\ Sklearn.r2_score sk y y_hat = Ok (R2 m)
  /\ adjusted_r2 (R2 m) (Z.of_nat (length y)) (Z.of_nat (shape1 X)) = Ok (aR2 m).
Proof.
  unfold calculate_metrics. intros E.
  apply bind_Ok in E. destruct E as [mse [E1 E]].
  apply bind_Ok in E. destruct E as [mae [E2 E]].
  apply bind_Ok in E. destruct E as [r2 [E3 E]].
  apply bind_Ok in E. destruct E as [a [E4 E]].
  inversion E; subst; clear E; simpl.
  unfold Sklearn.mean_squared_error in E1. apply bind_Ok in E1.
  destruct E1 as [[] [C E1]]. inversion E1; subst; clear E1.
  unfold Sklearn.mean_absolute_error in E2. rewrite C in E2; simpl in E2.
  inversion E2; subst; clear E2.
  repeat split; auto.
Qed.

(** [calculate_metrics] returns on every input scikit-learn accepts,
    unless line 59 divides a built-in float by zero. *)
Lemma calculate_metrics_returns (X : ndarray2 F) (y y_hat : ndarray1 F) :
  Sklearn.check_reg_targets y y_hat = Ok tt ->
  (Z.of_nat (length y) - Z.of_nat (shape1 X) - 1 <> 0)%Z
  \/ (sk = np_float64 /\ 2 <= length y_hat) ->
  exists m, calculate_metrics sk X y y_hat = Ok m.
Proof.
  intros C D.
  unfold calculate_metrics, Sklearn.mean_squared_error,
    Sklearn.mean_absolute_error.
  rewrite C; simpl.
  destruct (Sklearn.r2_score sk y y_hat) as [r2 | e] eqn:R.
  - simpl.
    destruct (adjusted_r2_returns r2 (Z.of_nat (length y)) (Z.of_nat (shape1 X)))
      as [a Ha].
    + destruct D as [D | [K L]]; [ now left | right ].
      rewrite (r2_score_kind _ _ R).
      destruct (Nat.ltb_spec (length y_hat) 2); [ lia | assumption ].
    + rewrite Ha; simpl; eauto.
  - unfold Sklearn.r2_score in R. rewrite C in R; simpl in R.
    destruct (length y_hat <? 2)%nat; discriminate.
Qed.

(** What scikit-learn's validation accepts. *)
Lemma check_reg_targets_Ok (y y_hat : ndarray1 F) :
  Sklearn.check_reg_targets y y_hat = Ok tt <->
  length y = length y_hat /\ length y <> 0
  /\ forallb f_is_finite y = true /\ forallb f_is_finite y_hat = true.
Proof.
  unfold Sklearn.check_reg_targets.
  destruct (Nat.eqb_spec (length y) (length y_hat)); simpl.
  - destruct (Nat.eqb_spec (length y) 0); simpl.
    + split; [ discriminate | intros (_ & N & _); contradiction ].
    + destruct (forallb f_is_finite y); simpl.
      * destruct (forallb f_is_finite y_hat); simpl;
          split; auto; try discriminate.
        intros (_ & _ & _ & D); discriminate.
      * split; [ discriminate | intros (_ & _ & D & _); discriminate ].
  - split; [ discriminate | intros (E & _); contradiction ].
Qed.

End MetricsFacts.

(** C1.  For a target vector of length [n], a prediction vector of length
    [n] and a feature matrix of [p] columns, [calculate_metrics] returns on
    every input scikit-learn accepts (short of a division of a built-in
    float by zero), and in the tuple [(MSE, MAE, RMSE, R2, aR2)] it returns
    R2 is what [r2_score] returned and
    [aR2 = 1 - (1 - R2) * (n - 1) / (n - p - 1)], evaluated from left to
    right in the arithmetic of the numbers, whichever it is. *)
Theorem calculate_metrics_adjusted_r2
  (F : Type) (FF : Float64 F) (sk : scalar_kind)
  (X : ndarray2 F) (y y_hat : ndarray1 F) (n p : nat) :
  length y = n -> length y_hat = n -> shape1 X = p ->
  (forall m, calculate_metrics sk X y y_hat = Ok m ->
     Sklearn.r2_score sk y y_hat = Ok (R2 m)
     /\ val (aR2 m) =
         (f_of_Z 1 -! (f_of_Z 1 -! val (R2 m)) *! f_of_Z (Z.of_nat n - 1)
                       /! f_of_Z (Z.of_nat n - Z.of_nat p - 1))%f64)
  /\ (n <> 0 -> forallb f_is_finite y = true -> forallb f_is_finite y_hat = true ->
      (Z.of_nat n - Z.of_nat p - 1 <> 0)%Z \/ (sk = np_float64 /\ 2 <= n) ->
      exists m, calculate_metrics sk X y y_hat = Ok m).
Proof.
  intros Ly Lh Lp; subst n p. split.
  - intros m E. apply calculate_metrics_Ok in E.
    destruct E as (_ & _ & _ & _ & R & E).
    split; [ exact R | ].
    apply adjusted_r2_Ok in E. apply E.
  - intros N Fy Fh D. apply calculate_metrics_returns.
    + apply check_reg_targets_Ok. repeat split; auto.
    + rewrite Lh. exact D.
Qed.

(** The property at three samples and five columns, on the machine. *)
Lemma calculate_metrics_adjusted_r2_witness :
  exists m,
    calculate_metrics np_float64 Examples.X_3x5 Examples.y3 Examples.y3_pred = Ok m
    /\ val (R2 m) = 0.5%float
    /\ val (aR2 m) = (1 - (1 - 0.5) * 2 / -3)%float.
Proof.
  destruct (calculate_metrics_adjusted_r2 binary64 np_float64
              Examples.X_3x5 Examples.y3 Examples.y3_pred
              (n := 3) (p := 5) eq_refl eq_refl eq_refl) as [Hval Hret].
  destruct Hret as [m Hm];
    [ discriminate | reflexivity | reflexivity | left; discriminate | ].
  exists m. split; [ exact Hm | ].
  destruct (Hval m Hm) as [_ Ha]. rewrite Ha.
  vm_compute in Hm. inversion Hm; subst m. split; reflexivity.
Defined.

(** ** Non-finite numbers *)

(** Two facts of IEEE arithmetic that both instances share. *)
Class NonFinite (F : Type) `{Float64 F} : Prop := {
  div_zero_not_finite :
    forall x : F, f_is_finite (f_div x (f_of_Z 0)) = false;
  int_sub_not_finite :
    forall (i : Z) (x : F),
      f_is_finite x = false -> f_is_finite (f_sub (f_of_Z i) x) = false
}.

Arguments NonFinite F {_}.

Module Binary64Facts.

Definition SFfinite (x : spec_float) : bool :=
  match x with
  | S754_zero _ | S754_finite _ _ _ => true
  | S754_infinity _ | S754_nan => false
  end.

Lemma SFeqb_refl_finite (s : bool) (m : positive) (e : Z) :
  SFeqb (S754_finite s m e) (S754_finite s m e) = true.
Proof.
  unfold SFeqb, SFcompare.
  destruct s; rewrite Z.compare_refl, Pos.compare_cont_refl; reflexivity.
Qed.

Lemma is_finite_spec (x : float) :
  PrimFloat.is_finite x = SFfinite (Prim2SF x).
Proof.
  unfold PrimFloat.is_finite, PrimFloat.is_nan, PrimFloat.is_infinity.
  rewrite !eqb_spec, abs_spec.
  replace (Prim2SF infinity) with (S754_infinity false) by reflexivity.
  destruct (Prim2SF x) as [s | s | | s m e]; simpl; try reflexivity.
  - destruct s; reflexivity.
  - rewrite SFeqb_refl_finite. reflexivity.
Qed.

Lemma div_zero (x : float) :
  PrimFloat.is_finite (x / Binary64.of_Z 0) = false.
Proof.
  rewrite is_finite_spec, div_spec.
  replace (Prim2SF (Binary64.of_Z 0)) with (S754_zero false) by reflexivity.
  destruct (Prim2SF x); reflexivity.
Qed.

Lemma sub_not_finite (a x : float) :
  PrimFloat.is_finite x = false -> PrimFloat.is_finite (a - x) = false.
Proof.
  rewrite !is_finite_spec, sub_spec.
  destruct (Prim2SF x) as [s | s | | s m e]; simpl; try discriminate; intros _.
  - destruct (Prim2SF a) as [t | t | | t m e]; simpl; try reflexivity.
    destruct t, s; reflexivity.
  - destruct (Prim2SF a); reflexivity.
Qed.

End Binary64Facts.

#[export] Instance binary64_non_finite : NonFinite float.
Proof.
  split.
  - exact Binary64Facts.div_zero.
  - intros i x. apply Binary64Facts.sub_not_finite.
Qed.

#[export] Instance exact64_non_finite : NonFinite xreal.
Proof.
  split.
  - intros [r | s | ]; simpl; try reflexivity.
    unfold XReal.Rzerob, XReal.Reqb.
    destruct (Req_dec_T 0 0) as [_ | N]; [ | now elim N ].
    destruct (Req_dec_T r 0); reflexivity.
  - intros i [r | s | ]; simpl; try discriminate; reflexivity.
Qed.

(** ** The degenerate denominator *)


(** With a built-in float for R2, a zero [n - p - 1] gives no number at
    all: the call raises. *)
Lemma adjusted_r2_raises_on_builtin_float :
  (Z.of_nat (length Examples.y4) - Z.of_nat (shape1 Examples.X_4x3) - 1 = 0)%Z
  /\ calculate_metrics py_float Examples.X_4x3 Examples.y4 Examples.y4_pred
     = Raise ZeroDivisionError.
Proof. split; reflexivity. Qed.

(** With a numpy scalar it gives an infinity. *)
Lemma adjusted_r2_infinite_on_numpy_scalar :
  exists m,
    calculate_metrics np_float64 Examples.X_4x3 Examples.y4 Examples.y4_pred
    = Ok m
    /\ val (aR2 m) = neg_infinity.
Proof. eexists. split; [ vm_compute; reflexivity | reflexivity ]. Qed.

Section ExactArithmetic.

(** In exact arithmetic the adjusted R2 of a finite R2 is the real number
    of the formula as soon as [n - p - 1] is not zero. *)
Lemma adjusted_r2_exact (r2 : scalar xreal) (r : R) (n p : Z) :
  val r2 = XFin r -> (n - p - 1 <> 0)%Z ->
  adjusted_r2 r2 n p
  = Ok (Scalar (kind r2)
          (XFin (1 - (1 - r) * IZR (n - 1) / IZR (n - p - 1)))).
Proof.
  intros V D.
  unfold adjusted_r2, truediv_int, mul_int, int_sub; simpl. rewrite V; simpl.
  assert (Z : XReal.Rzerob (IZR (n - p - 1)) = false).
  { unfold XReal.Rzerob, XReal.Reqb.
    destruct (Req_dec_T (IZR (n - p - 1)) 0) as [E | _]; [ | reflexivity ].
    apply eq_IZR_R0 in E. contradiction. }
  apply Z.eqb_neq in D. rewrite D, Z.
  destruct (kind r2); simpl; repeat f_equal; unfold Rminus; reflexivity.
Qed.

End ExactArithmetic.



(** ** The feature matrix *)

(** C10.  [calculate_metrics] reads its feature matrix for the number of
    columns only: two matrices with the same number of columns give the
    same outcome, whatever their rows. *)
Theorem calculate_metrics_reads_column_count
  (F : Type) (FF : Float64 F) (sk : scalar_kind)
  (X1 X2 : ndarray2 F) (y y_hat : ndarray1 F) :
  shape1 X1 = shape1 X2 ->
  calculate_metrics sk X1 y y_hat = calculate_metrics sk X2 y y_hat.
Proof.
  intros S. unfold calculate_metrics. rewrite S. reflexivity.
Qed.

Lemma calculate_metrics_reads_column_count_witness :
  rows Examples.X_3x1 <> rows Examples.X_0x1
  /\ calculate_metrics np_float64 Examples.X_3x1 Examples.y3 Examples.y3_pred
     = calculate_metrics np_float64 Examples.X_0x1 Examples.y3 Examples.y3_pred.
Proof.
  split; [ discriminate | ].
  apply (calculate_metrics_reads_column_count binary64 np_float64
           Examples.X_3x1 Examples.X_0x1 Examples.y3 Examples.y3_pred eq_refl).
Defined.

(** ** numpy's summation *)

(** Three facts that do not depend on the order in which numpy adds: the
    fuel of [pairwise_sum] is enough, a set of numbers closed under addition
    holds the sum of its members, and a map that preserves addition
    preserves sums. *)

Ltac first_block a :=
  destruct a as [ | ?a0 [ | ?a1 [ | ?a2 [ | ?a3 [ | ?a4 [ | ?a5 [ | ?a6
                [ | ?a7 a]]]]]]]].

Section PairwiseFuel.

Variable A : Type.
Variable add : A -> A -> A.
Variable zero : A.

Lemma split_point (n : nat) :
  128 < n -> 0 < n / 2 - (n / 2) mod 8 < n.
Proof.
  intros L.
  pose proof (Nat.div_mod_eq n 2) as D.
  pose proof (Nat.mod_upper_bound n 2 ltac:(discriminate)) as U.
  pose proof (Nat.mod_upper_bound (n / 2) 8 ltac:(discriminate)) as U8.
  lia.
Qed.

Lemma pairwise_sum_rec_any_fuel (f1 : nat) :
  forall (f2 : nat) (a : list A),
    length a <= f1 -> length a <= f2 ->
    Numpy.pairwise_sum_rec add zero f1 a = Numpy.pairwise_sum_rec add zero f2 a.
Proof.
  induction f1 as [ | f1 IH]; intros f2 a L1 L2.
  - destruct a; [ | simpl in L1; lia ]. destruct f2; reflexivity.
  - destruct f2 as [ | f2].
    + destruct a; [ reflexivity | simpl in L2; lia ].
    + cbn [Numpy.pairwise_sum_rec].
      destruct (Nat.leb_spec (length a) 128) as [S | S]; [ reflexivity | ].
      pose proof (split_point S) as [Lo Hi]. cbv zeta.
      f_equal; apply IH;
        rewrite ?length_firstn, ?length_skipn; lia.
Qed.

(** With fuel enough the recursion is numpy's. *)
Lemma pairwise_sum_rec_fuel (fuel : nat) (a : list A) :
  length a <= fuel ->
  Numpy.pairwise_sum_rec add zero fuel a = Numpy.pairwise_sum add zero a.
Proof.
  intros L. unfold Numpy.pairwise_sum.
  apply pairwise_sum_rec_any_fuel; [ exact L | apply Nat.le_refl ].
Qed.

Lemma pairwise_sum_eq (a : list A) :
  Numpy.pairwise_sum add zero a
  = if length a <=? 128 then Numpy.block_sum add zero a
    else
      let n2 := length a / 2 - (length a / 2) mod 8 in
      add (Numpy.pairwise_sum add zero (firstn n2 a))
          (Numpy.pairwise_sum add zero (skipn n2 a)).
Proof.
  unfold Numpy.pairwise_sum at 1.
  destruct (length a) as [ | n] eqn:Ln.
  - reflexivity.
  - cbn [Numpy.pairwise_sum_rec]. rewrite Ln.
    destruct (Nat.leb_spec (S n) 128) as [S | S]; [ reflexivity | ].
    pose proof (split_point S) as [Lo Hi]. cbv zeta.
    f_equal; apply pairwise_sum_rec_fuel;
      rewrite ?length_firstn, ?length_skipn; lia.
Qed.

End PairwiseFuel.

Section PairwiseClosed.

Variable A : Type.
Variable add : A -> A -> A.
Variable zero : A.
Variable P : A -> Prop.
Hypothesis P_add : forall x y, P x -> P y -> P (add x y).

Definition all8 (r : Numpy.accumulators A) : Prop :=
  let '(r0, r1, r2, r3, r4, r5, r6, r7) := r in
  P r0 /\ P r1 /\ P r2 /\ P r3 /\ P r4 /\ P r5 /\ P r6 /\ P r7.

Lemma fold_left_closed (l : list A) (acc : A) :
  Forall P l -> P acc -> P (fold_left add l acc).
Proof.
  revert acc. induction l as [ | x l IH]; intros acc Hl Hacc; simpl.
  - exact Hacc.
  - inversion Hl; subst. apply IH; auto.
Qed.

Lemma unrolled_closed (n : nat) :
  forall (a : list A) (r : Numpy.accumulators A),
    length a <= n -> all8 r -> Forall P a ->
    all8 (fst (Numpy.unrolled add r a))
    /\ Forall P (snd (Numpy.unrolled add r a)).
Proof.
  induction n as [ | n IH]; intros a r L Hr Ha.
  - destruct a; [ simpl; auto | simpl in L; lia ].
  - first_block a; simpl; auto.
    destruct r as [[[[[[[r0 r1] r2] r3] r4] r5] r6] r7].
    repeat match goal with
           | H : Forall _ (_ :: _) |- _ => inversion_clear H
           end.
    simpl in Hr. destruct Hr as (R0 & R1 & R2 & R3 & R4 & R5 & R6 & R7).
    apply IH; [ simpl in L; lia | simpl; repeat split; auto | assumption ].
Qed.

Lemma block_sum_closed (a : list A) :
  P zero -> Forall P a -> P (Numpy.block_sum add zero a).
Proof.
  intros Hz Ha. unfold Numpy.block_sum.
  first_block a; try (apply fold_left_closed; assumption).
  repeat match goal with
         | H : Forall _ (_ :: _) |- _ => inversion_clear H
         end.
  destruct (@unrolled_closed (length a) a (a0, a1, a2, a3, a4, a5, a6, a7))
    as [Hr Ht]; [ apply Nat.le_refl | simpl; repeat split; auto | assumption | ].
  destruct (Numpy.unrolled add _ a)
    as [[[[[[[[r0 r1] r2] r3] r4] r5] r6] r7] tail].
  simpl in Hr, Ht. destruct Hr as (R0 & R1 & R2 & R3 & R4 & R5 & R6 & R7).
  apply fold_left_closed; auto 10.
Qed.

Lemma pairwise_sum_rec_closed (fuel : nat) :
  forall a : list A,
    P zero -> Forall P a -> P (Numpy.pairwise_sum_rec add zero fuel a).
Proof.
  induction fuel as [ | fuel IH]; intros a Hz Ha; cbn [Numpy.pairwise_sum_rec].
  - now apply block_sum_closed.
  - destruct (length a <=? 128); [ now apply block_sum_closed | ]. cbv zeta.
    rewrite <- (firstn_skipn (length a / 2 - (length a / 2) mod 8) a) in Ha.
    apply Forall_app in Ha. destruct Ha as [H1 H2].
    apply P_add; apply IH; assumption.
Qed.

(** The sum of numbers of a set closed under addition, 0 among them, is in
    the set, whatever the order of the additions. *)
Lemma add_reduce_closed (a : list A) :
  P zero -> Forall P a -> P (Numpy.add_reduce add zero a).
Proof.
  intros Hz Ha. unfold Numpy.add_reduce, Numpy.pairwise_sum.
  apply P_add; [ exact Hz | now apply pairwise_sum_rec_closed ].
Qed.

End PairwiseClosed.

Section PairwiseMorphism.

Variables A B : Type.
Variable addA : A -> A -> A.
Variable zeroA : A.
Variable addB : B -> B -> B.
Variable zeroB : B.
Variable h : A -> B.
Hypothesis h_zero : h zeroA = zeroB.
Hypothesis h_add : forall x y, h (addA x y) = addB (h x) (h y).

Definition map8 (r : Numpy.accumulators A) : Numpy.accumulators B :=
  let '(r0, r1, r2, r3, r4, r5, r6, r7) := r in
  (h r0, h r1, h r2, h r3, h r4, h r5, h r6, h r7).

Lemma fold_left_map (l : list A) (acc : A) :
  fold_left addB (map h l) (h acc) = h (fold_left addA l acc).
Proof.
  revert acc. induction l as [ | x l IH]; intros acc; simpl;
    [ reflexivity | ].
  rewrite <- h_add. apply IH.
Qed.

Lemma unrolled_map (n : nat) :
  forall (a : list A) (r : Numpy.accumulators A),
    length a <= n ->
    Numpy.unrolled addB (map8 r) (map h a)
    = (map8 (fst (Numpy.unrolled addA r a)),
       map h (snd (Numpy.unrolled addA r a))).
Proof.
  induction n as [ | n IH]; intros a r L.
  - destruct a; [ reflexivity | simpl in L; lia ].
  - first_block a; try reflexivity.
    destruct r as [[[[[[[r0 r1] r2] r3] r4] r5] r6] r7].
    cbn [map Numpy.unrolled map8]. rewrite <- !h_add.
    apply (IH a (addA r0 a0, addA r1 a1, addA r2 a2, addA r3 a3,
                 addA r4 a4, addA r5 a5, addA r6 a6, addA r7 a7)).
    simpl in L. lia.
Qed.

Lemma block_sum_map (a : list A) :
  Numpy.block_sum addB zeroB (map h a) = h (Numpy.block_sum addA zeroA a).
Proof.
  unfold Numpy.block_sum.
  first_block a; try (rewrite <- h_zero; apply fold_left_map).
  cbn [map].
  pose proof (@unrolled_map (length a) a (a0, a1, a2, a3, a4, a5, a6, a7)
                (Nat.le_refl _)) as U.
  cbn [map8] in U. rewrite U.
  destruct (Numpy.unrolled addA _ a)
    as [[[[[[[[r0 r1] r2] r3] r4] r5] r6] r7] tail].
  cbn [fst snd map8]. rewrite <- !h_add. apply fold_left_map.
Qed.

Lemma pairwise_sum_rec_map (fuel : nat) :
  forall a : list A,
    Numpy.pairwise_sum_rec addB zeroB fuel (map h a)
    = h (Numpy.pairwise_sum_rec addA zeroA fuel a).
Proof.
  induction fuel as [ | fuel IH]; intros a; cbn [Numpy.pairwise_sum_rec].
  - apply block_sum_map.
  - rewrite length_map. destruct (length a <=? 128); [ apply block_sum_map | ].
    cbv zeta. rewrite firstn_map, skipn_map, !IH, h_add. reflexivity.
Qed.

(** A map that preserves 0 and the addition preserves numpy's sum. *)
Lemma add_reduce_map (a : list A) :
  Numpy.add_reduce addB zeroB (map h a) = h (Numpy.add_reduce addA zeroA a).
Proof.
  unfold Numpy.add_reduce, Numpy.pairwise_sum.
  rewrite length_map, pairwise_sum_rec_map, h_add, h_zero. reflexivity.
Qed.

End PairwiseMorphism.

(** ** Exact arithmetic *)

(** On the inputs scikit-learn accepts, which hold no NaN and no infinity,
    the exact instance computes with real numbers. *)
Module ExactFacts.

Local Open Scope R_scope.

Definition Rsum (l : list R) : R := fold_left Rplus l 0.

Definition Rsq_err (a b : list R) : list R :=
  map (fun '(x, y) => (x - y) * (x - y)) (combine a b).

Definition Rabs_err (a b : list R) : list R :=
  map (fun '(x, y) => Rabs (y - x)) (combine a b).

Definition Rmean (l : list R) : R := Rsum l / INR (length l).

Definition Rss_tot (a : list R) : R :=
  Rsum (map (fun x => (x - Rmean a) * (x - Rmean a)) a).

Lemma finite_reals (l : list xreal) :
  forallb f_is_finite l = true -> exists rs, l = map XFin rs.
Proof.
  induction l as [ | x l IH]; simpl; intros E.
  - exists []. reflexivity.
  - apply andb_prop in E. destruct E as [Ex El].
    destruct (IH El) as [rs ->].
    destruct x as [r | s | ]; try discriminate.
    exists (r :: rs). reflexivity.
Qed.

(** Over the real numbers the order of the additions does not matter:
    numpy's sum is the sum. *)
Definition Rsum8 (r : Numpy.accumulators R) : R :=
  let '(r0, r1, r2, r3, r4, r5, r6, r7) := r in
  r0 + r1 + r2 + r3 + r4 + r5 + r6 + r7.

Lemma fold_left_Rplus (l : list R) (acc : R) :
  fold_left Rplus l acc = acc + Rsum l.
Proof.
  unfold Rsum. revert acc. induction l as [ | x l IH]; intros acc; simpl.
  - lra.
  - rewrite IH, (IH (0 + x)). lra.
Qed.

Lemma Rsum_cons (x : R) (l : list R) : Rsum (x :: l) = x + Rsum l.
Proof. unfold Rsum at 1. simpl. rewrite fold_left_Rplus. lra. Qed.

Lemma Rsum_app (l1 l2 : list R) : Rsum (l1 ++ l2) = Rsum l1 + Rsum l2.
Proof.
  unfold Rsum at 1. rewrite fold_left_app, fold_left_Rplus.
  fold (Rsum l1). lra.
Qed.

Lemma unrolled_Rplus (n : nat) :
  forall (a : list R) (r : Numpy.accumulators R),
    (length a <= n)%nat ->
    Rsum8 (fst (Numpy.unrolled Rplus r a)) + Rsum (snd (Numpy.unrolled Rplus r a))
    = Rsum8 r + Rsum a.
Proof.
  induction n as [ | n IH]; intros a r L.
  - destruct a; [ reflexivity | simpl in L; lia ].
  - first_block a; try reflexivity.
    destruct r as [[[[[[[r0 r1] r2] r3] r4] r5] r6] r7].
    cbn [Numpy.unrolled]. rewrite IH by (simpl in L; lia).
    rewrite !Rsum_cons. cbn [Rsum8]. lra.
Qed.

Lemma block_sum_Rplus (a : list R) : Numpy.block_sum Rplus 0 a = Rsum a.
Proof.
  unfold Numpy.block_sum. first_block a; try reflexivity.
  pose proof (@unrolled_Rplus (length a) a (a0, a1, a2, a3, a4, a5, a6, a7)
                (Nat.le_refl _)) as U.
  destruct (Numpy.unrolled Rplus _ a)
    as [[[[[[[[r0 r1] r2] r3] r4] r5] r6] r7] tail].
  cbn [fst snd Rsum8] in U. rewrite fold_left_Rplus, !Rsum_cons. lra.
Qed.

Lemma pairwise_sum_rec_Rplus (fuel : nat) :
  forall a : list R, Numpy.pairwise_sum_rec Rplus 0 fuel a = Rsum a.
Proof.
  induction fuel as [ | fuel IH]; intros a; cbn [Numpy.pairwise_sum_rec].
  - apply block_sum_Rplus.
  - destruct (length a <=? 128)%nat; [ apply block_sum_Rplus | ].
    cbv zeta. rewrite !IH, <- Rsum_app, firstn_skipn. reflexivity.
Qed.

Lemma add_reduce_Rplus (a : list R) : Numpy.add_reduce Rplus 0 a = Rsum a.
Proof.
  unfold Numpy.add_reduce, Numpy.pairwise_sum.
  rewrite pairwise_sum_rec_Rplus. lra.
Qed.

Lemma sum_exact (rs : list R) :
  Sklearn.sum (map XFin rs) = XFin (Rsum rs).
Proof.
  unfold Sklearn.sum. rewrite <- add_reduce_Rplus.
  exact (@add_reduce_map R xreal Rplus 0%R (@f_add xreal _) (f_of_Z 0) XFin
           eq_refl (fun _ _ => eq_refl) rs).
Qed.

Lemma Rzerob_false (r : R) : r <> 0 -> XReal.Rzerob r = false.
Proof.
  intros N. unfold XReal.Rzerob, XReal.Reqb.
  destruct (Req_dec_T r 0); [ contradiction | reflexivity ].
Qed.

Lemma Rzerob_true (r : R) : r = 0 -> XReal.Rzerob r = true.
Proof.
  intros N. unfold XReal.Rzerob, XReal.Reqb.
  destruct (Req_dec_T r 0); [ reflexivity | contradiction ].
Qed.

Lemma average_exact (rs : list R) :
  rs <> [] -> Sklearn.average (map XFin rs) = XFin (Rmean rs).
Proof.
  intros N. unfold Sklearn.average. rewrite sum_exact, length_map. simpl.
  rewrite Rzerob_false.
  - unfold Rmean. rewrite INR_IZR_INZ. reflexivity.
  - apply not_0_IZR. destruct rs; [ contradiction | simpl; lia ].
Qed.

Lemma squared_errors_exact (a b : list R) :
  Sklearn.squared_errors (map XFin a) (map XFin b) = map XFin (Rsq_err a b).
Proof.
  unfold Sklearn.squared_errors, Rsq_err.
  revert b. induction a as [ | x a IH]; intros [ | y b]; simpl; try reflexivity.
  f_equal. apply IH.
Qed.

Lemma absolute_errors_exact (a b : list R) :
  Sklearn.absolute_errors (map XFin a) (map XFin b) = map XFin (Rabs_err a b).
Proof.
  unfold Sklearn.absolute_errors, Rabs_err.
  revert b. induction a as [ | x a IH]; intros [ | y b]; simpl; try reflexivity.
  f_equal. apply IH.
Qed.

Lemma ss_tot_exact (a : list R) :
  a <> [] -> Sklearn.ss_tot (map XFin a) = XFin (Rss_tot a).
Proof.
  intros N. unfold Sklearn.ss_tot, Rss_tot.
  rewrite (average_exact N), <- sum_exact. f_equal.
  rewrite map_map. simpl. rewrite map_map. reflexivity.
Qed.

(** Sums of non-negative numbers. *)
Lemma fold_plus_nonneg (l : list R) (acc : R) :
  Forall (fun x => 0 <= x) l -> 0 <= acc -> 0 <= fold_left Rplus l acc.
Proof.
  revert acc. induction l as [ | x l IH]; intros acc Hl Hacc; simpl.
  - exact Hacc.
  - inversion Hl; subst. apply IH; [ assumption | lra ].
Qed.

Lemma Rsum_nonneg (l : list R) : Forall (fun x => 0 <= x) l -> 0 <= Rsum l.
Proof. intros Hl. apply fold_plus_nonneg; [ exact Hl | lra ]. Qed.

Lemma Rsq_err_nonneg (a b : list R) : Forall (fun x => 0 <= x) (Rsq_err a b).
Proof.
  unfold Rsq_err. apply Forall_forall. intros x Hx.
  apply in_map_iff in Hx. destruct Hx as [[u v] [<- _]].
  apply Rle_0_sqr.
Qed.


Lemma Rmean_nonneg (l : list R) :
  Forall (fun x => 0 <= x) l -> 0 <= Rmean l.
Proof.
  intros Hl. unfold Rmean.
  destruct l as [ | x l].
  - simpl. unfold Rsum; simpl. unfold Rdiv. rewrite Rmult_0_l. lra.
  - apply Rmult_le_pos; [ now apply Rsum_nonneg | ].
    apply Rlt_le, Rinv_0_lt_compat, lt_0_INR. simpl; lia.
Qed.

(** The real number [r2_score] computes on two samples or more. *)
Definition Rr2 (a b : list R) : R :=
  let num := Rsum (Rsq_err a b) in
  let den := Rss_tot a in
  if Req_dec_T den 0
  then (if Req_dec_T num 0 then 1 else 0)
  else (if Req_dec_T num 0 then 1 else 1 - num / den).


Lemma r2_score_exact (sk : scalar_kind) (a b : list R) :
  length a = length b -> (2 <= length a)%nat ->
  Sklearn.r2_score sk (map XFin a) (map XFin b)
  = Ok (Scalar sk (XFin (Rr2 a b))).
Proof.
  intros L N.
  assert (C : Sklearn.check_reg_targets (map XFin a) (map XFin b) = Ok tt).
  { apply check_reg_targets_Ok. rewrite !length_map.
    repeat split; try assumption; try lia;
      apply forallb_forall; intros x Hx; apply in_map_iff in Hx;
      destruct Hx as [r [<- _]]; reflexivity. }
  unfold Sklearn.r2_score. rewrite C; simpl. rewrite length_map.
  destruct (Nat.ltb_spec (length b) 2) as [L2 | _]; [ lia | ].
  unfold Sklearn.ss_res. rewrite squared_errors_exact, sum_exact.
  rewrite ss_tot_exact by (destruct a; [ simpl in N; lia | discriminate ]).
  simpl. unfold Rr2, XReal.Reqb, XReal.sub, XReal.div; simpl.
  unfold XReal.Rzerob, XReal.Reqb.
  destruct (Req_dec_T (Rss_tot a) 0) as [D | D];
    destruct (Req_dec_T (Rsum (Rsq_err a b)) 0) as [M | M]; simpl;
    reflexivity.
Qed.

End ExactFacts.

Section ExactMetrics.

Import ExactFacts.
Local Open Scope R_scope.

Variable sk : scalar_kind.

Lemma Rnegb_false (r : R) : 0 <= r -> XReal.Rnegb r = false.
Proof.
  intros P. unfold XReal.Rnegb. destruct (Rlt_dec r 0); [ lra | reflexivity ].
Qed.

(** The accepted inputs are real vectors of one length. *)
Lemma accepted_inputs (y y_hat : ndarray1 xreal) :
  Sklearn.check_reg_targets y y_hat = Ok tt ->
  exists a b, y = map XFin a /\ y_hat = map XFin b
              /\ length a = length b /\ a <> [].
Proof.
  intros C. apply check_reg_targets_Ok in C.
  destruct C as (L & N & Fy & Fh).
  destruct (finite_reals _ Fy) as [a ->].
  destruct (finite_reals _ Fh) as [b ->].
  exists a, b. rewrite !length_map in L. rewrite length_map in N.
  repeat split; auto. intros ->. now apply N.
Qed.



End ExactMetrics.

(** ** Signs and order of binary64 numbers *)

(** What rounding, the four operations and the square root do to the sign
    of a number, read off their definition in [SpecFloat]. *)
Unset Implicit Arguments.

Module Binary64Order.

Local Open Scope Z_scope.

(** *** Digits *)

Lemma digits2_size (p : positive) : digits2_pos p = Pos.size p.
Proof. induction p as [p IH | p IH | ]; simpl; now rewrite ?IH. Qed.

Lemma digits_upper (p : positive) : Zpos p < 2 ^ Zpos (digits2_pos p).
Proof.
  rewrite digits2_size. pose proof (Pos.size_gt p) as G.
  apply Pos2Z.pos_lt_pos in G. now rewrite Pos2Z.inj_pow in G.
Qed.

Lemma digits_lower (p : positive) : 2 ^ (Zpos (digits2_pos p) - 1) <= Zpos p.
Proof.
  rewrite digits2_size. pose proof (Pos.size_le p) as G.
  apply Pos2Z.pos_le_pos in G. rewrite Pos2Z.inj_pow in G.
  replace (Zpos (Pos.size p)) with (Z.succ (Zpos (Pos.size p) - 1)) in G by lia.
  rewrite Z.pow_succ_r in G by lia. lia.
Qed.

(** A number below [2 ^ k] has at most [k] digits. *)
Lemma digits_le (m k : Z) : 0 <= m -> 0 <= k -> m < 2 ^ k -> Zdigits2 m <= k.
Proof.
  intros Hm Hk Hlt. destruct m as [ | p | p]; simpl; [ lia | | lia ].
  pose proof (digits_lower p) as Lo.
  destruct (Z.le_gt_cases (Zpos (digits2_pos p)) k) as [ | G]; [ assumption | ].
  exfalso.
  assert (2 ^ k <= 2 ^ (Zpos (digits2_pos p) - 1))
    by (apply Z.pow_le_mono_r; lia).
  lia.
Qed.

(** A number from [2 ^ (k - 1)] on has at least [k] digits. *)
Lemma digits_ge (p : positive) (k : Z) :
  2 ^ (k - 1) <= Zpos p -> k <= Zpos (digits2_pos p).
Proof.
  intros Hle. pose proof (digits_upper p) as Up.
  destruct (Z.le_gt_cases k (Zpos (digits2_pos p))) as [ | G]; [ assumption | ].
  exfalso.
  assert (2 ^ Zpos (digits2_pos p) <= 2 ^ (k - 1))
    by (apply Z.pow_le_mono_r; lia).
  lia.
Qed.

(** *** Shifts *)

Lemma shr_1_div2 (mrs : shr_record) :
  0 <= shr_m mrs -> shr_m (shr_1 mrs) = shr_m mrs / 2.
Proof.
  destruct mrs as [m r s]. simpl. intros Hm.
  destruct m as [ | [p | p | ] | p]; try lia; try reflexivity.
  - apply (Z.div_unique _ _ _ 1); simpl; lia.
  - apply (Z.div_unique _ _ _ 0); simpl; lia.
Qed.

Lemma iter_shr_1 (n : positive) :
  forall mrs : shr_record,
    0 <= shr_m mrs ->
    shr_m (iter_pos shr_1 n mrs) = shr_m mrs / 2 ^ Zpos n.
Proof.
  assert (Half : forall m, 0 <= m -> 0 <= m / 2)
    by (intros m Hm; apply Z.div_pos; lia).
  assert (Pow : forall k m, 0 <= m -> 0 <= m / 2 ^ Zpos k).
  { intros k m Hm. apply Z.div_pos; [ exact Hm | ]. apply Z.pow_pos_nonneg; lia. }
  assert (P2 : forall k, 0 < 2 ^ Zpos k)
    by (intros k; apply Z.pow_pos_nonneg; lia).
  induction n as [n IH | n IH | ]; intros mrs Hm; cbn [iter_pos].
  - assert (H1 : 0 <= shr_m (shr_1 mrs)) by (rewrite shr_1_div2; auto).
    assert (H2 : 0 <= shr_m (iter_pos shr_1 n (shr_1 mrs)))
      by (rewrite IH; auto).
    rewrite (IH _ H2), (IH _ H1), shr_1_div2 by assumption.
    pose proof (P2 n).
    rewrite !Z.div_div by lia. f_equal.
    rewrite (Pos2Z.inj_xI n).
    replace (2 * Zpos n + 1) with (1 + Zpos n + Zpos n) by lia.
    rewrite !Z.pow_add_r by lia. lia.
  - assert (H2 : 0 <= shr_m (iter_pos shr_1 n mrs)) by (rewrite IH; auto).
    rewrite (IH _ H2), (IH _ Hm).
    pose proof (P2 n).
    rewrite !Z.div_div by lia. f_equal.
    rewrite (Pos2Z.inj_xO n).
    replace (2 * Zpos n) with (Zpos n + Zpos n) by lia.
    rewrite !Z.pow_add_r by lia. lia.
  - rewrite shr_1_div2 by exact Hm. reflexivity.
Qed.

(** [shr_fexp]: nothing is shifted out when the exponent is already that of
    the format; otherwise the mantissa is divided by the power of two that
    brings the exponent there. *)
Lemma shr_fexp_spec (m e : Z) (l : location) :
  0 <= m ->
  let f := fexp prec emax (Zdigits2 m + e) in
  let out := shr_fexp prec emax m e l in
  (f <= e /\ shr_m (fst out) = m /\ snd out = e)
  \/ (e < f /\ shr_m (fst out) = m / 2 ^ (f - e) /\ snd out = f).
Proof.
  intros Hm f out. subst out. unfold shr_fexp. fold f. unfold shr.
  assert (R : shr_m (shr_record_of_loc m l) = m)
    by (destruct l as [ | [ | | ]]; reflexivity).
  destruct (f - e) as [ | p | p] eqn:K.
  - left. simpl. rewrite R. lia.
  - right. simpl. rewrite iter_shr_1 by (rewrite R; exact Hm).
    rewrite R. lia.
  - left. simpl. rewrite R. lia.
Qed.

Lemma round_nearest_even_bounds (m : Z) (l : location) :
  m <= round_nearest_even m l <= m + 1.
Proof.
  destruct l as [ | [ | | ]]; simpl; try lia.
  destruct (Z.even m); lia.
Qed.

Lemma iter_xO (d m : positive) : Zpos (Pos.iter xO m d) = Zpos m * 2 ^ Zpos d.
Proof.
  induction d as [ | d IH] using Pos.peano_ind.
  - simpl. lia.
  - rewrite Pos.iter_succ, Pos2Z.inj_xO, IH, Pos2Z.inj_succ.
    rewrite Z.pow_succ_r by lia. lia.
Qed.

Lemma shl_align_spec (m : positive) (e e' : Z) :
  let out := shl_align m e e' in
  (e <= e' /\ out = (m, e))
  \/ (e' < e /\ Zpos (fst out) = Zpos m * 2 ^ (e - e') /\ snd out = e').
Proof.
  unfold shl_align. destruct (e' - e) as [ | p | p] eqn:K; cbn [fst snd].
  - left. split; [ lia | reflexivity ].
  - left. split; [ lia | reflexivity ].
  - right. split; [ lia | ]. split; [ | reflexivity ].
    rewrite iter_xO. replace (e - e') with (Zpos p) by lia. reflexivity.
Qed.


(** *** Signs *)

(** A number of sign [s], NaN excluded. *)
Definition signed (s : bool) (x : spec_float) : Prop :=
  match x with
  | S754_zero t | S754_finite t _ _ | S754_infinity t => t = s
  | S754_nan => False
  end.

Lemma shr_fexp_nonneg (m e : Z) (l : location) :
  0 <= m -> 0 <= shr_m (fst (shr_fexp prec emax m e l)).
Proof.
  intros Hm.
  destruct (shr_fexp_spec m e l Hm) as [(_ & -> & _) | (Hf & -> & _)];
    [ exact Hm | ].
  apply Z.div_pos; [ exact Hm | ]. apply Z.pow_pos_nonneg; lia.
Qed.

(** Rounding keeps the sign and gives no NaN. *)
Lemma binary_round_aux_signed (s : bool) (m e : Z) (l : location) :
  0 <= m -> signed s (binary_round_aux prec emax s m e l).
Proof.
  intros Hm. unfold binary_round_aux.
  pose proof (shr_fexp_nonneg m e l Hm) as H1.
  destruct (shr_fexp prec emax m e l) as [mrs1 e1]. cbn [fst] in H1.
  pose proof (round_nearest_even_bounds (shr_m mrs1) (loc_of_shr_record mrs1))
    as B.
  pose proof (shr_fexp_nonneg (round_nearest_even (shr_m mrs1)
                                 (loc_of_shr_record mrs1)) e1 loc_Exact
                ltac:(lia)) as H2.
  destruct (shr_fexp prec emax _ e1 loc_Exact) as [mrs2 e2]. cbn [fst] in H2.
  destruct (shr_m mrs2) as [ | q | q]; [ reflexivity | | lia ].
  destruct (e2 <=? emax - prec); reflexivity.
Qed.

Lemma binary_round_signed (s : bool) (m : positive) (e : Z) :
  signed s (binary_round prec emax s m e).
Proof.
  unfold binary_round. destruct (shl_align m e _) as [mz ez].
  apply binary_round_aux_signed. lia.
Qed.

Lemma binary_normalize_signed (m e : Z) :
  signed (m <? 0) (binary_normalize prec emax m e false).
Proof.
  destruct m as [ | p | p]; simpl; [ reflexivity | | ];
    apply binary_round_signed.
Qed.

(** *** Rounding a number below one *)

Definition one : spec_float := S754_finite false 4503599627370496 (-52).

Lemma fexp_eq (x : Z) : fexp prec emax x = Z.max (x - 53) (-1074).
Proof. reflexivity. Qed.

Lemma pow2_pos (k : Z) : 0 <= k -> 0 < 2 ^ k.
Proof. intros Hk. apply Z.pow_pos_nonneg; lia. Qed.

Lemma pow2_le (a b : Z) : 0 <= a <= b -> 2 ^ a <= 2 ^ b.
Proof. intros H. apply Z.pow_le_mono_r; lia. Qed.

(** The mantissa after the first shift fits the precision. *)
Lemma first_shift_small (m : positive) (e : Z) (l : location) :
  let out := shr_fexp prec emax (Zpos m) e l in
  0 <= shr_m (fst out) < 2 ^ 53
  /\ snd out = Z.max e (fexp prec emax (Zpos (digits2_pos m) + e)).
Proof.
  intros out. subst out.
  pose proof (shr_fexp_nonneg (Zpos m) e l ltac:(lia)) as Hn.
  destruct (shr_fexp_spec (Zpos m) e l ltac:(lia)) as [(Hf & Hm & He) | (Hf & Hm & He)];
    cbn [Zdigits2] in Hf, Hm, He; rewrite fexp_eq in *.
  - split; [ | lia ]. rewrite Hm. split; [ lia | ].
    pose proof (digits_upper m) as Up.
    assert (2 ^ Zpos (digits2_pos m) <= 2 ^ 53) by (apply pow2_le; lia).
    lia.
  - split; [ | lia ]. split; [ exact Hn | ]. rewrite Hm.
    set (k := Z.max (Zpos (digits2_pos m) + e - 53) (-1074) - e) in *.
    apply Z.div_lt_upper_bound; [ apply pow2_pos; lia | ].
    rewrite <- Z.pow_add_r by lia.
    pose proof (digits_upper m) as Up.
    assert (2 ^ Zpos (digits2_pos m) <= 2 ^ (k + 53)) by (apply pow2_le; lia).
    lia.
Qed.

(** The second shift: none below [2 ^ 53], one bit at [2 ^ 53]. *)
Lemma second_shift (m2 e1 : Z) :
  0 <= m2 <= 2 ^ 53 -> -1074 <= e1 ->
  let out := shr_fexp prec emax m2 e1 loc_Exact in
  (m2 < 2 ^ 53 /\ shr_m (fst out) = m2 /\ snd out = e1)
  \/ (m2 = 2 ^ 53 /\ shr_m (fst out) = 2 ^ 52 /\ snd out = e1 + 1).
Proof.
  intros Hm He out. subst out.
  destruct (Z.eq_dec m2 (2 ^ 53)) as [-> | Ne].
  - right. split; [ reflexivity | ].
    destruct (shr_fexp_spec (2 ^ 53) e1 loc_Exact ltac:(lia))
      as [(Hf & _) | (Hf & Hs & Hx)];
      change (Zdigits2 (2 ^ 53)) with 54 in *; rewrite fexp_eq in *; [ lia | ].
    rewrite Hs, Hx. replace (Z.max (54 + e1 - 53) (-1074) - e1) with 1 by lia.
    split; [ reflexivity | lia ].
  - left. split; [ lia | ].
    pose proof (digits_le m2 53 ltac:(lia) ltac:(lia) ltac:(lia)) as D.
    destruct (shr_fexp_spec m2 e1 loc_Exact ltac:(lia))
      as [(Hf & Hs & Hx) | (Hf & _)];
      rewrite fexp_eq in *; [ split; assumption | lia ].
Qed.

(** A positive number below 1 is rounded to a number that is at most 1. *)
Lemma round_below_one (m : positive) (e : Z) (l : location) :
  e <= -53 -> Zpos m < 2 ^ (- e) ->
  SFleb (binary_round_aux prec emax false (Zpos m) e l) one = true.
Proof.
  intros He Hm. unfold binary_round_aux.
  destruct (first_shift_small m e l) as [H1 E1].
  pose proof (digits_le (Zpos m) (- e) ltac:(lia) ltac:(lia) Hm) as D.
  cbn [Zdigits2] in D. rewrite fexp_eq in E1.
  destruct (shr_fexp prec emax (Zpos m) e l) as [mrs1 e1].
  cbn [fst snd] in H1, E1.
  pose proof (round_nearest_even_bounds (shr_m mrs1) (loc_of_shr_record mrs1))
    as B.
  set (m2 := round_nearest_even (shr_m mrs1) (loc_of_shr_record mrs1)) in *.
  destruct (second_shift m2 e1 ltac:(lia) ltac:(lia))
    as [(Hlt & Hs & Hx) | (Heq & Hs & Hx)];
    destruct (shr_fexp prec emax m2 e1 loc_Exact) as [mrs2 e2];
    cbn [fst snd] in Hs, Hx; rewrite Hs.
  - destruct m2 as [ | q | q]; [ reflexivity | | lia ].
    destruct (Z.leb_spec e2 (emax - prec)) as [ | G];
      [ | unfold emax, prec in G; lia ].
    unfold SFleb, SFcompare, one.
    destruct (Z.compare_spec e2 (-52)); [ lia | reflexivity | lia ].
  - change (2 ^ 52) with (Zpos 4503599627370496).
    destruct (Z.leb_spec e2 (emax - prec)) as [ | G];
      [ | unfold emax, prec in G; lia ].
    unfold SFleb, SFcompare, one.
    destruct (Z.compare_spec e2 (-52)); [ | reflexivity | lia ].
    rewrite Pos.compare_cont_refl. reflexivity.
Qed.

(** *** Rounding a number of full precision *)

Lemma round_full_precision (m : positive) (e : Z) (l : location) :
  53 <= Zpos (digits2_pos m) -> -1074 <= e ->
  Zpos (digits2_pos m) + e <= 1023 ->
  exists m' e',
    binary_round_aux prec emax false (Zpos m) e l = S754_finite false m' e'.
Proof.
  intros Hd He Hs. unfold binary_round_aux.
  destruct (first_shift_small m e l) as [H1 E1]. rewrite fexp_eq in E1.
  assert (Lo : 2 ^ 52 <= shr_m (fst (shr_fexp prec emax (Zpos m) e l))).
  { pose proof (digits_lower m) as Lo.
    destruct (shr_fexp_spec (Zpos m) e l ltac:(lia))
      as [(Hf & Hm & _) | (Hf & Hm & _)];
      cbn [Zdigits2] in Hf, Hm; rewrite fexp_eq in *; rewrite Hm.
    - assert (2 ^ 52 <= 2 ^ (Zpos (digits2_pos m) - 1)) by (apply pow2_le; lia).
      lia.
    - set (k := Z.max (Zpos (digits2_pos m) + e - 53) (-1074) - e) in *.
      apply Z.div_le_lower_bound; [ apply pow2_pos; lia | ].
      rewrite <- Z.pow_add_r by lia.
      replace (k + 52) with (Zpos (digits2_pos m) - 1) by lia. exact Lo. }
  destruct (shr_fexp prec emax (Zpos m) e l) as [mrs1 e1].
  cbn [fst snd] in H1, E1, Lo.
  pose proof (round_nearest_even_bounds (shr_m mrs1) (loc_of_shr_record mrs1))
    as B.
  set (m2 := round_nearest_even (shr_m mrs1) (loc_of_shr_record mrs1)) in *.
  destruct (second_shift m2 e1 ltac:(lia) ltac:(lia))
    as [(Hlt & Hsh & Hx) | (Heq & Hsh & Hx)];
    destruct (shr_fexp prec emax m2 e1 loc_Exact) as [mrs2 e2];
    cbn [fst snd] in Hsh, Hx; rewrite Hsh.
  - assert (P52 : 0 < 2 ^ 52) by (apply pow2_pos; lia).
    destruct m2 as [ | q | q]; [ lia | | lia ].
    destruct (Z.leb_spec e2 (emax - prec)) as [ | G];
      [ eauto | unfold emax, prec in G; lia ].
  - change (2 ^ 52) with (Zpos 4503599627370496).
    destruct (Z.leb_spec e2 (emax - prec)) as [ | G];
      [ eauto | unfold emax, prec in G; lia ].
Qed.

(** A positive integer below [2 ^ 63] is converted to a positive number. *)
Lemma binary_normalize_positive (p : positive) :
  Zpos p < 2 ^ 63 ->
  exists m e,
    binary_normalize prec emax (Zpos p) 0 false = S754_finite false m e.
Proof.
  intros Hp. cbn [binary_normalize]. unfold binary_round.
  pose proof (digits_le (Zpos p) 63 ltac:(lia) ltac:(lia) Hp) as D.
  cbn [Zdigits2] in D.
  pose proof (digits_lower p) as Lo. pose proof (digits_upper p) as Up.
  rewrite fexp_eq.
  destruct (shl_align_spec p 0 (Z.max (Zpos (digits2_pos p) + 0 - 53) (-1074)))
    as [(Hf & ->) | (Hf & Hm & He)].
  - apply round_full_precision; lia.
  - destruct (shl_align p 0 _) as [mz ez]. cbn [fst snd] in Hm, He.
    set (d := Zpos (digits2_pos p)) in *.
    assert (K : 0 - Z.max (d + 0 - 53) (-1074) = 53 - d) by lia.
    rewrite K in Hm.
    assert (P : 2 ^ (d - 1) * 2 ^ (53 - d) = 2 ^ 52)
      by (rewrite <- Z.pow_add_r by lia; f_equal; lia).
    assert (Q : 2 ^ d * 2 ^ (53 - d) = 2 ^ 53)
      by (rewrite <- Z.pow_add_r by lia; f_equal; lia).
    assert (Pk : 0 < 2 ^ (53 - d)) by (apply pow2_pos; lia).
    assert (G1 : 53 <= Zpos (digits2_pos mz)) by (apply digits_ge; nia).
    assert (G2 : Zdigits2 (Zpos mz) <= 53)
      by (apply digits_le; try lia; nia).
    cbn [Zdigits2] in G2.
    apply round_full_precision; lia.
Qed.


(** *** The operations *)

Definition finite (x : spec_float) : Prop :=
  match x with
  | S754_zero _ | S754_finite _ _ _ => True
  | S754_infinity _ | S754_nan => False
  end.

(** NaN or of positive sign: what a sum of squares can be. *)
Definition nan_or_nonneg (x : spec_float) : Prop :=
  x = S754_nan \/ signed false x.

Lemma signed_false_leb (x : spec_float) :
  signed false x -> SFleb (S754_zero false) x = true.
Proof.
  destruct x as [s | s | | s m e]; simpl; try contradiction;
    intros ->; reflexivity.
Qed.

Lemma SFsub_finite (x y : spec_float) :
  finite x -> finite y -> SF64sub x y <> S754_nan.
Proof.
  destruct x as [sx | sx | | sx mx ex], y as [sy | sy | | sy my ey];
    simpl; try contradiction; intros _ _; try discriminate.
  - destruct sx, sy; discriminate.
  - intros E.
    match type of E with
    | binary_normalize _ _ ?m ?e _ = _ =>
        pose proof (binary_normalize_signed m e) as Sg
    end.
    rewrite E in Sg. exact Sg.
Qed.

Lemma SFmul_self (x : spec_float) : nan_or_nonneg (SF64mul x x).
Proof.
  destruct x as [s | s | | s m e]; simpl.
  - right. destruct s; reflexivity.
  - right. destruct s; reflexivity.
  - now left.
  - right.
    replace (xorb s s) with false by (destruct s; reflexivity).
    apply binary_round_aux_signed. lia.
Qed.

Lemma SFmul_self_nonneg (x : spec_float) :
  x <> S754_nan -> signed false (SF64mul x x).
Proof.
  intros N. destruct (SFmul_self x) as [E | H]; [ | exact H ].
  destruct x; simpl in E; try discriminate; [ now elim N | ].
  pose proof (binary_round_aux_signed (xorb s s) (Zpos (m * m)) (e + e)
                loc_Exact ltac:(lia)) as S.
  rewrite E in S. contradiction.
Qed.

Lemma SFabs_nonneg (x : spec_float) : x <> S754_nan -> signed false (SFabs x).
Proof. destruct x; simpl; auto; intros N; now elim N. Qed.

Lemma SFadd_nonneg (x y : spec_float) :
  signed false x -> signed false y -> signed false (SF64add x y).
Proof.
  destruct x as [sx | sx | | sx mx ex], y as [sy | sy | | sy my ey];
    simpl; try contradiction; intros Hx Hy; subst; auto;
    try reflexivity; try (destruct sx, sy; exact I).
  match goal with
  | |- signed false (binary_normalize _ _ ?m ?e _) =>
      exact (binary_normalize_signed m e)
  end.
Qed.

Lemma SFadd_nan_or_nonneg (x y : spec_float) :
  nan_or_nonneg x -> nan_or_nonneg y -> nan_or_nonneg (SF64add x y).
Proof.
  intros [-> | Hx]; [ left; reflexivity | ].
  intros [-> | Hy]; [ left; destruct x; reflexivity | ].
  right. now apply SFadd_nonneg.
Qed.

Lemma div_eucl_nonneg (a : Z) (b : positive) :
  0 <= a -> 0 <= fst (Z.div_eucl a (Zpos b)).
Proof.
  intros Ha. change (fst (Z.div_eucl a (Zpos b))) with (a / Zpos b).
  apply Z.div_pos; lia.
Qed.

Lemma SFdiv_core_nonneg (mx my : positive) (ex ey : Z) :
  0 <= fst (fst (SFdiv_core_binary prec emax (Zpos mx) ex (Zpos my) ey)).
Proof.
  unfold SFdiv_core_binary.
  set (s := ex - ey - _).
  set (m' := match s with Zpos _ => Z.shiftl (Zpos mx) s | 0 => Zpos mx
             | Zneg _ => 0 end).
  assert (Hm : 0 <= m').
  { subst m'. destruct s; [ lia | | lia ]. apply Z.shiftl_nonneg. lia. }
  pose proof (div_eucl_nonneg m' my Hm) as Hq.
  destruct (Z.div_eucl m' (Zpos my)) as [q r]. exact Hq.
Qed.

Lemma SFdiv_nan_or_nonneg (x y : spec_float) :
  nan_or_nonneg x -> nan_or_nonneg y -> nan_or_nonneg (SF64div x y).
Proof.
  intros [-> | Hx]; [ left; reflexivity | ].
  intros [-> | Hy]; [ left; destruct x; reflexivity | ].
  destruct x as [sx | sx | | sx mx ex], y as [sy | sy | | sy my ey];
    simpl in Hx, Hy; try contradiction; subst;
    try (left; reflexivity); try (right; reflexivity).
  right.
  pose proof (SFdiv_core_nonneg mx my ex ey) as Hq.
  unfold SF64div, SFdiv.
  destruct (SFdiv_core_binary prec emax (Zpos mx) ex (Zpos my) ey)
    as [[q e'] l].
  apply binary_round_aux_signed. exact Hq.
Qed.

(** Dividing a number of positive sign by a positive number gives a number
    of positive sign. *)
Lemma SFdiv_nonneg (x : spec_float) (m : positive) (e : Z) :
  signed false x -> signed false (SF64div x (S754_finite false m e)).
Proof.
  intros Hx.
  destruct (@SFdiv_nan_or_nonneg x (S754_finite false m e))
    as [E | H]; [ now right | now right | | exact H ].
  exfalso. destruct x as [sx | sx | | sx mx ex]; simpl in *;
    try discriminate; try contradiction.
  pose proof (SFdiv_core_nonneg mx m ex e) as Hq.
  unfold SF64div, SFdiv in E.
  destruct (SFdiv_core_binary prec emax (Zpos mx) ex (Zpos m) e)
    as [[q e'] l].
  pose proof (binary_round_aux_signed (xorb sx false) q e' l Hq) as S.
  rewrite E in S. exact S.
Qed.

Lemma SFsqrt_nonneg (x : spec_float) :
  signed false x -> signed false (SF64sqrt x).
Proof.
  destruct x as [s | s | | s m e]; simpl; try contradiction; auto.
  - intros ->. reflexivity.
  - intros ->.
    unfold SFsqrt_core_binary.
    set (m' := match _ with Zpos _ => _ | 0 => _ | Zneg _ => _ end).
    pose proof (Z.sqrtrem_sqrt m') as Q.
    destruct (Z.sqrtrem m') as [q r]. simpl in Q.
    apply binary_round_aux_signed. rewrite Q. apply Z.sqrt_nonneg.
Qed.

Lemma signed_true_below_one (x : spec_float) :
  signed true x -> SFleb x one = true.
Proof. destruct x; simpl; try contradiction; intros ->; reflexivity. Qed.

(** One minus a number of positive sign is NaN or at most one. *)
Lemma SFsub_one (x : spec_float) :
  nan_or_nonneg x ->
  SF64sub one x = S754_nan \/ SFleb (SF64sub one x) one = true.
Proof.
  intros [-> | Hx]; [ now left | right ].
  destruct x as [s | s | | s my ey]; simpl in Hx; try contradiction; subst;
    try reflexivity.
  unfold SF64sub, SFsub, one. cbn [cond_Zopp].
  set (ez := Z.min (-52) ey).
  assert (M1 : Zpos (fst (shl_align 4503599627370496 (-52) ez)) = 2 ^ (- ez)).
  { destruct (shl_align_spec 4503599627370496 (-52) ez)
      as [(He & ->) | (He & -> & _)].
    - replace ez with (-52) by lia. reflexivity.
    - change (Zpos 4503599627370496) with (2 ^ 52).
      rewrite <- Z.pow_add_r by lia. f_equal. lia. }
  rewrite M1.
  set (My := Zpos (fst (shl_align my ey ez))).
  assert (HMy : 0 < My) by (subst My; lia).
  pose proof (binary_normalize_signed (2 ^ (- ez) - My) ez) as S.
  destruct (2 ^ (- ez) - My) as [ | d | d] eqn:D.
  - reflexivity.
  - clear S. cbn [binary_normalize]. unfold binary_round.
    assert (Hd : Zpos d < 2 ^ (- ez)) by lia.
    pose proof (digits_le (Zpos d) (- ez) ltac:(lia) ltac:(lia) Hd) as Dg.
    cbn [Zdigits2] in Dg. rewrite fexp_eq.
    set (f := Z.max (Zpos (digits2_pos d) + ez - 53) (-1074)).
    destruct (shl_align_spec d ez f) as [(Hf & ->) | (Hf & Hm & He)].
    + apply round_below_one; [ lia | exact Hd ].
    + destruct (shl_align d ez f) as [mz e']. cbn [fst snd] in Hm, He.
      subst e'. apply round_below_one; [ lia | ].
      rewrite Hm.
      assert (P : 2 ^ (- ez) * 2 ^ (ez - f) = 2 ^ (- f))
        by (rewrite <- Z.pow_add_r by lia; f_equal; lia).
      assert (Pk : 0 < 2 ^ (ez - f)) by (apply pow2_pos; lia).
      nia.
  - apply signed_true_below_one. exact S.
Qed.

(** One minus a number of positive sign is not NaN. *)
Lemma SFsub_one_number (x : spec_float) :
  signed false x -> SF64sub one x <> S754_nan.
Proof.
  destruct x as [s | s | | s m e]; simpl; try contradiction; intros ->;
    try discriminate.
  intros E.
  match type of E with
  | binary_normalize _ _ ?m ?e _ = _ =>
      pose proof (binary_normalize_signed m e) as Sg
  end.
  rewrite E in Sg. exact Sg.
Qed.

End Binary64Order.

Set Implicit Arguments.

(** ** The metrics on the machine *)

Module MachineMetrics.

Import Binary64Order.

(** The sign bit of a machine number is clear and the number is not NaN. *)
Definition positive_sign (x : float) : Prop := signed false (Prim2SF x).

(** A machine number is NaN, or its sign bit is clear. *)
Definition nan_or_positive_sign (x : float) : Prop :=
  nan_or_nonneg (Prim2SF x).

(** The conversion of a Python [int] that fits 63 bits is the rounding of
    the integer. *)
Lemma of_Z_spec (z : Z) :
  (0 <= z < 2 ^ 63)%Z ->
  Prim2SF (Binary64.of_Z z) = binary_normalize prec emax z 0 false.
Proof.
  intros Hz. unfold Binary64.of_Z.
  pose proof (of_uint63_spec (Uint63.of_Z z)) as S.
  rewrite Uint63.of_Z_spec in S.
  rewrite Z.mod_small in S by exact Hz.
  rewrite <- S. now rewrite SF2Prim_Prim2SF.
Qed.

Lemma of_Z_positive (z : Z) :
  (0 < z < 2 ^ 63)%Z ->
  exists m e, Prim2SF (Binary64.of_Z z) = S754_finite false m e.
Proof.
  intros Hz. rewrite of_Z_spec by lia.
  destruct z as [ | p | p]; try lia.
  apply binary_normalize_positive. lia.
Qed.

Lemma of_Z_0 : Prim2SF (Binary64.of_Z 0) = S754_zero false.
Proof. reflexivity. Qed.

Lemma of_Z_1 : Prim2SF (Binary64.of_Z 1) = one.
Proof. reflexivity. Qed.

Lemma is_finite_finite (x : float) :
  PrimFloat.is_finite x = true -> finite (Prim2SF x).
Proof.
  rewrite Binary64Facts.is_finite_spec.
  destruct (Prim2SF x); simpl; auto; discriminate.
Qed.

Lemma positive_sign_leb (x : float) :
  positive_sign x -> PrimFloat.leb (Binary64.of_Z 0) x = true.
Proof.
  intros H. rewrite leb_spec, of_Z_0. now apply signed_false_leb.
Qed.

Lemma positive_sign_add (x y : float) :
  positive_sign x -> positive_sign y -> positive_sign (x + y).
Proof.
  unfold positive_sign. rewrite add_spec. apply SFadd_nonneg.
Qed.

Lemma nan_or_positive_sign_add (x y : float) :
  nan_or_positive_sign x -> nan_or_positive_sign y ->
  nan_or_positive_sign (x + y).
Proof.
  unfold nan_or_positive_sign. rewrite add_spec. apply SFadd_nan_or_nonneg.
Qed.

Lemma positive_sign_0 : positive_sign (Binary64.of_Z 0).
Proof. reflexivity. Qed.

(** A sum of numbers of positive sign has positive sign, in whatever order
    numpy adds them. *)
Lemma sum_positive_sign (l : list float) :
  Forall positive_sign l -> positive_sign (Sklearn.sum l).
Proof.
  intros H. unfold Sklearn.sum.
  apply (@add_reduce_closed float PrimFloat.add (Binary64.of_Z 0)
           positive_sign positive_sign_add l positive_sign_0 H).
Qed.

Lemma sum_nan_or_positive_sign (l : list float) :
  Forall nan_or_positive_sign l -> nan_or_positive_sign (Sklearn.sum l).
Proof.
  intros H. unfold Sklearn.sum.
  apply (@add_reduce_closed float PrimFloat.add (Binary64.of_Z 0)
           nan_or_positive_sign nan_or_positive_sign_add l); [ | exact H ].
  right. reflexivity.
Qed.

(** The mean of numbers of positive sign, fewer than 2^63 of them. *)
Lemma average_positive_sign (l : list float) :
  l <> [] -> (Z.of_nat (length l) < 2 ^ 63)%Z ->
  Forall positive_sign l -> positive_sign (Sklearn.average l).
Proof.
  intros N B H. unfold Sklearn.average, positive_sign.
  change (@f_div float binary64) with PrimFloat.div.
  change (@f_of_Z float binary64) with Binary64.of_Z.
  rewrite div_spec.
  destruct (@of_Z_positive (Z.of_nat (length l))) as (m & e & ->).
  - destruct l; [ contradiction | cbn [length] in *; lia ].
  - apply SFdiv_nonneg. now apply sum_positive_sign.
Qed.

Lemma Forall_combine_map (A B : Type) (P : B -> Prop) (Q : A -> Prop)
  (f : A * A -> B) (a b : list A) :
  (forall x y, Q x -> Q y -> P (f (x, y))) ->
  Forall Q a -> Forall Q b -> Forall P (map f (combine a b)).
Proof.
  intros Hf Ha. revert b.
  induction Ha as [ | x a Hx _ IH]; intros b Hb; simpl; [ constructor | ].
  destruct Hb as [ | y b Hy Hb]; simpl; constructor; auto.
Qed.

Lemma forallb_finite (l : list float) :
  forallb PrimFloat.is_finite l = true ->
  Forall (fun x => finite (Prim2SF x)) l.
Proof.
  rewrite forallb_forall, Forall_forall. intros H x Hx.
  apply is_finite_finite. now apply H.
Qed.

Lemma square_of_difference (x y : float) :
  finite (Prim2SF x) -> finite (Prim2SF y) ->
  positive_sign ((x - y) * (x - y)).
Proof.
  intros Hx Hy. unfold positive_sign. rewrite mul_spec, sub_spec.
  apply SFmul_self_nonneg. now apply SFsub_finite.
Qed.

Lemma abs_of_difference (x y : float) :
  finite (Prim2SF x) -> finite (Prim2SF y) ->
  positive_sign (PrimFloat.abs (y - x)).
Proof.
  intros Hx Hy. unfold positive_sign. rewrite abs_spec, sub_spec.
  apply SFabs_nonneg. now apply SFsub_finite.
Qed.

Lemma squared_errors_positive_sign (y y_hat : ndarray1 float) :
  forallb PrimFloat.is_finite y = true ->
  forallb PrimFloat.is_finite y_hat = true ->
  Forall positive_sign (Sklearn.squared_errors y y_hat).
Proof.
  intros Fy Fh. unfold Sklearn.squared_errors.
  apply Forall_combine_map with (Q := fun x => finite (Prim2SF x));
    try now apply forallb_finite.
  intros a b. apply square_of_difference.
Qed.

Lemma absolute_errors_positive_sign (y y_hat : ndarray1 float) :
  forallb PrimFloat.is_finite y = true ->
  forallb PrimFloat.is_finite y_hat = true ->
  Forall positive_sign (Sklearn.absolute_errors y y_hat).
Proof.
  intros Fy Fh. unfold Sklearn.absolute_errors.
  apply Forall_combine_map with (Q := fun x => finite (Prim2SF x));
    try now apply forallb_finite.
  intros a b. apply abs_of_difference.
Qed.

Lemma length_errors (A B : Type) (f : A * A -> B) (a b : list A) :
  length a = length b -> length (map f (combine a b)) = length a.
Proof. intros L. rewrite length_map, length_combine. lia. Qed.

Lemma errors_not_nil (A B : Type) (f : A * A -> B) (a b : list A) :
  length a = length b -> length a <> 0 -> map f (combine a b) <> [].
Proof.
  intros L N E. apply (f_equal (@length B)) in E.
  rewrite length_errors in E by exact L. simpl in E. contradiction.
Qed.

(** Any square is NaN or of positive sign. *)
Lemma square_nan_or_positive_sign (x : float) : nan_or_positive_sign (x * x).
Proof. unfold nan_or_positive_sign. rewrite mul_spec. apply SFmul_self. Qed.

Lemma ss_res_sign (y y_hat : ndarray1 float) :
  nan_or_positive_sign (Sklearn.ss_res y y_hat).
Proof.
  unfold Sklearn.ss_res, Sklearn.squared_errors.
  apply sum_nan_or_positive_sign.
  apply Forall_forall. intros x Hx. apply in_map_iff in Hx.
  destruct Hx as ([a b] & <- & _). apply square_nan_or_positive_sign.
Qed.

Lemma ss_tot_sign (y : ndarray1 float) :
  nan_or_positive_sign (Sklearn.ss_tot y).
Proof.
  unfold Sklearn.ss_tot. cbv zeta.
  apply sum_nan_or_positive_sign.
  apply Forall_forall. intros x Hx. apply in_map_iff in Hx.
  destruct Hx as (a & <- & _). apply square_nan_or_positive_sign.
Qed.

(** NaN differs from itself. *)
Lemma nan_eqb (x : float) :
  Prim2SF x = S754_nan -> PrimFloat.eqb x x = false.
Proof. intros E. rewrite eqb_spec, E. reflexivity. Qed.

(** R2, whenever [r2_score] returns it, is NaN or at most 1. *)
Lemma r2_score_at_most_one (sk : scalar_kind) (y y_hat : ndarray1 float)
  (r : scalar float) :
  Sklearn.r2_score sk y y_hat = Ok r ->
  PrimFloat.eqb (val r) (val r) = false
  \/ PrimFloat.leb (val r) (Binary64.of_Z 1) = true.
Proof.
  unfold Sklearn.r2_score. intros E.
  apply bind_Ok in E. destruct E as ([] & _ & E).
  destruct (length y_hat <? 2)%nat.
  - inversion E; subst r. left. reflexivity.
  - cbv zeta in E. inversion E; subst r; clear E. cbn [val].
    change (@f_sub float binary64) with PrimFloat.sub.
    change (@f_div float binary64) with PrimFloat.div.
    change (@f_of_Z float binary64) with Binary64.of_Z.
    change (@f_eqb float binary64) with PrimFloat.eqb.
    set (q := (Sklearn.ss_res y y_hat / Sklearn.ss_tot y)%float).
    assert (Q : nan_or_nonneg (Prim2SF q)).
    { subst q. rewrite div_spec.
      apply SFdiv_nan_or_nonneg; [ apply ss_res_sign | apply ss_tot_sign ]. }
    destruct (negb (Sklearn.ss_tot y =? Binary64.of_Z 0)%float);
      destruct (negb (Sklearn.ss_res y y_hat =? Binary64.of_Z 0)%float);
      cbn [andb]; try (right; reflexivity).
    destruct (@SFsub_one _ Q) as [N | L].
    + left. apply nan_eqb. now rewrite sub_spec, of_Z_1.
    + right. now rewrite leb_spec, sub_spec, of_Z_1.
Qed.

(** With two samples or more and finite sums of squares, R2 is a number,
    at most 1. *)
Lemma r2_score_finite_sums (sk : scalar_kind) (y y_hat : ndarray1 float)
  (r : scalar float) :
  Sklearn.r2_score sk y y_hat = Ok r ->
  (2 <= length y_hat)%nat ->
  PrimFloat.is_finite (Sklearn.ss_res y y_hat) = true ->
  PrimFloat.is_finite (Sklearn.ss_tot y) = true ->
  PrimFloat.leb (val r) (Binary64.of_Z 1) = true.
Proof.
  unfold Sklearn.r2_score. intros E N Fr Ft.
  apply bind_Ok in E. destruct E as ([] & _ & E).
  destruct (Nat.ltb_spec (length y_hat) 2) as [N' | _]; [ lia | ].
  cbv zeta in E. inversion E; subst r; clear E. cbn [val].
  change (@f_sub float binary64) with PrimFloat.sub.
  change (@f_div float binary64) with PrimFloat.div.
  change (@f_of_Z float binary64) with Binary64.of_Z.
  change (@f_eqb float binary64) with PrimFloat.eqb.
  destruct (Sklearn.ss_tot y =? Binary64.of_Z 0)%float eqn:Zt;
    destruct (Sklearn.ss_res y y_hat =? Binary64.of_Z 0)%float;
    cbn [negb andb]; try reflexivity.
  rewrite eqb_spec, of_Z_0 in Zt.
  rewrite Binary64Facts.is_finite_spec in Fr, Ft.
  pose proof (ss_res_sign y y_hat) as Sr. pose proof (ss_tot_sign y) as St.
  unfold nan_or_positive_sign, nan_or_nonneg in Sr, St.
  rewrite leb_spec, sub_spec, div_spec, of_Z_1.
  destruct (Prim2SF (Sklearn.ss_tot y)) as [s | s | | s m e];
    cbn in Zt, Ft; try discriminate.
  destruct St as [St | St]; [ discriminate | ]. simpl in St. subst s.
  assert (Q : signed false (SF64div (Prim2SF (Sklearn.ss_res y y_hat))
                              (S754_finite false m e))).
  { apply SFdiv_nonneg. destruct Sr as [Sr | Sr]; [ | exact Sr ].
    rewrite Sr in Fr. discriminate. }
  destruct (@SFsub_one _ (or_intror Q)) as [E | L]; [ | exact L ].
  now apply SFsub_one_number in E.
Qed.

Section Bounds.

Variable sk : scalar_kind.

(** On the machine MSE, MAE and RMSE are numbers of positive sign (zero,
    positive or [+inf], never NaN) and R2 is NaN or at most 1. *)
Lemma machine_metrics (X : ndarray2 float) (y y_hat : ndarray1 float)
  (m : @metrics float) :
  (Z.of_nat (length y) < 2 ^ 63)%Z ->
  calculate_metrics sk X y y_hat = Ok m ->
  positive_sign (val (MSE m))
  /\ positive_sign (val (MAE m))
  /\ positive_sign (val (RMSE m))
  /\ (PrimFloat.eqb (val (R2 m)) (val (R2 m)) = false
      \/ PrimFloat.leb (val (R2 m)) (Binary64.of_Z 1) = true).
Proof.
  intros B E. apply calculate_metrics_Ok in E.
  destruct E as (C & Emse & Emae & Ermse & Er2 & _).
  apply check_reg_targets_Ok in C. destruct C as (L & N & Fy & Fh).
  assert (Pm : positive_sign (val (MSE m))).
  { rewrite Emse. cbn [val]. apply average_positive_sign.
    - now apply errors_not_nil.
    - unfold Sklearn.squared_errors. now rewrite length_errors.
    - now apply squared_errors_positive_sign. }
  split; [ exact Pm | ]. split; [ | split ].
  - rewrite Emae. cbn [val]. apply average_positive_sign.
    + now apply errors_not_nil.
    + unfold Sklearn.absolute_errors. now rewrite length_errors.
    + now apply absolute_errors_positive_sign.
  - rewrite Ermse. unfold np_sqrt. cbn [val].
    change (@f_sqrt float binary64) with PrimFloat.sqrt.
    unfold positive_sign. rewrite sqrt_spec. now apply SFsqrt_nonneg.
  - now apply r2_score_at_most_one with (sk := sk) (y := y) (y_hat := y_hat).
Qed.

End Bounds.

End MachineMetrics.

(** ** Bounds on the metrics *)

(** On one sample scikit-learn's R2 is NaN, and NaN is not below 1: with a
    feature matrix and a target of one row each, the bundle returned breaks
    [R2 <= 1].  This refutes C3 as stated. *)
Lemma r2_is_nan_on_one_sample :
  let X : ndarray2 float := {| rows := [[1%float]]; shape1 := 1 |} in
  shape0 X = length [3%float]
  /\ exists m,
       calculate_metrics np_float64 X [3%float] [2%float] = Ok m
       /\ val (R2 m) = nan
       /\ f_leb (val (R2 m)) (f_of_Z 1) = false.
Proof.
  split; [ reflexivity | ].
  eexists. split; [ vm_compute; reflexivity | ]. split; reflexivity.
Qed.

(** On the machine two samples suffice when the sums of squares overflow:
    R2 is NaN again. *)
Lemma r2_is_nan_on_overflow :
  exists m,
    calculate_metrics np_float64 Examples.X_3x5
      [0x1p+600%float; (-0x1p+600)%float] [0%float; 0%float] = Ok m
    /\ val (MSE m) = infinity
    /\ val (R2 m) = nan.
Proof.
  eexists. split; [ vm_compute; reflexivity | ]. split; reflexivity.
Qed.

(** C3, amended.  On the machine, whenever [calculate_metrics] returns on
    vectors of fewer than 2^63 entries: MSE is a number and [0 <= MSE]
    (overflow makes it [+inf], underflow 0); RMSE is the square root of MSE,
    exactly; and R2 is NaN or [R2 <= 1].  R2 is NaN on a single sample.  On
    two samples or more [R2 <= 1] holds as soon as the residual and the
    total sum of squares are both finite. *)
Theorem metrics_bounds
  (sk : scalar_kind) (X : ndarray2 float) (y y_hat : ndarray1 float)
  (m : @metrics float) :
  (Z.of_nat (length y) < 2 ^ 63)%Z ->
  calculate_metrics sk X y y_hat = Ok m ->
  f_leb (f_of_Z 0) (val (MSE m)) = true
  /\ val (RMSE m) = f_sqrt (val (MSE m))
  /\ (f_leb (val (R2 m)) (f_of_Z 1) = true
      \/ f_eqb (val (R2 m)) (val (R2 m)) = false)
  /\ (length y < 2 -> val (R2 m) = f_nan)
  /\ (2 <= length y ->
      f_is_finite (Sklearn.ss_res y y_hat) = true ->
      f_is_finite (Sklearn.ss_tot y) = true ->
      f_leb (val (R2 m)) (f_of_Z 1) = true).
Proof.
  intros B E.
  destruct (@MachineMetrics.machine_metrics sk X y y_hat m B E)
    as (Pm & _ & _ & Hr).
  apply calculate_metrics_Ok in E.
  destruct E as (C & _ & _ & Er & R & _).
  pose proof C as C'. apply check_reg_targets_Ok in C'.
  destruct C' as (L & _).
  split; [ now apply MachineMetrics.positive_sign_leb | ].
  split; [ rewrite Er; reflexivity | ].
  split; [ destruct Hr as [Hr | Hr]; [ now right | now left ] | ].
  split.
  - intros N. unfold Sklearn.r2_score in R. rewrite C in R. cbn [Py.bind] in R.
    destruct (Nat.ltb_spec (length y_hat) 2) as [_ | N2]; [ | lia ].
    inversion R as [R']. reflexivity.
  - intros N Fr Ft.
    apply (@MachineMetrics.r2_score_finite_sums sk y y_hat (R2 m) R);
      [ lia | exact Fr | exact Ft ].
Qed.

(** The bounds on the three samples [1, 2, 3] predicted [1, 2, 4]. *)
Lemma metrics_bounds_witness :
  exists m : @metrics float,
    calculate_metrics np_float64 {| rows := []; shape1 := 1 |}
      [1; 2; 3]%float [1; 2; 4]%float = Ok m
    /\ f_leb (f_of_Z 0) (val (MSE m)) = true
    /\ val (RMSE m) = f_sqrt (val (MSE m))
    /\ f_leb (val (R2 m)) (f_of_Z 1) = true.
Proof.
  destruct (calculate_metrics np_float64 {| rows := []; shape1 := 1 |}
              [1; 2; 3]%float [1; 2; 4]%float) as [m | e] eqn:E;
    [ | vm_compute in E; discriminate ].
  exists m. split; [ reflexivity | ].
  assert (B : (Z.of_nat (length [1; 2; 3]%float) < 2 ^ 63)%Z)
    by (vm_compute; reflexivity).
  destruct (@metrics_bounds np_float64 _ _ _ m B E) as (Pm & Root & _ & _ & Hr).
  repeat split; [ exact Pm | exact Root | ].
  apply Hr; [ simpl; lia | vm_compute; reflexivity | vm_compute; reflexivity ].
Defined.

(** ** Adjusted R2 against R2 *)

(** A thousand samples, 0 and 1 in turn, all predicted 0.5, and one feature
    column: R2 is 0 and the adjusted R2 is 1 - 999/998. *)
Module Thousand.

Local Open Scope float_scope.

Definition y : ndarray1 float := flat_map (fun _ => [0; 1]) (seq 0 500).
Definition y_pred : ndarray1 float := repeat 0.5 1000.
Definition X : ndarray2 float :=
  {| rows := map (fun v => [v]) y; shape1 := 1 |}.

End Thousand.








(** ** Loading the target *)

Section Ravel.

Variable F : Type.

Lemma length_concat_rectangular (l : list (list F)) (c : nat) :
  Forall (fun r => length r = c) l -> length (concat l) = length l * c.
Proof.
  induction 1 as [ | r l Hr _ IH]; simpl; [ reflexivity | ].
  rewrite length_app, IH, Hr. reflexivity.
Qed.

(** Row-major order: entry [j] of row [i] lands at position [i * c + j]. *)
Lemma nth_error_concat_rectangular (l : list (list F)) (c i j : nat) :
  Forall (fun r => length r = c) l -> j < c ->
  nth_error (concat l) (i * c + j)
  = match nth_error l i with
    | Some r => nth_error r j
    | None => None
    end.
Proof.
  intros Hl Hj. revert i. induction Hl as [ | r l Hr _ IH]; intros i.
  - destruct i; simpl; [ destruct j | destruct (c + i * c + j) ]; reflexivity.
  - destruct i as [ | i]; simpl.
    + apply nth_error_app1. lia.
    + rewrite nth_error_app2 by lia.
      replace (c + i * c + j - length r) with (i * c + j) by lia.
      apply IH.
Qed.

End Ravel.

(** C7.  [load_y_train] returns, and keeps in [self.y_train], a
    one-dimensional vector: the entries of the table read, row after row.
    A table of several columns is not refused: with [c] columns and [r] rows
    the vector has [r * c] entries and the entry of row [i], column [j] is
    at position [i * c + j]. *)
Theorem load_y_train_flattens
  (F : Type) (fs : filesystem F) (self : Trainer.t F) (df : DataFrame F) :
  fs (Trainer.y_train_path self) = Some df ->
  rectangular (np_array df) ->
  exists v : ndarray1 F,
    Trainer.load_y_train fs self = Ok (v, Trainer.set_y_train self v)
    /\ v = concat (values df)
    /\ length v = length (values df) * length (columns df)
    /\ forall i j row x,
         nth_error (values df) i = Some row -> nth_error row j = Some x ->
         nth_error v (i * length (columns df) + j) = Some x.
Proof.
  intros Hfs Hrect. exists (concat (values df)).
  unfold Trainer.load_y_train, read_csv. rewrite Hfs. simpl.
  unfold rectangular in Hrect; simpl in Hrect.
  repeat split.
  - now apply length_concat_rectangular.
  - intros i j row x Hi Hj.
    assert (Lrow : length row = length (columns df)).
    { rewrite Forall_forall in Hrect. apply Hrect.
      eapply nth_error_In; eassumption. }
    assert (Lj : j < length (columns df)).
    { rewrite <- Lrow. apply nth_error_Some. congruence. }
    rewrite (nth_error_concat_rectangular i Hrect Lj), Hi. exact Hj.
Qed.

(** A target file of two columns and two rows is flattened to four
    entries. *)
Lemma load_y_train_flattens_witness :
  let df : DataFrame float :=
    {| columns := ["price"; "tax"]%string;
       values := [[10; 1]; [20; 2]]%float |} in
  let self := Trainer.init float "X.csv" "y.csv" "params.yaml" in
  exists v,
    Trainer.load_y_train (fun _ => Some df) self
    = Ok (v, Trainer.set_y_train self v)
    /\ v = [10; 1; 20; 2]%float.
Proof.
  intros df self.
  destruct (@load_y_train_flattens float (fun _ => Some df) self df eq_refl)
    as (v & E & V & _).
  - repeat constructor.
  - exists v. split; [ exact E | exact V ].
Defined.

(** ** Logging to MLflow *)

(** The block under [with mlflow.start_run] in [log_results] is a sequence
    of logging calls.  Seen as data, it is a list of entries, each to be
    recorded into the active run by one request. *)
Section LoggedEntries.

Context {F V M : Type}.
Variable fails : nat -> bool.
Variable str : V -> string.

Inductive entry : Type :=
| Metric (key : string) (value : F)
| Param (key value : string)
| Artifact (path : string) (model : M).

(** What a logging call writes into the run, or why it is refused. *)
Definition record (e : entry) : Mlflow.run F M -> result (Mlflow.run F M) :=
  match e with
  | Metric key value => fun r =>
      Ok {| Mlflow.run_name := Mlflow.run_name r;
            Mlflow.status := Mlflow.status r;
            Mlflow.metrics := Mlflow.metrics r ++ [(key, value)];
            Mlflow.params := Mlflow.params r;
            Mlflow.artifacts := Mlflow.artifacts r |}
  | Param key value => fun r =>
      match Mlflow.lookup key (Mlflow.params r) with
      | Some old =>
          if String.eqb old value then Ok r else Raise MlflowException
      | None =>
          Ok {| Mlflow.run_name := Mlflow.run_name r;
                Mlflow.status := Mlflow.status r;
                Mlflow.metrics := Mlflow.metrics r;
                Mlflow.params := Mlflow.params r ++ [(key, value)];
                Mlflow.artifacts := Mlflow.artifacts r |}
      end
  | Artifact path model => fun r =>
      Ok {| Mlflow.run_name := Mlflow.run_name r;
            Mlflow.status := Mlflow.status r;
            Mlflow.metrics := Mlflow.metrics r;
            Mlflow.params := Mlflow.params r;
            Mlflow.artifacts := Mlflow.artifacts r ++ [(path, model)] |}
  end.

Definition log_entry (e : entry) : Mlflow.io F M unit :=
  Mlflow.request fails (record e).

(** The entries recorded one after the other. *)
Fixpoint record_all (r : Mlflow.run F M) (es : list entry)
  : result (Mlflow.run F M) :=
  match es with
  | [] => Ok r
  | e :: es' =>
      match record e r with
      | Ok r' => record_all r' es'
      | Raise x => Raise x
      end
  end.

Definition best_entries (best_params : list (string * V)) : list entry :=
  map (fun kv => Param ("Best " ++ fst kv) (str (snd kv))) best_params.

(** The entries of [log_results], in the order of its calls. *)
Definition entries (model_name : string) (best_model : M)
  (best_params : list (string * V)) (mse mae rmse r2 aR2 : scalar F)
  : list entry :=
  [Metric "MSE" (val mse); Metric "MAE" (val mae); Metric "RMSE" (val rmse);
   Metric "R2" (val r2); Metric "Adjusted R2" (val aR2)]
  ++ best_entries best_params
  ++ [Artifact (model_name ++ "_model") best_model].

(** The run a call leaves at the end of the list of the ended runs. *)
Definition ended_as (s : Mlflow.run_status) (r : Mlflow.run F M)
  : Mlflow.run F M :=
  {| Mlflow.run_name := Mlflow.run_name r;
     Mlflow.status := s;
     Mlflow.metrics := Mlflow.metrics r;
     Mlflow.params := Mlflow.params r;
     Mlflow.artifacts := Mlflow.artifacts r |}.

Lemma bind_ext (A B : Type) (m : Mlflow.io F M A) (k k' : A -> Mlflow.io F M B)
  (c : Mlflow.client F M) :
  (forall a c', k a c' = k' a c') -> Mlflow.bind m k c = Mlflow.bind m k' c.
Proof.
  intros Hk. unfold Mlflow.bind. destruct (m c) as [[a | e] c']; auto.
Qed.

Lemma bind_ret_tt (m : Mlflow.io F M unit) (c : Mlflow.client F M) :
  Mlflow.bind m (fun _ => Mlflow.ret tt) c = m c.
Proof.
  unfold Mlflow.bind, Mlflow.ret. destruct (m c) as [[[] | e] c']; reflexivity.
Qed.

Lemma bind_assoc (A B C : Type) (m : Mlflow.io F M A)
  (k : A -> Mlflow.io F M B) (h : B -> Mlflow.io F M C) (c : Mlflow.client F M) :
  Mlflow.bind (Mlflow.bind m k) h c
  = Mlflow.bind m (fun a => Mlflow.bind (k a) h) c.
Proof.
  unfold Mlflow.bind. destruct (m c) as [[a | e] c']; reflexivity.
Qed.

Lemma for_each_app (A : Type) (l1 l2 : list A) (f : A -> Mlflow.io F M unit)
  (c : Mlflow.client F M) :
  Mlflow.for_each (l1 ++ l2) f c
  = Mlflow.bind (Mlflow.for_each l1 f) (fun _ => Mlflow.for_each l2 f) c.
Proof.
  revert c. induction l1 as [ | a l1 IH]; intros c; simpl.
  - reflexivity.
  - rewrite bind_assoc. apply bind_ext. intros _ c'. apply IH.
Qed.

Lemma for_each_map (A B : Type) (g : A -> B) (l : list A)
  (f : B -> Mlflow.io F M unit) (c : Mlflow.client F M) :
  Mlflow.for_each (map g l) f c = Mlflow.for_each l (fun a => f (g a)) c.
Proof.
  revert c. induction l as [ | a l IH]; intros c; simpl; [ reflexivity | ].
  apply bind_ext. intros _ c'. apply IH.
Qed.

(** [log_results] is [with start_run] around the logging of its entries. *)
Lemma log_results_entries (self : MLflowLoggerClass) (model_name : string)
  (best_model : M) (best_params : list (string * V))
  (mse mae rmse r2 aR2 : scalar F) (c : Mlflow.client F M) :
  log_results fails str self model_name best_model best_params
    mse mae rmse r2 aR2 c
  = Mlflow.with_start_run fails model_name
      (Mlflow.for_each
         (entries model_name best_model best_params mse mae rmse r2 aR2)
         log_entry) c.
Proof.
  unfold log_results, Mlflow.with_start_run.
  destruct (Mlflow.start_run fails model_name c) as [[[] | e] c1];
    [ | reflexivity ].
  match goal with
  | |- match ?b1 c1 with _ => _ end = match ?b2 c1 with _ => _ end =>
      replace (b2 c1) with (b1 c1); [ reflexivity | ]
  end.
  unfold entries. simpl.
  repeat (apply bind_ext; intros _ ?).
  rewrite for_each_app. unfold best_entries. simpl.
  unfold Mlflow.bind at 1 2.
  rewrite for_each_map.
  match goal with
  | |- match ?x with _ => _ end = match ?y with _ => _ end =>
      replace y with x
  end.
  - destruct (Mlflow.for_each best_params _ _) as [[[] | e] c2];
      [ | reflexivity ].
    symmetry. apply bind_ret_tt.
  - match goal with |- Mlflow.for_each _ _ ?c0 = _ => generalize c0 end.
    induction best_params as [ | [k v] ps IH]; intros c0; simpl.
    + reflexivity.
    + apply bind_ext. intros _ c2. apply IH.
Qed.

End LoggedEntries.

Section LoggingRuns.

Context {F V M : Type}.
Variable fails : nat -> bool.
Variable str : V -> string.

(** The client after [n] more calls, with [a] for active run. *)
Definition after (c : Mlflow.client F M) (n : nat) (a : option (Mlflow.run F M))
  : Mlflow.client F M :=
  {| Mlflow.tracking_uri := Mlflow.tracking_uri c;
     Mlflow.ended := Mlflow.ended c;
     Mlflow.active := a;
     Mlflow.calls := n + Mlflow.calls c |}.

(** Logging a list of entries into the active run [r]: the entries before
    the first call that fails or is refused are recorded, one request
    each, and nothing is taken back.  The rest is not attempted. *)
Lemma for_each_log_entry (es : list (@entry F M)) :
  forall (c : Mlflow.client F M) (r : Mlflow.run F M),
    Mlflow.active c = Some r ->
    exists done rest r',
      es = done ++ rest
      /\ record_all r done = Ok r'
      /\ match Mlflow.for_each es (log_entry fails) c with
         | (Ok _, c') => rest = [] /\ c' = after c (length done) (Some r')
         | (Raise _, c') =>
             c' = after c (S (length done)) (Some r')
             /\ exists e rest',
                  rest = e :: rest'
                  /\ (fails (length done + Mlflow.calls c) = true
                      \/ exists x, record e r' = Raise x)
         end.
Proof.
  induction es as [ | e es IH]; intros c r A.
  - exists [], [], r. simpl. repeat split.
    unfold after. destruct c; simpl in *; subst; reflexivity.
  - simpl. unfold Mlflow.bind, log_entry at 1, Mlflow.request.
    destruct (fails (Mlflow.calls c)) eqn:Fc.
    + exists [], (e :: es), r. simpl. repeat split.
      * destruct c; simpl in *; subst; reflexivity.
      * exists e, es. split; [ reflexivity | left; exact Fc ].
    + rewrite A. destruct (record e r) as [r1 | x] eqn:R.
      * destruct (IH (Mlflow.with_active c (Some r1)) r1 eq_refl)
          as (done & rest & r' & -> & D & H).
        exists (e :: done), rest, r'. simpl. rewrite R.
        split; [ reflexivity | ]. split; [ exact D | ].
        destruct (Mlflow.for_each (done ++ rest) (log_entry fails)
                    (Mlflow.with_active c (Some r1))) as [[[] | x] c'].
        -- destruct H as [-> ->]. split; [ reflexivity | ].
           unfold after, Mlflow.with_active; simpl. f_equal. lia.
        -- destruct H as (-> & e' & rest' & -> & H). split.
           ++ unfold after, Mlflow.with_active; simpl. f_equal. lia.
           ++ exists e', rest'. split; [ reflexivity | ].
              simpl in H. rewrite Nat.add_succ_r in H. exact H.
      * exists [], (e :: es), r. simpl. repeat split.
        exists e, es. split; [ reflexivity | right; eauto ].
Qed.

End LoggingRuns.

(** Data for the logging examples: an [ElasticNet] model, its two best
    hyperparameters (their values as text), five metrics. *)
Module LogExample.

Local Open Scope float_scope.
Local Open Scope string_scope.

Definition model : ElasticNet float :=
  {| alpha := 0.5; l1_ratio := 0.25;
     coef_ := Some [2; 0; 1]; intercept_ := Some 4 |}.

Definition best_params : list (string * string) :=
  [("alpha", "0.5"); ("l1_ratio", "0.25")].

Definition str (v : string) : string := v.

Definition self : MLflowLoggerClass :=
  {| logger_tracking_uri := "http://localhost:5000" |}.

Definition mse : scalar float := Scalar np_float64 0.25.
Definition mae : scalar float := Scalar np_float64 0.25.
Definition rmse : scalar float := Scalar np_float64 0.5.
Definition r2 : scalar float := Scalar np_float64 0.75.
Definition aR2 : scalar float := Scalar np_float64 0.625.

(** No call fails. *)
Definition reliable (k : nat) : bool := false.

(** The third call of the client fails: [start_run] and the logging of MSE
    succeed, the logging of MAE fails. *)
Definition third_call_fails (k : nat) : bool := Nat.eqb k 2.

Definition client : Mlflow.client float (ElasticNet float) :=
  Mlflow.fresh float (ElasticNet float).

End LogExample.

Section CompleteRuns.

Context {F V M : Type}.
Variable fails : nat -> bool.
Variable str : V -> string.

(** What a list of entries holds, by kind. *)
Definition metric_pairs (es : list (@entry F M)) : list (string * F) :=
  flat_map (fun e => match e with Metric k v => [(k, v)] | _ => [] end) es.

Definition param_pairs (es : list (@entry F M)) : list (string * string) :=
  flat_map (fun e => match e with Param k v => [(k, v)] | _ => [] end) es.

Definition artifact_pairs (es : list (@entry F M)) : list (string * M) :=
  flat_map (fun e => match e with Artifact p m => [(p, m)] | _ => [] end) es.

Lemma lookup_app_none (key k v : string) (l : list (string * string)) :
  Mlflow.lookup key l = None -> k <> key ->
  Mlflow.lookup key (l ++ [(k, v)]) = None.
Proof.
  unfold Mlflow.lookup. intros L N.
  induction l as [ | [k0 v0] l IH]; simpl in *.
  - destruct (String.eqb_spec k key); [ contradiction | reflexivity ].
  - destruct (String.eqb k0 key); [ discriminate | auto ].
Qed.

(** Entries whose parameter names are distinct and new to the run are all
    recorded, each at the end of the list of its kind. *)
Lemma record_all_distinct (es : list (@entry F M)) :
  forall r : Mlflow.run F M,
    NoDup (map fst (param_pairs es)) ->
    (forall k, In k (map fst (param_pairs es)) ->
               Mlflow.lookup k (Mlflow.params r) = None) ->
    record_all r es
    = Ok {| Mlflow.run_name := Mlflow.run_name r;
            Mlflow.status := Mlflow.status r;
            Mlflow.metrics := Mlflow.metrics r ++ metric_pairs es;
            Mlflow.params := Mlflow.params r ++ param_pairs es;
            Mlflow.artifacts := Mlflow.artifacts r ++ artifact_pairs es |}.
Proof.
  induction es as [ | e es IH]; intros r D New; simpl.
  - rewrite !app_nil_r. destruct r; reflexivity.
  - destruct e as [k v | k v | p m]; simpl in *.
    + rewrite IH by assumption. simpl. rewrite <- !app_assoc. reflexivity.
    + inversion D as [ | ? ? Hk D']; subst.
      rewrite (New k) by now left.
      rewrite IH; simpl.
      * rewrite <- !app_assoc. reflexivity.
      * exact D'.
      * intros k' Hk'. apply lookup_app_none; [ apply New; now right | ].
        intros ->. contradiction.
    + rewrite IH by assumption. simpl. rewrite <- !app_assoc. reflexivity.
Qed.

(** With a reliable server, entries that can all be recorded are. *)
Lemma for_each_log_entry_reliable (es : list (@entry F M))
  (c : Mlflow.client F M) (r r' : Mlflow.run F M) :
  (forall k, fails k = false) ->
  Mlflow.active c = Some r ->
  record_all r es = Ok r' ->
  Mlflow.for_each es (log_entry fails) c
  = (Ok tt, after c (length es) (Some r')).
Proof.
  intros Rel A R.
  destruct (for_each_log_entry fails es c A) as (done & rest & r1 & E & D & H).
  destruct (Mlflow.for_each es (log_entry fails) c) as [[[] | x] c'].
  - destruct H as [-> ->]. rewrite app_nil_r in E. subst done.
    rewrite R in D. inversion D; subst. reflexivity.
  - exfalso. destruct H as (_ & e & rest' & -> & [H | [y H]]).
    + rewrite Rel in H. discriminate.
    + subst es. clear - R D H. revert r R D.
      induction done as [ | d done IH]; intros r R D; simpl in *.
      * inversion D; subst. rewrite H in R. discriminate.
      * destruct (record d r) as [r2 | z]; [ | discriminate ].
        eapply IH; eassumption.
Qed.

Lemma best_entries_pairs (ps : list (string * V)) :
  metric_pairs (best_entries str ps) = []
  /\ param_pairs (best_entries str ps)
     = map (fun kv => ("Best " ++ fst kv, str (snd kv))%string) ps
  /\ artifact_pairs (best_entries str ps) = [].
Proof.
  induction ps as [ | [k v] ps (IHm & IHp & IHa)]; simpl.
  - repeat split.
  - unfold metric_pairs, param_pairs, artifact_pairs in *; simpl.
    rewrite IHm, IHp, IHa. repeat split.
Qed.

Lemma best_names_distinct (ps : list (string * V)) :
  NoDup (map fst ps) ->
  NoDup (map fst (map (fun kv => ("Best " ++ fst kv, str (snd kv))%string) ps)).
Proof.
  rewrite map_map. simpl. induction ps as [ | [k v] ps IH]; simpl; intros D.
  - constructor.
  - inversion D as [ | ? ? Hk D']; subst. constructor; [ | now apply IH ].
    intros Hin. apply Hk. apply in_map_iff in Hin.
    destruct Hin as [[k' v'] [E Hin]]. simpl in E.
    inversion E; subst. apply in_map_iff. exists (k, v'). split; auto.
Qed.

Lemma entries_pairs (model_name : string) (best_model : M)
  (best_params : list (string * V)) (mse mae rmse r2 aR2 : scalar F) :
  let es := entries str model_name best_model best_params mse mae rmse r2 aR2 in
  metric_pairs es
  = [("MSE", val mse); ("MAE", val mae); ("RMSE", val rmse);
     ("R2", val r2); ("Adjusted R2", val aR2)]%string
  /\ param_pairs es
     = map (fun kv => ("Best " ++ fst kv, str (snd kv))%string) best_params
  /\ artifact_pairs es = [((model_name ++ "_model")%string, best_model)].
Proof.
  destruct (best_entries_pairs best_params) as (Em & Ep & Ea).
  unfold entries, metric_pairs, param_pairs, artifact_pairs in *.
  rewrite !flat_map_app, Em, Ep, Ea. simpl. rewrite app_nil_r.
  repeat split.
Qed.

End CompleteRuns.

Section FirstFailure.

Context {F V M : Type}.
Variable fails : nat -> bool.
Variable str : V -> string.

(** Of [n] calls made in a row, the first of them the call number [from] of
    the client: how many are answered before one fails. *)
Fixpoint answered (from n : nat) : nat :=
  match n with
  | O => O
  | S n' => if fails from then O else S (answered (S from) n')
  end.

Lemma answered_spec (n : nat) :
  forall from : nat,
    answered from n <= n
    /\ (forall j, j < answered from n -> fails (j + from) = false)
    /\ (answered from n < n -> fails (answered from n + from) = true).
Proof.
  induction n as [ | n IH]; intros from; simpl.
  - repeat split; [ lia | intros j Hj; lia | lia ].
  - destruct (fails from) eqn:Ff.
    + repeat split; [ lia | intros j Hj; lia | intros _; exact Ff ].
    + destruct (IH (S from)) as (Hle & Hbefore & Hat).
      repeat split.
      * lia.
      * intros [ | j] Hj; [ exact Ff | ].
        rewrite Nat.add_succ_comm. apply Hbefore. lia.
      * intros Hlt. rewrite Nat.add_succ_comm. apply Hat. lia.
Qed.

(** Logging a list of entries none of which is refused: the entries before
    the first failing call are recorded, the failing call raises, and the
    entries after it are not attempted. *)
Lemma for_each_until_failure (es : list (@entry F M)) :
  forall (c : Mlflow.client F M) (r r' : Mlflow.run F M),
    Mlflow.active c = Some r ->
    let k := answered (Mlflow.calls c) (length es) in
    record_all r (firstn k es) = Ok r' ->
    Mlflow.for_each es (log_entry fails) c
    = if k <? length es
      then (Raise MlflowException, after c (S k) (Some r'))
      else (Ok tt, after c k (Some r')).
Proof.
  induction es as [ | e es IH]; intros c r r' A k R; subst k.
  - simpl in *. inversion R; subst r'.
    unfold Mlflow.ret, after. destruct c; simpl in *; subst; reflexivity.
  - cbn [length answered] in *.
    cbn [Mlflow.for_each]. unfold Mlflow.bind, log_entry at 1, Mlflow.request.
    destruct (fails (Mlflow.calls c)) eqn:Fc.
    + simpl in R. inversion R; subst r'. simpl.
      unfold after, Mlflow.with_active. rewrite A. reflexivity.
    + rewrite A. cbn [firstn record_all] in R.
      destruct (record e r) as [r1 | x] eqn:R1; [ | discriminate ].
      rewrite (IH (Mlflow.with_active c (Some r1)) r1 r' eq_refl R).
      cbn [Mlflow.calls Mlflow.with_active].
      change (S (answered (S (Mlflow.calls c)) (length es)) <? S (length es))
        with (answered (S (Mlflow.calls c)) (length es) <? length es).
      destruct (_ <? _); unfold after, Mlflow.with_active; simpl;
        do 2 f_equal; lia.
Qed.

Lemma end_run_active (s : Mlflow.run_status) (c : Mlflow.client F M) :
  Mlflow.active (Mlflow.end_run s c) = None.
Proof.
  unfold Mlflow.end_run. destruct (Mlflow.active c) eqn:A; [ reflexivity | exact A ].
Qed.

Lemma with_start_run_active (name : string) (body : Mlflow.io F M unit)
  (c : Mlflow.client F M) :
  Mlflow.active c = None ->
  Mlflow.active (snd (Mlflow.with_start_run fails name body c)) = None.
Proof.
  intros A. unfold Mlflow.with_start_run, Mlflow.start_run. rewrite A.
  destruct (fails (Mlflow.calls c)); [ reflexivity | ].
  destruct (body _) as [[[] | e] c']; apply end_run_active.
Qed.

(** The parameter names of the first entries of a list are distinct when
    those of the whole list are. *)
Lemma param_pairs_firstn (k : nat) (es : list (@entry F M)) :
  NoDup (map fst (param_pairs es)) ->
  NoDup (map fst (param_pairs (firstn k es))).
Proof.
  intros D. rewrite <- (firstn_skipn k es) in D.
  unfold param_pairs in D. rewrite flat_map_app, map_app in D.
  now apply NoDup_app_remove_r in D.
Qed.

End FirstFailure.

(** When the second logging call fails, [log_results] raises and the run,
    ended as FAILED, still holds the metric logged by the first call: the
    logging is not all-or-nothing.  This refutes C5 as stated. *)
Lemma failed_run_keeps_first_metric :
  log_results LogExample.third_call_fails LogExample.str LogExample.self
    "ElasticNet" LogExample.model LogExample.best_params
    LogExample.mse LogExample.mae LogExample.rmse LogExample.r2 LogExample.aR2
    LogExample.client
  = (Raise MlflowException,
     {| Mlflow.tracking_uri := None;
        Mlflow.ended :=
          [ {| Mlflow.run_name := Mlflow.Named "ElasticNet";
               Mlflow.status := Mlflow.FAILED;
               Mlflow.metrics := [("MSE"%string, 0.25%float)];
               Mlflow.params := [];
               Mlflow.artifacts := [] |} ];
        Mlflow.active := None;
        Mlflow.calls := 3 |}).
Proof. reflexivity. Qed.

(** C5, amended.  Called with no run active and a dictionary of best
    parameters (its names distinct), [log_results] leaves no run active on
    any exit path.  When [start_run] itself fails no run is created.
    Otherwise exactly one run is ended, and it holds exactly what the calls
    answered before the first failing call recorded, in the order of the
    calls: with [k] such calls it holds the first [k] entries of
    [log_results], nothing of them taken back and nothing after them
    attempted.  When a call failed ([k] less than the number of entries)
    [MlflowException] is raised and the run is FAILED; when none did the
    call returns and the run is FINISHED, with every entry. *)
Theorem log_results_keeps_what_was_logged
  (F V M : Type) (fails : nat -> bool) (str : V -> string)
  (self : MLflowLoggerClass) (model_name : string) (best_model : M)
  (best_params : list (string * V)) (mse mae rmse r2 aR2 : scalar F)
  (c : Mlflow.client F M) :
  Mlflow.active c = None ->
  NoDup (map fst best_params) ->
  let es := entries str model_name best_model best_params mse mae rmse r2 aR2 in
  let out :=
    log_results fails str self model_name best_model best_params
      mse mae rmse r2 aR2 c in
  Mlflow.active (snd out) = None
  /\ (fails (Mlflow.calls c) = true ->
      fst out = Raise MlflowException
      /\ Mlflow.ended (snd out) = Mlflow.ended c)
  /\ (fails (Mlflow.calls c) = false ->
      exists k,
        k <= length es
        /\ (forall j, j < k -> fails (S (j + Mlflow.calls c)) = false)
        /\ (k < length es -> fails (S (k + Mlflow.calls c)) = true)
        /\ fst out = (if k <? length es then Raise MlflowException else Ok tt)
        /\ Mlflow.ended (snd out)
           = {| Mlflow.run_name := Mlflow.name_of model_name;
                Mlflow.status :=
                  if k <? length es then Mlflow.FAILED else Mlflow.FINISHED;
                Mlflow.metrics := metric_pairs (firstn k es);
                Mlflow.params := param_pairs (firstn k es);
                Mlflow.artifacts := artifact_pairs (firstn k es) |}
             :: Mlflow.ended c).
Proof.
  intros A D es out. subst out.
  split; [ | split ].
  - rewrite log_results_entries. now apply with_start_run_active.
  - intros Fc. rewrite log_results_entries.
    unfold Mlflow.with_start_run, Mlflow.start_run. rewrite A, Fc.
    split; reflexivity.
  - intros Fc. rewrite log_results_entries. fold es.
    unfold Mlflow.with_start_run, Mlflow.start_run. rewrite A, Fc.
    set (c1 := Mlflow.with_active c (Some (Mlflow.new_run F M model_name))).
    set (k := answered fails (Mlflow.calls c1) (length es)).
    destruct (answered_spec fails (length es) (Mlflow.calls c1))
      as (Hle & Hbefore & Hat). fold k in Hle, Hbefore, Hat.
    exists k. split; [ exact Hle | ].
    split; [ intros j Hj; rewrite <- Nat.add_succ_r; now apply Hbefore | ].
    split; [ intros Hk; rewrite <- Nat.add_succ_r; now apply Hat | ].
    assert (R : record_all (Mlflow.new_run F M model_name) (firstn k es)
                = Ok {| Mlflow.run_name := Mlflow.name_of model_name;
                        Mlflow.status := Mlflow.RUNNING;
                        Mlflow.metrics := metric_pairs (firstn k es);
                        Mlflow.params := param_pairs (firstn k es);
                        Mlflow.artifacts := artifact_pairs (firstn k es) |}).
    { rewrite (@record_all_distinct F M (firstn k es)
                 (Mlflow.new_run F M model_name)); [ reflexivity | | reflexivity ].
      apply param_pairs_firstn.
      destruct (@entries_pairs F V M str model_name best_model best_params
                  mse mae rmse r2 aR2) as (_ & Ep & _).
      fold es in Ep. rewrite Ep. now apply best_names_distinct. }
    rewrite (for_each_until_failure fails es c1 eq_refl R). fold k.
    destruct (k <? length es); split; reflexivity.
Qed.

(** The theorem on the run whose third call fails: one logging call is
    answered, and the FAILED run holds its metric and nothing else. *)
Lemma log_results_keeps_what_was_logged_witness :
  let out :=
    log_results LogExample.third_call_fails LogExample.str LogExample.self
      "ElasticNet" LogExample.model LogExample.best_params LogExample.mse
      LogExample.mae LogExample.rmse LogExample.r2 LogExample.aR2
      LogExample.client in
  Mlflow.active (snd out) = None
  /\ exists k,
       LogExample.third_call_fails (S k) = true
       /\ fst out = Raise MlflowException
       /\ map (fun run => (Mlflow.status run, Mlflow.metrics run,
                            Mlflow.params run, Mlflow.artifacts run))
               (Mlflow.ended (snd out))
          = [(Mlflow.FAILED, [("MSE"%string, 0.25%float)], [], [])].
Proof.
  intros out.
  destruct (@log_results_keeps_what_was_logged float string (ElasticNet float)
              LogExample.third_call_fails LogExample.str LogExample.self
              "ElasticNet" LogExample.model LogExample.best_params
              LogExample.mse LogExample.mae LogExample.rmse LogExample.r2
              LogExample.aR2 LogExample.client eq_refl)
    as (Hact & _ & H).
  - repeat constructor; simpl; intuition discriminate.
  - split; [ exact Hact | ].
    destruct (H eq_refl) as (k & Hle & Hbefore & Hat & Hres & Hended).
    assert (K : k = 1).
    { destruct k as [ | [ | k]].
      - specialize (Hat ltac:(simpl; lia)). discriminate.
      - reflexivity.
      - specialize (Hbefore 1 ltac:(lia)). discriminate. }
    subst k. exists 1. split; [ reflexivity | ].
    split; [ exact Hres | ].
    fold out in Hended. rewrite Hended. reflexivity.
Defined.


(** C4.  With no run active before, a tracking service that answers every
    call and a dictionary of best parameters (its names distinct),
    [log_results] returns and adds one run, FINISHED, named after the model
    (by the server when the model name is empty), that holds exactly: the
    five metrics under the keys "MSE", "MAE", "RMSE", "R2" and
    "Adjusted R2"; each hyperparameter under its name prefixed with
    "Best "; and one model artifact under the key
    [model_name ++ "_model"]. *)
Theorem log_results_records_run
  (F V M : Type) (fails : nat -> bool) (str : V -> string)
  (self : MLflowLoggerClass) (model_name : string) (best_model : M)
  (best_params : list (string * V)) (mse mae rmse r2 aR2 : scalar F)
  (c : Mlflow.client F M) :
  Mlflow.active c = None ->
  (forall k, fails k = false) ->
  NoDup (map fst best_params) ->
  log_results fails str self model_name best_model best_params
    mse mae rmse r2 aR2 c
  = (Ok tt,
     {| Mlflow.tracking_uri := Mlflow.tracking_uri c;
        Mlflow.ended :=
          {| Mlflow.run_name := Mlflow.name_of model_name;
             Mlflow.status := Mlflow.FINISHED;
             Mlflow.metrics :=
               [("MSE", val mse); ("MAE", val mae); ("RMSE", val rmse);
                ("R2", val r2); ("Adjusted R2", val aR2)]%string;
             Mlflow.params :=
               map (fun kv => ("Best " ++ fst kv, str (snd kv))%string)
                   best_params;
             Mlflow.artifacts := [((model_name ++ "_model")%string, best_model)]
          |} :: Mlflow.ended c;
        Mlflow.active := None;
        Mlflow.calls := length best_params + 7 + Mlflow.calls c |}).
Proof.
  intros A Rel D. rewrite log_results_entries.
  unfold Mlflow.with_start_run, Mlflow.start_run. rewrite A, Rel.
  destruct (@entries_pairs F V M str model_name best_model best_params
              mse mae rmse r2 aR2) as (Em & Ep & Ea).
  erewrite for_each_log_entry_reliable;
    [ | exact Rel | reflexivity
      | apply record_all_distinct; rewrite Ep;
        [ now apply best_names_distinct | reflexivity ] ].
  rewrite Em, Ep, Ea.
  unfold Mlflow.end_run, after, entries, best_entries; simpl.
  rewrite !length_app, !length_map. simpl.
  do 2 f_equal. lia.
Qed.

(** The run of the end-to-end scenario: five metrics, two parameters, one
    artifact. *)
Lemma log_results_records_run_witness :
  exists c',
    log_results LogExample.reliable LogExample.str LogExample.self "ElasticNet"
      LogExample.model LogExample.best_params LogExample.mse LogExample.mae
      LogExample.rmse LogExample.r2 LogExample.aR2 LogExample.client
    = (Ok tt, c')
    /\ exists run,
         Mlflow.ended c' = [run]
         /\ Mlflow.status run = Mlflow.FINISHED
         /\ map fst (Mlflow.metrics run)
            = ["MSE"; "MAE"; "RMSE"; "R2"; "Adjusted R2"]%string
         /\ Mlflow.params run
            = [("Best alpha", "0.5"); ("Best l1_ratio", "0.25")]%string
         /\ Mlflow.artifacts run
            = [("ElasticNet_model"%string, LogExample.model)].
Proof.
  eexists. split.
  - apply (@log_results_records_run float string (ElasticNet float)
             LogExample.reliable LogExample.str LogExample.self "ElasticNet"
             LogExample.model LogExample.best_params LogExample.mse
             LogExample.mae LogExample.rmse LogExample.r2 LogExample.aR2
             LogExample.client eq_refl (fun _ => eq_refl)).
    repeat constructor; simpl; intuition discriminate.
  - eexists. repeat split.
Defined.

(** ** Training *)

(** The ranking of mean test scores is a strict weak order in which NaN is
    last: that is what makes "the best candidate" meaningful. *)
Class RankLaws (F : Type) `{Float64 F} : Prop := {
  better_irrefl : forall a : F, SearchCV.better a a = false;
  better_trans :
    forall a b c : F,
      SearchCV.better a b = true -> SearchCV.better b c = true ->
      SearchCV.better a c = true;
  better_cotrans :
    forall a b c : F,
      SearchCV.better a c = true ->
      SearchCV.better a b = true \/ SearchCV.better b c = true
}.

Arguments RankLaws F {_}.

Module ExactRank.

Local Open Scope R_scope.

(** The place of a number in the ranking: NaN, then the numbers in order. *)
Definition place (x : xreal) : R * R :=
  match x with
  | XNaN => (-2, 0)
  | XInf true => (-1, 0)
  | XFin r => (0, r)
  | XInf false => (1, 0)
  end.

Definition before (p q : R * R) : Prop :=
  fst p < fst q \/ (fst p = fst q /\ snd p < snd q).

Lemma better_place (s best : xreal) :
  SearchCV.better s best = true <-> before (place best) (place s).
Proof.
  unfold SearchCV.better, SearchCV.is_nan, before; simpl.
  destruct s as [a | [ | ] | ], best as [b | [ | ] | ]; simpl;
    unfold XReal.Rltb, XReal.Reqb;
    repeat match goal with
      | |- context [Rlt_dec ?x ?y] => destruct (Rlt_dec x y)
      | |- context [Req_dec_T ?x ?y] => destruct (Req_dec_T x y)
      end; simpl; split; intros H; try discriminate; try reflexivity;
    try lra; try (exfalso; lra).
Qed.

Lemma before_irrefl (p : R * R) : ~ before p p.
Proof. unfold before. lra. Qed.

Lemma before_trans (p q r : R * R) : before p q -> before q r -> before p r.
Proof. unfold before. lra. Qed.

Lemma before_cotrans (p q r : R * R) :
  before p r -> before p q \/ before q r.
Proof.
  unfold before. intros H.
  destruct (Rtotal_order (fst p) (fst q)) as [L | [E | G]]; [ lra | | lra ].
  destruct (Rtotal_order (snd p) (snd q)) as [L | [E' | G]]; lra.
Qed.

End ExactRank.

#[export] Instance exact64_rank : RankLaws xreal.
Proof.
  split.
  - intros a. destruct (SearchCV.better a a) eqn:B; [ | reflexivity ].
    apply ExactRank.better_place in B. now apply ExactRank.before_irrefl in B.
  - intros a b c H1 H2. apply ExactRank.better_place.
    apply ExactRank.better_place in H1, H2.
    eapply ExactRank.before_trans; eassumption.
  - intros a b c H. apply ExactRank.better_place in H.
    destruct (ExactRank.before_cotrans (ExactRank.place b) H) as [H' | H'];
      [ right | left ]; now apply ExactRank.better_place.
Qed.

Module Binary64Rank.

Local Open Scope Z_scope.

(** The place of a binary64 in the ranking: NaN, then the numbers in
    order, by sign, exponent and mantissa. *)
Definition place (x : spec_float) : Z * Z * Z :=
  match x with
  | S754_nan => (-3, 0, 0)
  | S754_infinity true => (-2, 0, 0)
  | S754_finite true m e => (-1, - e, - Zpos m)
  | S754_zero _ => (0, 0, 0)
  | S754_finite false m e => (1, e, Zpos m)
  | S754_infinity false => (2, 0, 0)
  end.

Definition before (p q : Z * Z * Z) : Prop :=
  let '(a, b, c) := p in
  let '(a', b', c') := q in
  a < a' \/ (a = a' /\ (b < b' \/ (b = b' /\ c < c'))).








End Binary64Rank.


Section SearchFacts.

Context {F V E : Type} `{Float64 F} `{Estimator F V E}.
Context {RL : RankLaws F}.










End SearchFacts.

Section FiveFolds.

(** The test folds are consecutive. *)
Lemma concat_test_folds (sizes : list nat) (start : nat) :
  concat (SearchCV.test_folds start sizes) = seq start (list_sum sizes).
Proof.
  revert start. induction sizes as [ | s sizes IH]; intros start; simpl.
  - reflexivity.
  - rewrite IH, seq_app. reflexivity.
Qed.

Lemma length_test_folds (sizes : list nat) (start : nat) :
  length (SearchCV.test_folds start sizes) = length sizes.
Proof.
  revert start. induction sizes as [ | s sizes IH]; intros start; simpl; auto.
Qed.

Lemma five_fold_sizes (n : nat) : list_sum (SearchCV.fold_sizes 5 n) = n.
Proof.
  unfold SearchCV.fold_sizes.
  pose proof (Nat.div_mod_eq n 5) as D.
  pose proof (Nat.mod_upper_bound n 5 ltac:(discriminate)) as U.
  set (q := n / 5) in *. set (r := n mod 5) in *.
  destruct r as [ | [ | [ | [ | [ | r]]]]]; simpl; lia.
Qed.

(** [KFold(5)] on at least five samples: five splits, whose test folds are
    consecutive and cover every sample once, each trained on the samples
    outside its test fold. *)
Lemma KFold_five (n : nat) :
  5 <= n ->
  exists splits,
    SearchCV.KFold_split 5 n = Ok splits
    /\ length splits = 5
    /\ concat (map snd splits) = seq 0 n
    /\ forall train test i,
         In (train, test) splits ->
         (In i train <-> i < n /\ ~ In i test).
Proof.
  intros L. unfold SearchCV.KFold_split.
  destruct (Nat.ltb_spec n 5) as [L' | _]; [ lia | ].
  eexists. split; [ reflexivity | ]. split; [ | split ].
  - rewrite length_map, length_test_folds. reflexivity.
  - rewrite map_map. rewrite (map_ext _ (fun t => t)) by reflexivity.
    rewrite map_id, concat_test_folds, five_fold_sizes. reflexivity.
  - intros train test i Hin. apply in_map_iff in Hin.
    destruct Hin as [t [E _]]. inversion E; subst; clear E.
    rewrite filter_In, in_seq, negb_true_iff.
    split.
    + intros [Hi Hn]. split; [ lia | ].
      intros Hc. assert (X : existsb (Nat.eqb i) test = true).
      { apply existsb_exists. exists i. split; [ exact Hc | apply Nat.eqb_refl ]. }
      congruence.
    + intros [Hi Hn]. split; [ lia | ].
      destruct (existsb (Nat.eqb i) test) eqn:X; [ | reflexivity ].
      apply existsb_exists in X. destruct X as [j [Hj Ej]].
      apply Nat.eqb_eq in Ej. subst j. contradiction.
Qed.

End FiveFolds.

Section FoldSizes.




End FoldSizes.


(** An estimator for the examples: it predicts one constant, the mean of
    the targets it was fitted on, shrunk by [1 + alpha], and scores with
    R2.  Ten samples, a grid of three values for [alpha], and a random
    source that draws the grid in order. *)
Module SearchExample.

Local Open Scope float_scope.

Record shrunk_mean : Type := { shrink : float; level : float }.

Definition lookup_alpha (ps : list (string * float)) (default : float) : float :=
  match find (fun kv => String.eqb (fst kv) "alpha") ps with
  | Some kv => snd kv
  | None => default
  end.

#[global] Instance shrunk_mean_estimator : Estimator float float shrunk_mean := {|
  set_params := fun est ps =>
    {| shrink := lookup_alpha ps (shrink est); level := 0 |};
  fit := fun est X y =>
    {| shrink := shrink est;
       level := Sklearn.average y / (1 + shrink est) |};
  predict := fun est X => map (fun _ => level est) (rows X);
  score := fun est X y =>
    match Sklearn.r2_score np_float64 y (map (fun _ => level est) (rows X)) with
    | Ok s => val s
    | Raise _ => nan
    end
|}.

Definition model : shrunk_mean := {| shrink := 1; level := 0 |}.

Definition param_grid : list (string * list float) :=
  [("alpha"%string, [3; 0; 1])].

Definition rng (population n : nat) : list nat := seq 0 n.

Definition y : ndarray1 float := [1; 2; 3; 4; 5; 6; 7; 8; 9; 10].

Definition X : ndarray2 float :=
  {| rows := map (fun v => [v]) y; shape1 := 1 |}.

Definition self : Trainer.t float :=
  Trainer.set_y_train
    (Trainer.set_X_train (Trainer.init float "X.csv" "y.csv" "params.yaml") X)
    y.

End SearchExample.


(* ================================================================== *)
(** * Part III: the rest of the script                                  *)
(* ================================================================== *)

(** ** [calculate_metrics]: when it raises *)

(** What scikit-learn's validation accepts, on the inputs themselves. *)
Definition accepted {F : Type} `{Float64 F} (y y_hat : ndarray1 F) : Prop :=
  length y = length y_hat /\ length y <> 0
  /\ forallb f_is_finite y = true /\ forallb f_is_finite y_hat = true.

Lemma check_reg_targets_rejects (F : Type) (FF : Float64 F)
  (y y_hat : ndarray1 F) :
  Sklearn.check_reg_targets y y_hat = Raise ValueError <-> ~ accepted y y_hat.
Proof.
  unfold accepted. rewrite <- check_reg_targets_Ok.
  unfold Sklearn.check_reg_targets.
  destruct (negb _); [ split; [ discriminate | reflexivity ] | ].
  destruct (_ =? 0)%nat; [ split; [ discriminate | reflexivity ] | ].
  destruct (negb _); [ split; [ discriminate | reflexivity ] | ].
  split; [ discriminate | intros N; now elim N ].
Qed.

(** X1.  [calculate_metrics] raises in two cases and no other: [ValueError]
    exactly when scikit-learn rejects the two vectors (different lengths,
    no sample, a NaN or an infinity), and [ZeroDivisionError] exactly when
    they are accepted, [n - p - 1] is zero and R2 is a built-in float. *)
Theorem calculate_metrics_raises
  (F : Type) (FF : Float64 F) (sk : scalar_kind)
  (X : ndarray2 F) (y y_hat : ndarray1 F) (e : exn) :
  calculate_metrics sk X y y_hat = Raise e <->
  (e = ValueError /\ ~ accepted y y_hat)
  \/ (e = ZeroDivisionError /\ accepted y y_hat
      /\ (Z.of_nat (length y) - Z.of_nat (shape1 X) - 1 = 0)%Z
      /\ (sk = py_float \/ length y < 2)).
Proof.
  unfold calculate_metrics, Sklearn.mean_squared_error,
    Sklearn.mean_absolute_error.
  destruct (Sklearn.check_reg_targets y y_hat) as [[] | e'] eqn:C.
  - pose proof (proj1 (check_reg_targets_Ok y y_hat) C) as A.
    simpl. destruct (Sklearn.r2_score sk y y_hat) as [r2 | e'] eqn:R.
    + simpl. pose proof (r2_score_kind _ _ _ R) as K.
      assert (L : length y_hat = length y) by (symmetry; apply A).
      rewrite L in K.
      destruct (adjusted_r2 r2 _ _) as [a | e'] eqn:Ad; simpl.
      * split; [ discriminate | ].
        intros [[_ N] | (_ & _ & D & S)]; [ now elim N | ].
        exfalso. unfold adjusted_r2, truediv_int in Ad. simpl in Ad.
        rewrite D in Ad. simpl in Ad. rewrite K in Ad.
        destruct (Nat.ltb_spec (length y) 2); simpl in Ad;
          [ discriminate | ].
        destruct S as [-> | S]; [ discriminate | lia ].
      * apply adjusted_r2_Raise in Ad. destruct Ad as (-> & Kp & D).
        split.
        -- intros E. inversion E; subst e. right.
           repeat split; try apply A; auto.
           rewrite K in Kp.
           destruct (Nat.ltb_spec (length y) 2); [ now right | now left ].
        -- intros [[_ N] | (-> & _)]; [ now elim N | reflexivity ].
    + unfold Sklearn.r2_score in R. rewrite C in R. simpl in R.
      destruct (length y_hat <? 2)%nat; discriminate.
  - assert (e' = ValueError) as ->.
    { unfold Sklearn.check_reg_targets in C.
      repeat match type of C with
             | (if ?b then _ else _) = _ => destruct b
             end; congruence. }
    simpl. apply check_reg_targets_rejects in C.
    split.
    + intros E. inversion E. left. split; auto.
    + intros [[-> _] | (_ & A & _)]; [ reflexivity | contradiction ].
Qed.

(** ** [calculate_metrics] in exact arithmetic *)

Module ExactBundle.

Import ExactFacts.
Local Open Scope R_scope.

(** The whole tuple on accepted inputs of two samples or more. *)
Lemma bundle_exact (sk : scalar_kind) (X : ndarray2 xreal)
  (y y_hat : ndarray1 xreal) (m : @metrics xreal) :
  calculate_metrics sk X y y_hat = Ok m ->
  (2 <= length y)%nat ->
  exists a b,
    y = map XFin a /\ y_hat = map XFin b /\ length a = length b
    /\ val (MSE m) = XFin (Rmean (Rsq_err a b))
    /\ val (MAE m) = XFin (Rmean (Rabs_err a b))
    /\ val (RMSE m) = XFin (R_sqrt.sqrt (Rmean (Rsq_err a b)))
    /\ val (R2 m) = XFin (Rr2 a b)
    /\ ((Z.of_nat (length y) - Z.of_nat (shape1 X) - 1 <> 0)%Z ->
        val (aR2 m)
        = XFin (1 - (1 - Rr2 a b) * IZR (Z.of_nat (length y) - 1)
                    / IZR (Z.of_nat (length y) - Z.of_nat (shape1 X) - 1))).
Proof.
  intros E N.
  pose proof (calculate_metrics_Ok _ _ _ _ E) as (C & Emse & Emae & Ermse & R & A).
  destruct (accepted_inputs _ _ C) as (a & b & -> & -> & L & Ne).
  exists a, b. rewrite length_map in N.
  assert (S : Rsq_err a b <> []).
  { destruct a as [ | x a]; [ contradiction | ].
    destruct b as [ | z b]; discriminate. }
  assert (S' : Rabs_err a b <> []).
  { destruct a as [ | x a]; [ contradiction | ].
    destruct b as [ | z b]; discriminate. }
  assert (Vm : val (MSE m) = XFin (Rmean (Rsq_err a b))).
  { rewrite Emse. simpl. rewrite squared_errors_exact. now apply average_exact. }
  rewrite (r2_score_exact sk _ _ L N) in R. inversion R as [R'].
  repeat split; auto.
  - rewrite Emae. simpl. rewrite absolute_errors_exact. now apply average_exact.
  - rewrite Ermse. simpl. rewrite Vm. simpl.
    rewrite Rnegb_false; [ reflexivity | ].
    apply Rmean_nonneg, Rsq_err_nonneg.
  - intros D. rewrite <- R' in A.
    rewrite (@adjusted_r2_exact (Scalar sk (XFin (Rr2 a b))) (Rr2 a b) _ _
               eq_refl D) in A.
    inversion A as [A']. reflexivity.
Qed.

(** The errors of a vector against itself. *)
Lemma Rsum_sq_err_self (a : list R) : Rsum (Rsq_err a a) = 0.
Proof.
  induction a as [ | x a IH]; [ reflexivity | ].
  unfold Rsq_err in *. simpl. rewrite Rsum_cons, IH. lra.
Qed.

Lemma Rsum_abs_err_self (a : list R) : Rsum (Rabs_err a a) = 0.
Proof.
  induction a as [ | x a IH]; [ reflexivity | ].
  unfold Rabs_err in *. simpl. rewrite Rsum_cons, IH.
  replace (x - x) with 0 by lra. rewrite Rabs_R0. lra.
Qed.

End ExactBundle.

Section ExactBundleFacts.

Import ExactFacts ExactBundle.
Local Open Scope R_scope.

Lemma map_XFin_inj (a b : list R) : map XFin a = map XFin b -> a = b.
Proof.
  revert b. induction a as [ | x a IH]; intros [ | z b] E;
    try discriminate; [ reflexivity | ].
  inversion E. f_equal. now apply IH.
Qed.

Lemma Rr2_self (a : list R) : Rr2 a a = 1.
Proof.
  unfold Rr2. rewrite Rsum_sq_err_self.
  destruct (Req_dec_T (Rss_tot a) 0);
    destruct (Req_dec_T 0 0) as [_ | N]; try reflexivity; now elim N.
Qed.

End ExactBundleFacts.

(** X2.  In exact arithmetic, predictions equal to the targets (two samples
    or more, [n - p - 1] not zero) give MSE = MAE = RMSE = 0 and
    R2 = adjusted R2 = 1. *)
Theorem perfect_prediction_metrics
  (sk : scalar_kind) (X : ndarray2 xreal) (y : ndarray1 xreal)
  (m : @metrics xreal) :
  2 <= length y ->
  (Z.of_nat (length y) - Z.of_nat (shape1 X) - 1 <> 0)%Z ->
  calculate_metrics sk X y y = Ok m ->
  val (MSE m) = XFin 0 /\ val (MAE m) = XFin 0 /\ val (RMSE m) = XFin 0
  /\ val (R2 m) = XFin 1 /\ val (aR2 m) = XFin 1.
Proof.
  intros N D E.
  destruct (ExactBundle.bundle_exact _ _ _ _ E N)
    as (a & b & Ey & Eh & L & Vmse & Vmae & Vrmse & Vr2 & Va).
  assert (b = a) as -> by (apply map_XFin_inj; congruence).
  specialize (Va D).
  rewrite Vmse, Vmae, Vrmse, Vr2, Va.
  unfold ExactFacts.Rmean.
  rewrite ExactBundle.Rsum_sq_err_self, ExactBundle.Rsum_abs_err_self, Rr2_self.
  unfold Rdiv at 1 2 3. rewrite !Rmult_0_l, sqrt_0.
  repeat split. f_equal.
  unfold Rdiv. rewrite Rminus_diag, !Rmult_0_l. lra.
Qed.

Lemma perfect_prediction_metrics_witness :
  exists m : @metrics xreal,
    calculate_metrics np_float64 {| rows := []; shape1 := 1 |}
      (map XFin [1; 2; 3]%R) (map XFin [1; 2; 3]%R) = Ok m
    /\ val (MSE m) = XFin 0 /\ val (R2 m) = XFin 1 /\ val (aR2 m) = XFin 1.
Proof.
  destruct (@calculate_metrics_returns xreal _ np_float64
              {| rows := []; shape1 := 1 |}
              (map XFin [1; 2; 3]%R) (map XFin [1; 2; 3]%R))
    as [m Hm].
  - reflexivity.
  - left. simpl. discriminate.
  - assert (N : 2 <= length (map XFin [1; 2; 3]%R)) by (simpl; lia).
    destruct (@perfect_prediction_metrics np_float64
                {| rows := []; shape1 := 1 |} _ m N
                ltac:(simpl; discriminate) Hm) as (A & _ & _ & B & C).
    exists m. repeat split; assumption.
Defined.

(** On the machine MAE can exceed RMSE: the squares of small errors
    underflow to 0 while their absolute values do not. *)
Lemma mae_above_rmse_on_underflow :
  exists m : @metrics float,
    calculate_metrics np_float64 {| rows := [[1]; [2]]%float; shape1 := 1 |}
      [0; 0]%float [0x1p-600; 0x1p-600]%float = Ok m
    /\ val (MAE m) = 0x1p-600%float
    /\ val (RMSE m) = 0%float
    /\ f_ltb (val (RMSE m)) (val (MAE m)) = true.
Proof.
  eexists. split; [ vm_compute; reflexivity | ]. repeat split; reflexivity.
Qed.

(** X5.  On the machine, whenever [calculate_metrics] returns on vectors of
    fewer than 2^63 entries, MAE and RMSE are numbers (not NaN) and neither
    is negative. *)
Theorem mae_rmse_not_negative
  (sk : scalar_kind) (X : ndarray2 float) (y y_hat : ndarray1 float)
  (m : @metrics float) :
  (Z.of_nat (length y) < 2 ^ 63)%Z ->
  calculate_metrics sk X y y_hat = Ok m ->
  f_leb (f_of_Z 0) (val (MAE m)) = true
  /\ f_leb (f_of_Z 0) (val (RMSE m)) = true.
Proof.
  intros B E.
  destruct (@MachineMetrics.machine_metrics sk X y y_hat m B E)
    as (_ & Pa & Pr & _).
  split; now apply MachineMetrics.positive_sign_leb.
Qed.

Lemma mae_rmse_not_negative_witness :
  exists m : @metrics float,
    calculate_metrics np_float64 {| rows := []; shape1 := 1 |}
      [1; 2; 3]%float [3; 2; 4]%float = Ok m
    /\ f_leb (f_of_Z 0) (val (MAE m)) = true
    /\ f_leb (f_of_Z 0) (val (RMSE m)) = true.
Proof.
  destruct (calculate_metrics np_float64 {| rows := []; shape1 := 1 |}
              [1; 2; 3]%float [3; 2; 4]%float) as [m | e] eqn:E;
    [ | vm_compute in E; discriminate ].
  exists m. split; [ reflexivity | ].
  assert (B : (Z.of_nat (length [1; 2; 3]%float) < 2 ^ 63)%Z)
    by (vm_compute; reflexivity).
  exact (@mae_rmse_not_negative np_float64 _ _ _ m B E).
Defined.

(** ** [train_model]: when it raises, and on a grid of one point *)

Section TrainModelFacts.

Context {F V E : Type} `{Float64 F} `{Estimator F V E}.
Variable rng : nat -> nat -> list nat.

(** [best_of] returns one of the entries it was given. *)
Lemma best_of_In (rest : list (@SearchCV.params V * F))
  (first : SearchCV.params * F) :
  In (SearchCV.best_of first rest) (first :: rest).
Proof.
  revert first. induction rest as [ | c rest IH]; intros first; simpl.
  - now left.
  - destruct (SearchCV.better (snd c) (snd first)).
    + right. apply IH.
    + destruct (IH first) as [<- | Hin]; [ now left | right; now right ].
Qed.

(** The search raises [ValueError] and nothing else. *)
Lemma search_fit_raises (s : SearchCV.RandomizedSearchCV)
  (X : ndarray2 F) (y : ndarray1 F) (e : exn) :
  SearchCV.search_fit rng s X y = Raise e ->
  e = ValueError
  /\ (shape0 X <> length y \/ shape0 X < SearchCV.cv s
      \/ SearchCV.ParameterSampler rng (SearchCV.param_distributions s)
           (SearchCV.n_iter s) = []).
Proof.
  unfold SearchCV.search_fit, SearchCV.KFold_split.
  destruct (Nat.eqb_spec (shape0 X) (length y)) as [L | L]; simpl.
  - destruct (Nat.ltb_spec (shape0 X) (SearchCV.cv s)) as [K | K]; simpl.
    + intros E'. inversion E'. auto.
    + destruct (SearchCV.ParameterSampler _ _ _) as [ | c cs]; simpl.
      * intros E'. inversion E'. auto.
      * discriminate.
  - intros E'. inversion E'. auto.
Qed.

(** What a search that returns has done. *)
Lemma search_fit_Ok (s : SearchCV.RandomizedSearchCV)
  (X : ndarray2 F) (y : ndarray1 F) (r : SearchCV.fitted_search) :
  SearchCV.search_fit rng s X y = Ok r ->
  shape0 X = length y /\ SearchCV.cv s <= shape0 X
  /\ In (SearchCV.best_params_ r)
        (SearchCV.ParameterSampler rng (SearchCV.param_distributions s)
           (SearchCV.n_iter s))
  /\ SearchCV.best_estimator_ r
     = fit (set_params (SearchCV.estimator s) (SearchCV.best_params_ r)) X y.
Proof.
  unfold SearchCV.search_fit, SearchCV.KFold_split.
  destruct (Nat.eqb_spec (shape0 X) (length y)) as [L | L]; simpl;
    [ | discriminate ].
  destruct (Nat.ltb_spec (shape0 X) (SearchCV.cv s)) as [K | K]; simpl;
    [ discriminate | ].
  set (cands := SearchCV.ParameterSampler _ _ _).
  match goal with
  | |- context [map ?f cands] => set (mean := f)
  end.
  destruct (map mean cands) as [ | first rest] eqn:R; [ discriminate | ].
  intros E'. inversion E'; subst r; clear E'. simpl.
  repeat split; auto.
  pose proof (best_of_In rest first) as Hin.
  rewrite <- R in Hin. apply in_map_iff in Hin.
  destruct Hin as [c [Ec Hc]]. rewrite <- Ec. exact Hc.
Qed.

Lemma search_fit_returns (s : SearchCV.RandomizedSearchCV)
  (X : ndarray2 F) (y : ndarray1 F) :
  shape0 X = length y -> SearchCV.cv s <= shape0 X ->
  SearchCV.ParameterSampler rng (SearchCV.param_distributions s)
    (SearchCV.n_iter s) <> [] ->
  exists r, SearchCV.search_fit rng s X y = Ok r.
Proof.
  intros L K C.
  destruct (SearchCV.search_fit rng s X y) as [r | e] eqn:S; [ eauto | ].
  apply search_fit_raises in S. destruct S as (_ & [S | [S | S]]);
    [ contradiction | lia | contradiction ].
Qed.

End TrainModelFacts.

(** X6.  [train_model] raises [AttributeError] exactly when [load_X_train]
    or [load_y_train] has not run on the object, whatever the model and the
    grid. *)
Theorem train_model_needs_loaded_data
  (F V E : Type) (FF : Float64 F) (Est : Estimator F V E)
  (rng : nat -> nat -> list nat) (model : E)
  (param_grid : SearchCV.param_grid) (self : Trainer.t F) :
  train_model rng model param_grid self = Raise AttributeError <->
  Trainer.X_train self = None \/ Trainer.y_train self = None.
Proof.
  unfold train_model, Trainer.getattr.
  destruct (Trainer.X_train self) as [X | ]; simpl.
  - destruct (Trainer.y_train self) as [y | ]; simpl.
    + destruct (SearchCV.search_fit rng _ X y) as [r | e] eqn:S; simpl.
      * split; [ discriminate | intros [D | D]; discriminate ].
      * apply search_fit_raises in S. destruct S as [-> _].
        split; [ discriminate | intros [D | D]; discriminate ].
    + split; auto.
  - split; auto.
Qed.

(** X7.  With both parts of the training set loaded, [train_model] raises
    exactly when the feature matrix and the target differ in their number
    of rows, or there are fewer than five samples, or no candidate was
    drawn from the grid; it then raises [ValueError]. *)
Theorem train_model_raises
  (F V E : Type) (FF : Float64 F) (Est : Estimator F V E)
  (rng : nat -> nat -> list nat) (model : E)
  (param_grid : SearchCV.param_grid) (self : Trainer.t F)
  (X : ndarray2 F) (y : ndarray1 F) (e : exn) :
  Trainer.X_train self = Some X ->
  Trainer.y_train self = Some y ->
  (train_model rng model param_grid self = Raise e <->
   e = ValueError
   /\ (shape0 X <> length y \/ shape0 X < 5
       \/ SearchCV.ParameterSampler rng param_grid 10 = [])).
Proof.
  intros HX Hy. unfold train_model, Trainer.getattr. rewrite HX, Hy. simpl.
  destruct (SearchCV.search_fit rng _ X y) as [r | e'] eqn:S; simpl.
  - split; [ discriminate | ].
    intros (_ & D). exfalso. apply search_fit_Ok in S. simpl in S.
    destruct S as (L & K & Hin & _).
    destruct D as [D | [D | D]]; [ contradiction | lia | ].
    rewrite D in Hin. contradiction.
  - apply search_fit_raises in S. simpl in S. destruct S as (-> & D).
    split.
    + intros E'. inversion E'. auto.
    + intros (-> & _). reflexivity.
Qed.

(** Four samples are too few for five folds. *)
Lemma train_model_raises_witness :
  let self :=
    Trainer.set_y_train
      (Trainer.set_X_train (Trainer.init float "X.csv" "y.csv" "params.yaml")
         Examples.X_4x1)
      Examples.y4 in
  train_model SearchExample.rng SearchExample.model SearchExample.param_grid
    self = Raise ValueError.
Proof.
  intros self.
  apply (@train_model_raises float float SearchExample.shrunk_mean binary64
           SearchExample.shrunk_mean_estimator SearchExample.rng
           SearchExample.model SearchExample.param_grid self
           Examples.X_4x1 Examples.y4 ValueError eq_refl eq_refl).
  split; [ reflexivity | right; left; unfold shape0; simpl; lia ].
Defined.



(** ** The loaders *)

(** X9.  The two loaders do not interfere: when each succeeds on an
    object, they succeed one after the other in either order, return
    what they returned alone, and leave the same object, with both
    attributes set and the three paths as they were. *)
Theorem loaders_commute
  (F : Type) (fs : filesystem F) (self s1 s2 : Trainer.t F)
  (X : ndarray2 F) (y : ndarray1 F) :
  Trainer.load_X_train fs self = Ok (X, s1) ->
  Trainer.load_y_train fs self = Ok (y, s2) ->
  exists s : Trainer.t F,
    Trainer.load_y_train fs s1 = Ok (y, s)
    /\ Trainer.load_X_train fs s2 = Ok (X, s)
    /\ Trainer.X_train s = Some X /\ Trainer.y_train s = Some y
    /\ Trainer.X_train_path s = Trainer.X_train_path self
    /\ Trainer.y_train_path s = Trainer.y_train_path self
    /\ Trainer.params_path s = Trainer.params_path self.
Proof.
  unfold Trainer.load_X_train, Trainer.load_y_train, read_csv.
  intros EX Ey.
  destruct (fs (Trainer.X_train_path self)) as [dfX | ] eqn:FX;
    [ | discriminate ].
  destruct (fs (Trainer.y_train_path self)) as [dfy | ] eqn:Fy;
    [ | discriminate ].
  simpl in EX, Ey. inversion EX; subst; clear EX.
  inversion Ey; subst; clear Ey. simpl.
  rewrite FX, Fy. simpl.
  eexists. split; [ reflexivity | ]. repeat split.
Qed.

Lemma loaders_commute_witness :
  let dfX : DataFrame float :=
    {| columns := ["stops"; "hours"]%string;
       values := [[0; 2]; [1; 5]]%float |} in
  let dfy : DataFrame float :=
    {| columns := ["price"]%string; values := [[10]; [20]]%float |} in
  let fs : filesystem float :=
    fun path => if String.eqb path "X.csv" then Some dfX else Some dfy in
  let self := Trainer.init float "X.csv" "y.csv" "params.yaml" in
  exists s,
    Trainer.load_y_train fs (Trainer.set_X_train self (np_array dfX))
    = Ok ([10; 20]%float, s)
    /\ Trainer.load_X_train fs (Trainer.set_y_train self [10; 20]%float)
       = Ok (np_array dfX, s).
Proof.
  intros dfX dfy fs self.
  destruct (@loaders_commute float fs self
              (Trainer.set_X_train self (np_array dfX))
              (Trainer.set_y_train self [10; 20]%float)
              (np_array dfX) [10; 20]%float eq_refl eq_refl)
    as (s & A & B & _).
  exists s. split; assumption.
Defined.

(** X10.  A target file of several columns does not survive training: with
    a feature file and a target file of the same number of rows (at least
    one), the target file of [c <> 1] columns, loading both succeeds and
    [train_model] then raises [ValueError], the flattened target no longer
    having one entry per row of the features. *)
Theorem train_model_rejects_flattened_target
  (F V E : Type) (FF : Float64 F) (Est : Estimator F V E)
  (rng : nat -> nat -> list nat) (model : E)
  (param_grid : SearchCV.param_grid)
  (fs : filesystem F) (self : Trainer.t F) (dfX dfy : DataFrame F) :
  fs (Trainer.X_train_path self) = Some dfX ->
  fs (Trainer.y_train_path self) = Some dfy ->
  rectangular (np_array dfy) ->
  length (values dfy) = length (values dfX) ->
  length (values dfX) <> 0 ->
  length (columns dfy) <> 1 ->
  exists X y s1 s2,
    Trainer.load_X_train fs self = Ok (X, s1)
    /\ Trainer.load_y_train fs s1 = Ok (y, s2)
    /\ length y = shape0 X * length (columns dfy)
    /\ train_model rng model param_grid s2 = Raise ValueError.
Proof.
  intros FX Fy Rect Rows NonEmpty Cols.
  exists (np_array dfX), (ravel (np_array dfy)),
    (Trainer.set_X_train self (np_array dfX)),
    (Trainer.set_y_train (Trainer.set_X_train self (np_array dfX))
       (ravel (np_array dfy))).
  unfold Trainer.load_X_train, Trainer.load_y_train, read_csv.
  rewrite FX. simpl. rewrite Fy. simpl.
  split; [ reflexivity | ]. split; [ reflexivity | ].
  assert (L : length (ravel (np_array dfy))
              = shape0 (np_array dfX) * length (columns dfy)).
  { unfold ravel, shape0. simpl. rewrite <- Rows.
    now apply length_concat_rectangular. }
  split; [ exact L | ].
  unfold train_model, Trainer.getattr. simpl.
  unfold SearchCV.search_fit.
  destruct (Nat.eqb_spec (shape0 (np_array dfX))
              (length (ravel (np_array dfy)))) as [Eq | Ne];
    [ | reflexivity ].
  exfalso. rewrite L in Eq. unfold shape0 in Eq. simpl in Eq.
  destruct (length (columns dfy)) as [ | [ | c]]; [ lia | now elim Cols | nia ].
Qed.

Lemma train_model_rejects_flattened_target_witness :
  let dfX : DataFrame float :=
    {| columns := ["stops"]%string; values := [[0]; [1]]%float |} in
  let dfy : DataFrame float :=
    {| columns := ["price"; "tax"]%string;
       values := [[10; 1]; [20; 2]]%float |} in
  let fs : filesystem float :=
    fun path => if String.eqb path "X.csv" then Some dfX else Some dfy in
  let self := Trainer.init float "X.csv" "y.csv" "params.yaml" in
  exists X y s1 s2,
    Trainer.load_X_train fs self = Ok (X, s1)
    /\ Trainer.load_y_train fs s1 = Ok (y, s2)
    /\ length y = shape0 X * 2
    /\ train_model SearchExample.rng SearchExample.model
         SearchExample.param_grid s2 = Raise ValueError.
Proof.
  intros dfX dfy fs self.
  destruct (@train_model_rejects_flattened_target float float
              SearchExample.shrunk_mean binary64
              SearchExample.shrunk_mean_estimator SearchExample.rng
              SearchExample.model SearchExample.param_grid
              fs self dfX dfy eq_refl eq_refl)
    as (X & y & s1 & s2 & A & B & L & C).
  - repeat constructor.
  - reflexivity.
  - discriminate.
  - discriminate.
  - exists X, y, s1, s2. repeat split; assumption.
Defined.

(** ** The logger *)

(** X11.  The tracking destination is one per process: a second
    [MLflowLoggerClass] redirects the client for both loggers, while the
    first still holds the address it was built with.  Building a logger
    sends nothing and touches no run. *)
Theorem logger_init_last_uri_wins
  (F M : Type) (uri1 uri2 : string) (c : Mlflow.client F M) :
  exists logger1 logger2 c1 c2,
    MLflowLoggerClass_init uri1 c = (Ok logger1, c1)
    /\ MLflowLoggerClass_init uri2 c1 = (Ok logger2, c2)
    /\ logger_tracking_uri logger1 = uri1
    /\ logger_tracking_uri logger2 = uri2
    /\ Mlflow.tracking_uri c1 = Some uri1
    /\ Mlflow.tracking_uri c2 = Some uri2
    /\ Mlflow.ended c2 = Mlflow.ended c
    /\ Mlflow.active c2 = Mlflow.active c
    /\ Mlflow.calls c2 = Mlflow.calls c.
Proof.
  do 4 eexists. split; [ reflexivity | ]. split; [ reflexivity | ].
  repeat split.
Qed.

Section LoggerFacts.

Context {F V M : Type}.
Variable fails : nat -> bool.
Variable str : V -> string.

Lemma lookup_app_some (key k v w : string) (l : list (string * string)) :
  Mlflow.lookup key l = Some w -> Mlflow.lookup key (l ++ [(k, v)]) = Some w.
Proof.
  unfold Mlflow.lookup.
  induction l as [ | [k0 v0] l IH]; simpl; [ discriminate | ].
  destruct (String.eqb k0 key); [ auto | exact IH ].
Qed.

Lemma lookup_app_new (key v : string) (l : list (string * string)) :
  Mlflow.lookup key l = None -> Mlflow.lookup key (l ++ [(key, v)]) = Some v.
Proof.
  unfold Mlflow.lookup.
  induction l as [ | [k0 v0] l IH]; simpl.
  - rewrite String.eqb_refl. reflexivity.
  - destruct (String.eqb k0 key); [ discriminate | exact IH ].
Qed.

(** What the entries recorded into a run have left in it, whether or not
    parameter names repeat. *)
Lemma record_all_content (es : list (@entry F M)) :
  forall r r' : Mlflow.run F M,
    record_all r es = Ok r' ->
    Mlflow.run_name r' = Mlflow.run_name r
    /\ Mlflow.status r' = Mlflow.status r
    /\ Mlflow.metrics r' = Mlflow.metrics r ++ metric_pairs es
    /\ Mlflow.artifacts r' = Mlflow.artifacts r ++ artifact_pairs es
    /\ (forall k v, Mlflow.lookup k (Mlflow.params r) = Some v ->
                    Mlflow.lookup k (Mlflow.params r') = Some v)
    /\ (forall k v, In (k, v) (param_pairs es) ->
                    Mlflow.lookup k (Mlflow.params r') = Some v)
    /\ incl (Mlflow.params r') (Mlflow.params r ++ param_pairs es).
Proof.
  induction es as [ | e es IH]; intros r r' R; simpl in R.
  - inversion R; subst. unfold metric_pairs, artifact_pairs, param_pairs.
    simpl. rewrite !app_nil_r. repeat split; auto.
    + intros k v [].
    + apply incl_refl.
  - destruct (record e r) as [r1 | x] eqn:R1; [ | discriminate ].
    destruct (IH r1 r' R) as (Hn & Hs & Hm & Ha & Hold & Hnew & Hincl).
    destruct e as [k v | k v | p m]; simpl in R1.
    + inversion R1; subst r1; clear R1. simpl in *.
      repeat split; auto.
      rewrite Hm, <- app_assoc. reflexivity.
    + unfold param_pairs. simpl. fold (param_pairs es).
      destruct (Mlflow.lookup k (Mlflow.params r)) as [old | ] eqn:Lk.
      * destruct (String.eqb_spec old v) as [-> | Ne]; [ | discriminate ].
        inversion R1; subst r1; clear R1.
        repeat split; auto.
        -- intros k' v' [E | Hin]; [ inversion E; subst; now apply Hold | ].
           now apply Hnew.
        -- intros kv Hkv. apply Hincl in Hkv.
           apply in_app_or in Hkv. apply in_or_app.
           destruct Hkv; [ now left | right; now right ].
      * inversion R1; subst r1; clear R1. simpl in *.
        repeat split; auto.
        -- intros k' v' Lk'. apply Hold. now apply lookup_app_some.
        -- intros k' v' [E | Hin]; [ inversion E; subst | now apply Hnew ].
           apply Hold. now apply lookup_app_new.
        -- intros kv Hkv. apply Hincl in Hkv.
           rewrite <- app_assoc in Hkv. exact Hkv.
    + inversion R1; subst r1; clear R1. simpl in *.
      repeat split; auto.
      rewrite Ha, <- app_assoc. reflexivity.
Qed.

(** A loop of logging calls that returns has had every call answered. *)
Lemma all_answered (es : list (@entry F M)) :
  forall (c c' : Mlflow.client F M),
    Mlflow.for_each es (log_entry fails) c = (Ok tt, c') ->
    forall k, k < length es -> fails (k + Mlflow.calls c) = false.
Proof.
  induction es as [ | e es IH]; intros c c' L k Hk; [ simpl in Hk; lia | ].
  cbn [Mlflow.for_each] in L.
  unfold Mlflow.bind, log_entry at 1, Mlflow.request in L.
  destruct (fails (Mlflow.calls c)) eqn:Fc; [ discriminate | ].
  destruct (record e _) as [r1 | x]; [ | discriminate ].
  destruct k as [ | k]; [ exact Fc | ].
  specialize (IH _ _ L k ltac:(simpl in Hk; lia)).
  simpl in IH. rewrite Nat.add_succ_r in IH. exact IH.
Qed.

(** What [log_results] does, in terms of the entries it records. *)
Lemma log_results_outcome (self : MLflowLoggerClass) (model_name : string)
  (best_model : M) (best_params : list (string * V))
  (mse mae rmse r2 aR2 : scalar F) (c : Mlflow.client F M) :
  let es := entries str model_name best_model best_params mse mae rmse r2 aR2 in
  let out :=
    log_results fails str self model_name best_model best_params
      mse mae rmse r2 aR2 c in
  match Mlflow.active c with
  | Some r =>
      out = (Raise Exception, after c 1 (Some r))
  | None =>
      if fails (Mlflow.calls c)
      then out = (Raise MlflowException, after c 1 None)
      else
        exists done rest r,
          es = done ++ rest
          /\ record_all (Mlflow.new_run F M model_name) done = Ok r
          /\ match fst out with
             | Ok _ =>
                 rest = []
                 /\ snd out
                    = {| Mlflow.tracking_uri := Mlflow.tracking_uri c;
                         Mlflow.ended :=
                           ended_as Mlflow.FINISHED r :: Mlflow.ended c;
                         Mlflow.active := None;
                         Mlflow.calls := S (length done) + Mlflow.calls c |}
             | Raise e =>
                 rest <> []
                 /\ snd out
                    = {| Mlflow.tracking_uri := Mlflow.tracking_uri c;
                         Mlflow.ended :=
                           ended_as Mlflow.FAILED r :: Mlflow.ended c;
                         Mlflow.active := None;
                         Mlflow.calls := S (S (length done)) + Mlflow.calls c |}
             end
  end.
Proof.
  intros es out. subst out. rewrite log_results_entries.
  unfold Mlflow.with_start_run, Mlflow.start_run.
  destruct (Mlflow.active c) as [r | ] eqn:A.
  - reflexivity.
  - destruct (fails (Mlflow.calls c)) eqn:Fc.
    + reflexivity.
    + destruct (for_each_log_entry fails es
                  (Mlflow.with_active c (Some (Mlflow.new_run F M model_name)))
                  eq_refl)
        as (done & rest & r & E & D & H).
      exists done, rest, r. split; [ exact E | ]. split; [ exact D | ].
      fold es. destruct (Mlflow.for_each es _ _) as [[[] | x] c'].
      * destruct H as [-> ->]. simpl. split; [ reflexivity | ].
        unfold Mlflow.end_run, after, ended_as. simpl.
        f_equal. lia.
      * destruct H as (-> & e & rest' & -> & _). simpl.
        split; [ discriminate | ].
        unfold Mlflow.end_run, after, ended_as. simpl.
        f_equal. lia.
Qed.

End LoggerFacts.

(** X12.  Called while a run is active, [log_results] raises at
    [start_run], a plain [Exception] and not an [MlflowException], whether
    or not the server would have answered: the active run stays active
    with its content, nothing is logged and no run is ended. *)
Theorem log_results_refused_inside_run
  (F V M : Type) (fails : nat -> bool) (str : V -> string)
  (self : MLflowLoggerClass) (model_name : string) (best_model : M)
  (best_params : list (string * V)) (mse mae rmse r2 aR2 : scalar F)
  (c : Mlflow.client F M) (r : Mlflow.run F M) :
  Mlflow.active c = Some r ->
  exists c',
    log_results fails str self model_name best_model best_params
      mse mae rmse r2 aR2 c
    = (Raise Exception, c')
    /\ Mlflow.active c' = Some r
    /\ Mlflow.ended c' = Mlflow.ended c
    /\ Mlflow.tracking_uri c' = Mlflow.tracking_uri c
    /\ Mlflow.calls c' = S (Mlflow.calls c).
Proof.
  intros A.
  pose proof (log_results_outcome fails str self model_name best_model
                best_params mse mae rmse r2 aR2 c) as O.
  simpl in O. rewrite A in O. rewrite O.
  eexists. split; [ reflexivity | ]. repeat split.
Qed.

Lemma log_results_refused_inside_run_witness :
  let busy : Mlflow.client float (ElasticNet float) :=
    {| Mlflow.tracking_uri := None; Mlflow.ended := [];
       Mlflow.active := Some (Mlflow.new_run float (ElasticNet float) "other");
       Mlflow.calls := 1 |} in
  exists c',
    log_results LogExample.reliable LogExample.str LogExample.self "ElasticNet"
      LogExample.model LogExample.best_params LogExample.mse LogExample.mae
      LogExample.rmse LogExample.r2 LogExample.aR2 busy
    = (Raise Exception, c')
    /\ Mlflow.active c'
       = Some (Mlflow.new_run float (ElasticNet float) "other")
    /\ Mlflow.ended c' = [].
Proof.
  intros busy.
  destruct (@log_results_refused_inside_run float string (ElasticNet float)
              LogExample.reliable LogExample.str LogExample.self "ElasticNet"
              LogExample.model LogExample.best_params LogExample.mse
              LogExample.mae LogExample.rmse LogExample.r2 LogExample.aR2
              busy _ eq_refl)
    as (c' & E & A & En & _).
  exists c'. repeat split; assumption.
Defined.

Section LoggerBounds.

Context {F V M : Type}.
Variable str : V -> string.

Lemma length_entries (model_name : string) (best_model : M)
  (best_params : list (string * V)) (mse mae rmse r2 aR2 : scalar F) :
  length (entries str model_name best_model best_params mse mae rmse r2 aR2)
  = 6 + length best_params.
Proof.
  unfold entries, best_entries. simpl.
  rewrite length_app, length_map. simpl. lia.
Qed.

End LoggerBounds.

(** X13.  Whatever the state of the client and whichever calls fail,
    [log_results] leaves the runs ended before as they were, ends at most
    one more run, and does not change the tracking destination. *)
Theorem log_results_keeps_earlier_runs
  (F V M : Type) (fails : nat -> bool) (str : V -> string)
  (self : MLflowLoggerClass) (model_name : string) (best_model : M)
  (best_params : list (string * V)) (mse mae rmse r2 aR2 : scalar F)
  (c : Mlflow.client F M) :
  exists new,
    Mlflow.ended
      (snd (log_results fails str self model_name best_model best_params
              mse mae rmse r2 aR2 c))
    = new ++ Mlflow.ended c
    /\ length new <= 1
    /\ Mlflow.tracking_uri
         (snd (log_results fails str self model_name best_model best_params
                 mse mae rmse r2 aR2 c))
       = Mlflow.tracking_uri c.
Proof.
  pose proof (log_results_outcome fails str self model_name best_model
                best_params mse mae rmse r2 aR2 c) as O.
  simpl in O.
  destruct (Mlflow.active c) as [r | ].
  - rewrite O. exists [].
    split; [ reflexivity | split; [ simpl; lia | reflexivity ] ].
  - destruct (fails (Mlflow.calls c)).
    + rewrite O. exists [].
      split; [ reflexivity | split; [ simpl; lia | reflexivity ] ].
    + destruct O as (done & rest & r & _ & _ & O).
      destruct (fst (log_results _ _ _ _ _ _ _ _ _ _ _ c)) as [[] | e];
        destruct O as [_ ->]; simpl; eexists [_];
        (split; [ reflexivity | split; [ simpl; lia | reflexivity ] ]).
Qed.

(** X14.  [log_results] sends each request once: at least one and at most
    [7 + len(best_params)] calls reach the client, and exactly that many
    when it returns. *)
Theorem log_results_call_count
  (F V M : Type) (fails : nat -> bool) (str : V -> string)
  (self : MLflowLoggerClass) (model_name : string) (best_model : M)
  (best_params : list (string * V)) (mse mae rmse r2 aR2 : scalar F)
  (c : Mlflow.client F M) :
  let out :=
    log_results fails str self model_name best_model best_params
      mse mae rmse r2 aR2 c in
  Mlflow.calls c < Mlflow.calls (snd out)
  /\ Mlflow.calls (snd out) <= 7 + length best_params + Mlflow.calls c
  /\ (Py.is_ok (fst out) = true ->
      Mlflow.calls (snd out) = 7 + length best_params + Mlflow.calls c).
Proof.
  intros out. subst out.
  pose proof (log_results_outcome fails str self model_name best_model
                best_params mse mae rmse r2 aR2 c) as O.
  pose proof (length_entries str model_name best_model best_params
                mse mae rmse r2 aR2) as Len.
  simpl in O.
  destruct (Mlflow.active c) as [r | ].
  - rewrite O. simpl. repeat split; try lia; discriminate.
  - destruct (fails (Mlflow.calls c)).
    + rewrite O. simpl. repeat split; try lia; discriminate.
    + destruct O as (done & rest & r & E & _ & O).
      rewrite E, length_app in Len.
      destruct (fst (log_results _ _ _ _ _ _ _ _ _ _ _ c)) as [[] | e].
      * destruct O as [-> ->]. simpl in *. repeat split; lia.
      * destruct O as [N ->]. simpl.
        destruct rest as [ | e0 rest]; [ now elim N | ]. simpl in Len.
        repeat split; try lia; discriminate.
Qed.

(** What a normal return of [log_results] says of the run. *)
Lemma log_results_Ok_content
  (F V M : Type) (fails : nat -> bool) (str : V -> string)
  (self : MLflowLoggerClass) (model_name : string) (best_model : M)
  (best_params : list (string * V)) (mse mae rmse r2 aR2 : scalar F)
  (c c' : Mlflow.client F M) :
  Mlflow.active c = None ->
  log_results fails str self model_name best_model best_params
    mse mae rmse r2 aR2 c = (Ok tt, c') ->
  exists run,
    Mlflow.ended c' = run :: Mlflow.ended c
    /\ Mlflow.active c' = None
    /\ Mlflow.run_name run = Mlflow.name_of model_name
    /\ Mlflow.status run = Mlflow.FINISHED
    /\ Mlflow.metrics run
       = [("MSE", val mse); ("MAE", val mae); ("RMSE", val rmse);
          ("R2", val r2); ("Adjusted R2", val aR2)]%string
    /\ Mlflow.artifacts run = [((model_name ++ "_model")%string, best_model)]
    /\ (forall name value,
          In (name, value) best_params ->
          Mlflow.lookup ("Best " ++ name) (Mlflow.params run)
          = Some (str value))
    /\ incl (Mlflow.params run)
         (map (fun kv => ("Best " ++ fst kv, str (snd kv))%string) best_params).
Proof.
  intros A E.
  pose proof (log_results_outcome fails str self model_name best_model
                best_params mse mae rmse r2 aR2 c) as O.
  simpl in O. rewrite A in O.
  destruct (fails (Mlflow.calls c)); [ rewrite E in O; discriminate | ].
  destruct O as (done & rest & r & Es & R & O).
  rewrite E in O. simpl in O. destruct O as [-> ->].
  rewrite app_nil_r in Es. subst done.
  apply record_all_content in R.
  destruct R as (Hn & Hs & Hm & Ha & _ & Hnew & Hincl).
  destruct (@entries_pairs F V M str model_name best_model best_params
              mse mae rmse r2 aR2) as (Em & Ep & Ea).
  rewrite Em in Hm. rewrite Ea in Ha. rewrite Ep in Hnew, Hincl.
  exists (ended_as Mlflow.FINISHED r). simpl.
  repeat split; auto.
  intros name value Hin. apply Hnew.
  apply in_map_iff. exists (name, value). split; [ reflexivity | exact Hin ].
Qed.

(** X15.  A normal return of [log_results] (no run active before) is
    enough to know the run it added: FINISHED; named after the model when
    the model name is not empty (the server makes up a name for an empty
    one); with five metrics, logged under the five keys in the order of
    the calls, and one artifact, under [model_name ++ "_model"]; every best
    parameter can be looked up under "Best " and its name, with its value
    as text; and every parameter of the run is one of those.  This needs
    neither distinct parameter names nor a server that answers every call:
    the return itself shows that every call was answered. *)
Theorem log_results_return_certifies_run
  (F V M : Type) (fails : nat -> bool) (str : V -> string)
  (self : MLflowLoggerClass) (model_name : string) (best_model : M)
  (best_params : list (string * V)) (mse mae rmse r2 aR2 : scalar F)
  (c c' : Mlflow.client F M) :
  Mlflow.active c = None ->
  log_results fails str self model_name best_model best_params
    mse mae rmse r2 aR2 c = (Ok tt, c') ->
  (forall k, k < 7 + length best_params -> fails (k + Mlflow.calls c) = false)
  /\ exists run,
       Mlflow.ended c' = run :: Mlflow.ended c
       /\ Mlflow.active c' = None
       /\ (model_name <> ""%string ->
           Mlflow.run_name run = Mlflow.Named model_name)
       /\ (model_name = ""%string -> Mlflow.run_name run = Mlflow.Generated)
       /\ Mlflow.status run = Mlflow.FINISHED
       /\ map fst (Mlflow.metrics run)
          = ["MSE"; "MAE"; "RMSE"; "R2"; "Adjusted R2"]%string
       /\ Mlflow.artifacts run
          = [((model_name ++ "_model")%string, best_model)]
       /\ (forall name value,
             In (name, value) best_params ->
             Mlflow.lookup ("Best " ++ name) (Mlflow.params run)
             = Some (str value))
       /\ incl (Mlflow.params run)
            (map (fun kv => ("Best " ++ fst kv, str (snd kv))%string)
                 best_params).
Proof.
  intros A E. split.
  - intros k Hk. pose proof E as E'.
    rewrite log_results_entries in E'.
    unfold Mlflow.with_start_run, Mlflow.start_run in E'. rewrite A in E'.
    destruct (fails (Mlflow.calls c)) eqn:Fc; [ discriminate | ].
    destruct k as [ | k]; [ exact Fc | ].
    destruct (Mlflow.for_each _ _ _) as [[[] | x] c2] eqn:L; [ | discriminate ].
    pose proof (@all_answered _ _ fails _ _ _ L k) as Q.
    rewrite length_entries in Q. cbn [Mlflow.calls Mlflow.with_active] in Q.
    rewrite Nat.add_succ_r in Q. apply Q. lia.
  - destruct (@log_results_Ok_content F V M fails str self model_name
                best_model best_params mse mae rmse r2 aR2 c c' A E)
      as (run & En & Ac & Hn & Hs & Hm & Ha & Hp & Hi).
    exists run. repeat split; try assumption.
    + intros N. rewrite Hn. unfold Mlflow.name_of.
      destruct (String.eqb_spec model_name ""); [ contradiction | reflexivity ].
    + intros ->. rewrite Hn. reflexivity.
    + rewrite Hm. reflexivity.
Qed.

Lemma log_results_return_certifies_run_witness :
  exists c' run,
    log_results LogExample.reliable LogExample.str LogExample.self "ElasticNet"
      LogExample.model LogExample.best_params LogExample.mse LogExample.mae
      LogExample.rmse LogExample.r2 LogExample.aR2 LogExample.client
    = (Ok tt, c')
    /\ Mlflow.ended c' = [run]
    /\ Mlflow.lookup "Best alpha" (Mlflow.params run) = Some "0.5"%string
    /\ length (Mlflow.metrics run) = 5.
Proof.
  destruct (log_results LogExample.reliable LogExample.str LogExample.self
              "ElasticNet" LogExample.model LogExample.best_params
              LogExample.mse LogExample.mae LogExample.rmse LogExample.r2
              LogExample.aR2 LogExample.client) as [res c'] eqn:E.
  assert (R : res = Ok tt).
  { pose proof E as E'. vm_compute in E'. inversion E'. reflexivity. }
  subst res.
  destruct (@log_results_return_certifies_run float string (ElasticNet float)
              LogExample.reliable LogExample.str LogExample.self "ElasticNet"
              LogExample.model LogExample.best_params LogExample.mse
              LogExample.mae LogExample.rmse LogExample.r2 LogExample.aR2
              LogExample.client c' eq_refl E)
    as (_ & run & En & _ & _ & _ & _ & Hm & _ & Hp & _).
  exists c', run. split; [ reflexivity | ]. split; [ exact En | ].
  split.
  - apply (Hp "alpha"%string "0.5"%string). now left.
  - rewrite <- (length_map fst), Hm. reflexivity.
Defined.

(** ** [load_params] and the script *)

Section Script.

Context {F V : Type} `{Float64 F} `{Estimator F V (ElasticNet F)}.

(** A parsed [params.yaml]: to each model family its grid.  YAML parsing
    itself is PyYAML's and is not modelled; a path with no document is a
    missing file. *)
Definition params_doc : Type := list (string * @SearchCV.param_grid V).

Definition yaml_files : Type := string -> option params_doc.

(** The trainer object with the attribute [params], which [Trainer.t]
    leaves out. *)
Record trainer : Type := {
  attrs : Trainer.t F;
  params : option params_doc
}.

(** [load_params], lines 30-34. *)
Definition load_params (yaml : yaml_files) (self : trainer)
  : result (params_doc * trainer) :=
  match yaml (Trainer.params_path (attrs self)) with
  | Some doc => Ok (doc, {| attrs := attrs self; params := Some doc |})
  | None => Raise FileNotFoundError
  end.

(** [d[key]] on a dictionary. *)
Fixpoint dict_get {A : Type} (d : list (string * A)) (key : string) : option A :=
  match d with
  | [] => None
  | (k, a) :: rest => if String.eqb k key then Some a else dict_get rest key
  end.

(** How the script ends: normally, or on an uncaught exception. *)
Inductive exit : Type :=
| Finished
| Uncaught (e : exn)
| UncaughtKeyError (key : string).

Variable sk : scalar_kind.
Variable rng : nat -> nat -> list nat.
Variable fails : nat -> bool.
Variable str : V -> string.

Definition tracker : Type := Mlflow.client F (ElasticNet F).

(** A step that touches no tracking state: its exception ends the script. *)
Definition attempt {A : Type} (step : result A) (c : tracker)
  (next : A -> exit * tracker) : exit * tracker :=
  match step with
  | Ok a => next a
  | Raise e => (Uncaught e, c)
  end.

(** The script, lines 102-135, without its [print] calls. *)
Definition main (fs : filesystem F) (yaml : yaml_files) (c : tracker)
  : exit * tracker :=
  let X_train_path := "Data\04_encoded_Data\X_train.csv"%string in
  let y_train_path := "Data\04_encoded_Data\y_train.csv"%string in
  let params_path := "params.yaml"%string in
  let tracking_uri := "http://localhost:5000"%string in
  let ModelTrainerOptimizerObj :=
    {| attrs := Trainer.init F X_train_path y_train_path params_path;
       params := None |} in
  attempt (Trainer.load_X_train fs (attrs ModelTrainerOptimizerObj)) c
    (fun '(X_train, a1) =>
  attempt (Trainer.load_y_train fs a1) c
    (fun '(y_train, a2) =>
  attempt (load_params yaml
             {| attrs := a2; params := params ModelTrainerOptimizerObj |}) c
    (fun '(params, ModelTrainerOptimizerObj) =>
  let elasticnet_model := @ElasticNet_new F _ in
  match dict_get params "elasticnet" with
  | None => (UncaughtKeyError "elasticnet", c)
  | Some params_grid =>
  attempt (train_model rng elasticnet_model params_grid
             (attrs ModelTrainerOptimizerObj)) c
    (fun '(best_model, best_params, predicted_y) =>
  attempt (calculate_metrics sk X_train y_train predicted_y) c
    (fun '(mse, mae, rmse, r2, aR2) =>
  attempt (get_Model_Name elasticnet_model (attrs ModelTrainerOptimizerObj)) c
    (fun '(model_name, _) =>
  match MLflowLoggerClass_init tracking_uri c with
  | (Raise e, c1) => (Uncaught e, c1)
  | (Ok MLflowLoggerObj, c1) =>
      match log_results fails str MLflowLoggerObj model_name
              best_model best_params mse mae rmse r2 aR2 c1 with
      | (Ok _, c2) => (Finished, c2)
      | (Raise e, c2) => (Uncaught e, c2)
      end
  end)))
  end))).

End Script.

Section ScriptFacts.

Context {F V : Type} `{Float64 F} `{Estimator F V (ElasticNet F)}.
Variable sk : scalar_kind.
Variable rng : nat -> nat -> list nat.
Variable fails : nat -> bool.
Variable str : V -> string.

(** The logging calls raise [MlflowException] and nothing else; a plain
    [Exception] comes from [start_run] inside an active run. *)
Lemma for_each_log_entry_exn (M : Type) (es : list (@entry F M))
  (c c' : Mlflow.client F M) (e : exn) :
  Mlflow.for_each es (log_entry fails) c = (Raise e, c') ->
  e = MlflowException.
Proof.
  revert c. induction es as [ | en es IH]; intros c; simpl.
  - discriminate.
  - unfold Mlflow.bind, log_entry at 1, Mlflow.request.
    destruct (fails (Mlflow.calls c)); [ intros E; now inversion E | ].
    destruct (record en _) as [r1 | x] eqn:R.
    + apply IH.
    + intros E. inversion E; subst.
      destruct en as [k v | k v | p m]; simpl in R; try discriminate.
      destruct (Mlflow.lookup k _); [ | discriminate ].
      destruct (String.eqb _ _); [ discriminate | now inversion R ].
Qed.

Lemma log_results_exn (M : Type) (self : MLflowLoggerClass)
  (model_name : string) (best_model : M) (best_params : list (string * V))
  (mse mae rmse r2 aR2 : scalar F) (c c' : Mlflow.client F M) (e : exn) :
  log_results fails str self model_name best_model best_params
    mse mae rmse r2 aR2 c = (Raise e, c') ->
  e = MlflowException \/ (e = Exception /\ Mlflow.active c <> None).
Proof.
  rewrite log_results_entries.
  unfold Mlflow.with_start_run, Mlflow.start_run.
  destruct (Mlflow.active c);
    [ intros E; inversion E; right; split; [ reflexivity | discriminate ] | ].
  destruct (fails (Mlflow.calls c)); [ intros E; inversion E; now left | ].
  destruct (Mlflow.for_each _ _ _) as [[[] | x] c2] eqn:L.
  - discriminate.
  - intros E. inversion E; subst. left.
    eapply for_each_log_entry_exn; eassumption.
Qed.

(** The exceptions of the steps before the logging. *)
Lemma read_csv_exn (fs : filesystem F) (path : string) (e : exn) :
  read_csv fs path = Raise e -> e = FileNotFoundError.
Proof.
  unfold read_csv. destruct (fs path); [ discriminate | ].
  intros E. now inversion E.
Qed.

Lemma load_X_train_exn (fs : filesystem F) (self : Trainer.t F) (e : exn) :
  Trainer.load_X_train fs self = Raise e -> e = FileNotFoundError.
Proof.
  unfold Trainer.load_X_train.
  destruct (read_csv fs _) as [df | e'] eqn:R; simpl; [ discriminate | ].
  intros E. inversion E; subst. eapply read_csv_exn; eassumption.
Qed.

Lemma load_y_train_exn (fs : filesystem F) (self : Trainer.t F) (e : exn) :
  Trainer.load_y_train fs self = Raise e -> e = FileNotFoundError.
Proof.
  unfold Trainer.load_y_train.
  destruct (read_csv fs _) as [df | e'] eqn:R; simpl; [ discriminate | ].
  intros E. inversion E; subst. eapply read_csv_exn; eassumption.
Qed.

Lemma load_params_exn (yaml : @yaml_files V) (self : @trainer F V) (e : exn) :
  load_params yaml self = Raise e -> e = FileNotFoundError.
Proof.
  unfold load_params. destruct (yaml _); [ discriminate | ].
  intros E. now inversion E.
Qed.

Lemma train_model_exn (E' : Type) (Est : Estimator F V E') (model : E')
  (grid : SearchCV.param_grid) (self : Trainer.t F) (e : exn) :
  train_model rng model grid self = Raise e ->
  e = AttributeError \/ e = ValueError.
Proof.
  unfold train_model, Trainer.getattr.
  destruct (Trainer.X_train self) as [X | ]; simpl;
    [ | intros E; inversion E; now left ].
  destruct (Trainer.y_train self) as [y | ]; simpl;
    [ | intros E; inversion E; now left ].
  destruct (SearchCV.search_fit rng _ X y) as [r | e'] eqn:S; simpl;
    [ discriminate | ].
  intros E. inversion E; subst. right.
  apply search_fit_raises in S. apply S.
Qed.

Lemma calculate_metrics_exn (X : ndarray2 F) (y y_hat : ndarray1 F) (e : exn) :
  calculate_metrics sk X y y_hat = Raise e ->
  e = ValueError \/ e = ZeroDivisionError.
Proof.
  unfold calculate_metrics, Sklearn.mean_squared_error,
    Sklearn.mean_absolute_error.
  destruct (Sklearn.check_reg_targets y y_hat) as [[] | e'] eqn:C.
  - simpl. destruct (Sklearn.r2_score sk y y_hat) as [r2 | e'] eqn:R.
    + simpl. destruct (adjusted_r2 r2 _ _) as [a | e'] eqn:Ad; simpl;
        [ discriminate | ].
      intros E. inversion E; subst. right.
      apply adjusted_r2_Raise in Ad. apply Ad.
    + unfold Sklearn.r2_score in R. rewrite C in R. simpl in R.
      destruct (length y_hat <? 2)%nat; discriminate.
  - simpl. intros E. inversion E; subst. left.
    unfold Sklearn.check_reg_targets in C.
    repeat match type of C with
           | (if ?b then _ else _) = _ => destruct b
           end; congruence.
Qed.

(** The steps of a script that ends normally. *)
Lemma main_Finished (fs : filesystem F) (yaml : yaml_files)
  (c c' : tracker) :
  main sk rng fails str fs yaml c = (Finished, c') ->
  exists dfX dfy doc grid best_model best_params predicted_y m logger c1,
    fs "Data\04_encoded_Data\X_train.csv"%string = Some dfX
    /\ fs "Data\04_encoded_Data\y_train.csv"%string = Some dfy
    /\ yaml "params.yaml"%string = Some doc
    /\ dict_get doc "elasticnet" = Some grid
    /\ train_model rng ElasticNet_new grid
         (Trainer.set_y_train
            (Trainer.set_X_train
               (Trainer.init F "Data\04_encoded_Data\X_train.csv"
                  "Data\04_encoded_Data\y_train.csv" "params.yaml")
               (np_array dfX))
            (ravel (np_array dfy)))
       = Ok (best_model, best_params, predicted_y)
    /\ calculate_metrics sk (np_array dfX) (ravel (np_array dfy)) predicted_y
       = Ok m
    /\ MLflowLoggerClass_init "http://localhost:5000" c = (Ok logger, c1)
    /\ log_results fails str logger "ElasticNet" best_model best_params
         (MSE m) (MAE m) (RMSE m) (R2 m) (aR2 m) c1
       = (Ok tt, c').
Proof.
  unfold main, attempt, Trainer.load_X_train, Trainer.load_y_train,
    load_params, read_csv. simpl.
  destruct (fs "Data\04_encoded_Data\X_train.csv"%string) as [dfX | ] eqn:FX;
    [ simpl | discriminate ].
  destruct (fs "Data\04_encoded_Data\y_train.csv"%string) as [dfy | ] eqn:Fy;
    [ simpl | discriminate ].
  destruct (yaml "params.yaml"%string) as [doc | ] eqn:Y;
    [ simpl | discriminate ].
  destruct (dict_get doc "elasticnet") as [grid | ] eqn:K; [ | discriminate ].
  destruct (train_model _ _ _ _) as [[[bm bp] py] | e] eqn:T;
    [ | discriminate ].
  destruct (calculate_metrics _ _ _ _) as [[[[[mse mae] rmse] r2] a] | e] eqn:C;
    [ | discriminate ].
  unfold get_Model_Name. simpl.
  destruct (log_results _ _ _ _ _ _ _ _ _ _ _ _) as [[[] | e] c2] eqn:L;
    [ | discriminate ].
  intros E. inversion E; subst c2.
  exists dfX, dfy, doc, grid, bm, bp, py, (mse, mae, rmse, r2, a).
  do 2 eexists. repeat split; try reflexivity; try eassumption.
Qed.

End ScriptFacts.

(** X16.  The script fails fast: when it ends on an exception raised before
    the logging (a missing file, a missing grid, a failed search, rejected
    metrics), the tracking client is exactly as it was, its destination not
    even set.  Only the exceptions of the tracking client can leave it
    changed: [MlflowException], and the plain [Exception] of [start_run],
    which needs a run already active when the script starts and so cannot
    occur in a fresh process. *)
Theorem main_failure_leaves_tracker
  (F V : Type) (FF : Float64 F) (Est : Estimator F V (ElasticNet F))
  (sk : scalar_kind) (rng : nat -> nat -> list nat) (fails : nat -> bool)
  (str : V -> string) (fs : filesystem F) (yaml : yaml_files)
  (c : tracker) :
  match fst (main sk rng fails str fs yaml c) with
  | Finished | Uncaught MlflowException => True
  | Uncaught Exception => Mlflow.active c <> None
  | Uncaught _ | UncaughtKeyError _ =>
      snd (main sk rng fails str fs yaml c) = c
  end.
Proof.
  unfold main, attempt.
  destruct (Trainer.load_X_train fs _) as [[X a1] | e] eqn:S1;
    [ | apply load_X_train_exn in S1; subst e; reflexivity ].
  destruct (Trainer.load_y_train fs a1) as [[y a2] | e] eqn:S2;
    [ | apply load_y_train_exn in S2; subst e; reflexivity ].
  destruct (load_params yaml _) as [[doc obj] | e] eqn:S3;
    [ | apply load_params_exn in S3; subst e; reflexivity ].
  destruct (dict_get doc "elasticnet") as [grid | ]; [ | reflexivity ].
  destruct (train_model rng _ grid _) as [[[bm bp] py] | e] eqn:S4;
    [ | apply train_model_exn in S4; destruct S4; subst e; reflexivity ].
  destruct (calculate_metrics sk X y py) as [[[[[mse mae] rmse] r2] a] | e]
    eqn:S5;
    [ | apply calculate_metrics_exn in S5; destruct S5; subst e; reflexivity ].
  unfold get_Model_Name. simpl.
  destruct (log_results _ _ _ _ _ _ _ _ _ _ _ _) as [[[] | e] c2] eqn:L;
    simpl; [ exact I | ].
  apply log_results_exn in L. destruct L as [-> | [-> N]]; [ exact I | exact N ].
Qed.


(** X18.  When one of the three input files is missing the script ends on
    [FileNotFoundError] with the tracking client untouched. *)
Theorem main_missing_file
  (F V : Type) (FF : Float64 F) (Est : Estimator F V (ElasticNet F))
  (sk : scalar_kind) (rng : nat -> nat -> list nat) (fails : nat -> bool)
  (str : V -> string) (fs : filesystem F) (yaml : yaml_files)
  (c : tracker) :
  fs "Data\04_encoded_Data\X_train.csv"%string = None
  \/ fs "Data\04_encoded_Data\y_train.csv"%string = None
  \/ yaml "params.yaml"%string = None ->
  main sk rng fails str fs yaml c = (Uncaught FileNotFoundError, c).
Proof.
  intros Missing.
  unfold main, attempt, Trainer.load_X_train, Trainer.load_y_train,
    load_params, read_csv. simpl.
  destruct (fs "Data\04_encoded_Data\X_train.csv"%string) as [dfX | ];
    [ simpl | reflexivity ].
  destruct (fs "Data\04_encoded_Data\y_train.csv"%string) as [dfy | ];
    [ simpl | reflexivity ].
  destruct (yaml "params.yaml"%string) as [doc | ]; [ | reflexivity ].
  destruct Missing as [D | [D | D]]; discriminate.
Qed.

(** X19.  When the script ends normally, the client has the destination
    "http://localhost:5000" and one more ended run, named "ElasticNet" and
    FINISHED.  Its artifact, under "ElasticNet_model", is the model that
    [train_model] returned for a new [ElasticNet], the grid under
    "elasticnet" in the parameter file and the loaded training set; its
    parameters hold every best parameter that call returned; and its five
    metrics are those [calculate_metrics] computes on the training set
    itself: the loaded features, the loaded target and the predictions the
    same call returned, which are the model's on these same features. *)
Theorem main_records_training_metrics
  (F V : Type) (FF : Float64 F) (Est : Estimator F V (ElasticNet F))
  (sk : scalar_kind) (rng : nat -> nat -> list nat) (fails : nat -> bool)
  (str : V -> string) (fs : filesystem F) (yaml : yaml_files)
  (c c' : tracker) :
  main sk rng fails str fs yaml c = (Finished, c') ->
  exists dfX dfy doc grid best_model best_params predicted_y m run,
    fs "Data\04_encoded_Data\X_train.csv"%string = Some dfX
    /\ fs "Data\04_encoded_Data\y_train.csv"%string = Some dfy
    /\ yaml "params.yaml"%string = Some doc
    /\ dict_get doc "elasticnet" = Some grid
    /\ train_model rng ElasticNet_new grid
         (Trainer.set_y_train
            (Trainer.set_X_train
               (Trainer.init F "Data\04_encoded_Data\X_train.csv"
                  "Data\04_encoded_Data\y_train.csv" "params.yaml")
               (np_array dfX))
            (ravel (np_array dfy)))
       = Ok (best_model, best_params, predicted_y)
    /\ predicted_y = predict best_model (np_array dfX)
    /\ calculate_metrics sk (np_array dfX) (ravel (np_array dfy)) predicted_y
       = Ok m
    /\ Mlflow.tracking_uri c' = Some "http://localhost:5000"%string
    /\ Mlflow.ended c' = run :: Mlflow.ended c
    /\ Mlflow.active c' = None
    /\ Mlflow.run_name run = Mlflow.Named "ElasticNet"
    /\ Mlflow.status run = Mlflow.FINISHED
    /\ Mlflow.metrics run
       = [("MSE", val (MSE m)); ("MAE", val (MAE m)); ("RMSE", val (RMSE m));
          ("R2", val (R2 m)); ("Adjusted R2", val (aR2 m))]%string
    /\ Mlflow.artifacts run = [("ElasticNet_model"%string, best_model)]
    /\ (forall name value,
          In (name, value) best_params ->
          Mlflow.lookup ("Best " ++ name) (Mlflow.params run)
          = Some (str value)).
Proof.
  intros E. apply main_Finished in E.
  destruct E as (dfX & dfy & doc & grid & bm & bp & py & m & logger & c1
                 & FX & Fy & Y & K & T & C & I & L).
  inversion I; subst logger c1; clear I.
  assert (P : py = predict bm (np_array dfX)).
  { pose proof T as T'. unfold train_model in T'. simpl in T'.
    apply bind_Ok in T'. destruct T' as [r [_ T']]. now inversion T'. }
  pose proof (log_results_outcome fails str
                {| logger_tracking_uri := "http://localhost:5000" |}
                "ElasticNet" bm bp (MSE m) (MAE m) (RMSE m) (R2 m) (aR2 m)
                (snd (Mlflow.set_tracking_uri "http://localhost:5000" c)))
    as O.
  simpl in O, L. rewrite L in O. simpl in O.
  destruct (Mlflow.active c) eqn:A; [ discriminate | ].
  assert (U : Mlflow.tracking_uri c' = Some "http://localhost:5000"%string).
  { destruct (fails (Mlflow.calls c)); [ discriminate | ].
    destruct O as (done & rest & r & _ & _ & _ & ->). reflexivity. }
  apply log_results_Ok_content in L; [ | reflexivity ].
  destruct L as (run & En & Ac & Hn & Hs & Hm & Ha & Hp & _).
  exists dfX, dfy, doc, grid, bm, bp, py, m, run. simpl in En.
  repeat split; try assumption.
Qed.

(** Data for the script: a stand-in for scikit-learn's solver, which fits
    the intercept only (the mean of the targets shrunk by [1 + alpha]) and
    leaves the coefficients at zero; six samples of one feature under the
    paths of the script; a grid for "elasticnet"; a reliable tracker. *)
Module ScriptExample.

Local Open Scope float_scope.
Local Open Scope string_scope.

Definition param (name : string) (ps : list (string * float)) (default : float)
  : float :=
  match find (fun kv => String.eqb (fst kv) name) ps with
  | Some kv => snd kv
  | None => default
  end.

Definition intercept (est : ElasticNet float) : float :=
  match intercept_ est with Some b => b | None => 0 end.

#[global] Instance intercept_only : Estimator float float (ElasticNet float) := {|
  set_params := fun est ps =>
    {| alpha := param "alpha" ps (alpha est);
       l1_ratio := param "l1_ratio" ps (l1_ratio est);
       coef_ := None; intercept_ := None |};
  fit := fun est X y =>
    {| alpha := alpha est; l1_ratio := l1_ratio est;
       coef_ := Some (repeat 0 (shape1 X));
       intercept_ := Some (Sklearn.average y / (1 + alpha est)) |};
  predict := fun est X => map (fun _ => intercept est) (rows X);
  score := fun est X y =>
    match Sklearn.r2_score py_float y (map (fun _ => intercept est) (rows X)) with
    | Ok s => val s
    | Raise _ => nan
    end
|}.

Definition str (v : float) : string :=
  if PrimFloat.eqb v 0 then "0.0" else if PrimFloat.eqb v 1 then "1.0" else "0.5".

Definition dfX : DataFrame float :=
  {| columns := ["stops"]; values := [[0]; [1]; [2]; [0]; [1]; [2]] |}.

Definition dfy : DataFrame float :=
  {| columns := ["price"]; values := [[10]; [12]; [14]; [10]; [12]; [15]] |}.

Definition fs : filesystem float :=
  fun path =>
    if String.eqb path "Data\04_encoded_Data\X_train.csv" then Some dfX
    else if String.eqb path "Data\04_encoded_Data\y_train.csv" then Some dfy
    else None.

Definition doc : list (string * list (string * list float)) :=
  [("elasticnet", [("alpha", [1; 0]); ("l1_ratio", [0.5])])].

Definition yaml : string -> option (list (string * list (string * list float))) :=
  fun path => if String.eqb path "params.yaml" then Some doc else None.


Definition rng (population n : nat) : list nat := seq 0 n.

Definition reliable (k : nat) : bool := false.

Definition tracker0 : Mlflow.client float (ElasticNet float) :=
  Mlflow.fresh float (ElasticNet float).

End ScriptExample.


Lemma main_missing_file_witness :
  main py_float ScriptExample.rng ScriptExample.reliable ScriptExample.str
    ScriptExample.fs (fun _ => None) ScriptExample.tracker0
  = (Uncaught FileNotFoundError, ScriptExample.tracker0).
Proof.
  apply (@main_missing_file float float binary64
           ScriptExample.intercept_only py_float ScriptExample.rng
           ScriptExample.reliable ScriptExample.str ScriptExample.fs
           (fun _ => None) ScriptExample.tracker0).
  right. right. reflexivity.
Defined.

Lemma main_records_training_metrics_witness :
  exists c' run,
    main py_float ScriptExample.rng ScriptExample.reliable ScriptExample.str
      ScriptExample.fs ScriptExample.yaml ScriptExample.tracker0
    = (Finished, c')
    /\ Mlflow.ended c' = [run]
    /\ Mlflow.run_name run = Mlflow.Named "ElasticNet"
    /\ map fst (Mlflow.metrics run)
       = ["MSE"; "MAE"; "RMSE"; "R2"; "Adjusted R2"]%string
    /\ map fst (Mlflow.artifacts run) = ["ElasticNet_model"%string].
Proof.
  destruct (main py_float ScriptExample.rng ScriptExample.reliable
              ScriptExample.str ScriptExample.fs ScriptExample.yaml
              ScriptExample.tracker0) as [ex c'] eqn:E.
  assert (X : ex = Finished).
  { pose proof E as E'. vm_compute in E'. inversion E'. reflexivity. }
  subst ex.
  destruct (@main_records_training_metrics float float binary64
              ScriptExample.intercept_only py_float ScriptExample.rng
              ScriptExample.reliable ScriptExample.str ScriptExample.fs
              ScriptExample.yaml ScriptExample.tracker0 c' E)
    as (dfX & dfy & doc & grid & bm & bp & py & m & run
        & _ & _ & _ & _ & _ & _ & _ & _ & En & _ & Hn & _ & Hm & Ha & _).
  exists c', run. split; [ reflexivity | ]. split; [ exact En | ].
  split; [ exact Hn | ]. rewrite Hm, Ha. split; reflexivity.
Defined.

(** ** The name of the model *)

Section ModelName.

Context {F V E : Type} `{Float64 F} `{Estimator F V E} `{PyObject E}.
Variable rng : nat -> nat -> list nat.



End ModelName.

(** Methods do leave traces in this embedding: after [load_X_train] a
    method that reads [self.X_train] returns, where it raised before. *)
Lemma load_X_train_leaves_trace :
  let fs : filesystem float := fun _ => Some ScriptExample.dfX in
  let self := Trainer.init float "X.csv" "y.csv" "params.yaml" in
  let next : Trainer.method float (ndarray2 float) :=
    fun s => (a <- Trainer.getattr (@Trainer.X_train float) s ;; Ok (a, s))%py in
  next self = Raise AttributeError
  /\ (r <- Trainer.load_X_train fs self ;; next (snd r))%py
     = Ok (np_array ScriptExample.dfX,
           Trainer.set_X_train self (np_array ScriptExample.dfX)).
Proof. split; reflexivity. Qed.


